(** * Pump.fun tracker bot ([bot.py]): a shallow embedding and its properties

    The bot listens to the log stream of one Solana program, decodes the
    payload of "create" events, enriches them from three external sources,
    filters and de-duplicates them, and builds an alert for one Telegram
    user.

    The embedding follows [bot.py] function by function.  Python values keep
    their dynamic types, exceptions are explicit results, the two process-wide
    globals ([seen_tokens], [require_socials]) are an explicit state, and the
    coroutines are resumptions whose nodes are the [await]ed external calls. *)

From Stdlib Require Import ZArith NArith Lia Bool Strings.Byte Ascii String.
From Stdlib Require Import DecimalString Floats.SpecFloat.
From stdpp Require Import base decidable countable gmap list.

Set Warnings "-register-all".

Local Open Scope Z_scope.
Local Open Scope list_scope.

(** ** Python text, bytes and exceptions *)

(** A Python [str] is a sequence of Unicode code points, a [bytes] object a
    sequence of octets. *)
Definition str := list N.
Definition bytes := list byte.

(** String literals of the source that are plain ASCII. *)
Definition lit (s : string) : str :=
  List.map N_of_ascii (list_ascii_of_string s).

(** The exception classes that the modelled code can meet. [ExternalError]
    stands for whatever an external call (HTTP client, RPC client, Telegram
    client) raises. *)
Inductive exn :=
| ValueError
| BinasciiError
| UnicodeDecodeError
| AttributeError
| TypeError
| KeyError
| IndexError
| OverflowError
| ZeroDivisionError
| ExternalError.

(** Outcome of evaluating a Python expression or statement block. *)
Inductive result (A : Type) :=
| Ok (a : A)
| Raise (e : exn).
Arguments Ok {A} a.
Arguments Raise {A} e.

Definition rbind {A B} (r : result A) (k : A -> result B) : result B :=
  match r with
  | Ok a => k a
  | Raise e => Raise e
  end.

Declare Scope py_scope.
Delimit Scope py_scope with py.
Notation "x <- r ;; k" := (rbind r (fun x => k))
  (at level 100, r at next level, right associativity) : py_scope.

(** *** Operations on [str] *)

Fixpoint is_prefix (p s : str) : bool :=
  match p, s with
  | [], _ => true
  | _ :: _, [] => false
  | a :: p', b :: s' => N.eqb a b && is_prefix p' s'
  end.

(** [sub in s] *)
Fixpoint str_contains (sub s : str) : bool :=
  is_prefix sub s ||
  match s with
  | [] => false
  | _ :: s' => str_contains sub s'
  end.

(** [s.split(sep)] for a non-empty separator: the pieces between the
    non-overlapping occurrences of [sep], scanned from the left. [skip] counts
    the code points of a matched separator that are still to be consumed and
    [cur] holds the current piece, reversed. *)
Fixpoint split_aux (sep : str) (skip : nat) (cur s : str) : list str :=
  match s with
  | [] => [rev cur]
  | c :: s' =>
      match skip with
      | S k => split_aux sep k cur s'
      | O =>
          if is_prefix sep s
          then rev cur :: split_aux sep (length sep - 1) [] s'
          else split_aux sep 0 (c :: cur) s'
      end
  end.

Definition str_split (sep s : str) : list str := split_aux sep 0 [] s.

(** [str.isspace] on one code point: the code points Python treats as
    whitespace in [strip()] and [split()]. *)
Definition is_space (c : N) : bool :=
  ((9 <=? c) && (c <=? 13) || (28 <=? c) && (c <=? 32)
   || (c =? 133) || (c =? 160) || (c =? 5760)
   || (8192 <=? c) && (c <=? 8202)
   || (c =? 8232) || (c =? 8233) || (c =? 8239) || (c =? 8287)
   || (c =? 12288))%N.

Fixpoint lstrip (s : str) : str :=
  match s with
  | c :: s' => if is_space c then lstrip s' else s
  | [] => []
  end.

(** [s.rstrip(chars)] for a one-character class given as a predicate. *)
Fixpoint rstrip_with (p : N -> bool) (s : str) : str :=
  match s with
  | [] => []
  | c :: s' =>
      match rstrip_with p s' with
      | [] => if p c then [] else [c]
      | r => c :: r
      end
  end.

(** [s.strip()] *)
Definition str_strip (s : str) : str := rstrip_with is_space (lstrip s).

(** [s.rstrip('\x00')] *)
Definition rstrip_nul (s : str) : str := rstrip_with (N.eqb 0) s.

(** [s.split()]: the maximal runs of non-whitespace, in order. *)
Fixpoint words_aux (cur s : str) : list str :=
  match s with
  | [] => match cur with [] => [] | _ => [rev cur] end
  | c :: s' =>
      if is_space c
      then match cur with
           | [] => words_aux [] s'
           | _ => rev cur :: words_aux [] s'
           end
      else words_aux (c :: cur) s'
  end.

Definition str_words (s : str) : list str := words_aux [] s.

(** The concatenation [''.join(l)]. *)
Definition str_join (l : list str) : str := concat l.

(** *** Operations on [bytes] *)

(** [b[lo:hi]] for indices that are not negative: Python clamps a slice to the
    object, it never raises. *)
Definition slice {A} (l : list A) (lo hi : Z) : list A :=
  firstn (Z.to_nat (hi - lo)) (skipn (Z.to_nat lo) l).

(** [int.from_bytes(b, 'little')] *)
Fixpoint from_bytes_little (b : bytes) : Z :=
  match b with
  | [] => 0
  | x :: b' => Z.of_N (Byte.to_N x) + 256 * from_bytes_little b'
  end.

Definition byte_of_Z (z : Z) : byte :=
  match Byte.of_N (Z.to_N (z mod 256)) with
  | Some b => b
  | None => x00
  end.

Definition bytes_eqb (a b : bytes) : bool :=
  bool_decide (List.map Byte.to_N a = List.map Byte.to_N b).

(** *** [bytes.decode('utf-8')]

    The strict decoder: shortest forms only, no surrogates, nothing above
    U+10FFFF; any other byte sequence raises [UnicodeDecodeError]. *)
Definition is_cont (b : N) : bool := ((128 <=? b) && (b <=? 191))%N.
Definition in_range (lo hi b : N) : bool := ((lo <=? b) && (b <=? hi))%N.

Fixpoint utf8_decode_aux (fuel : nat) (b : list N) : result str :=
  match fuel with
  | O => Ok []
  | S fuel' =>
      match b with
      | [] => Ok []
      | b0 :: r0 =>
          if (b0 <=? 127)%N then
            (s <- utf8_decode_aux fuel' r0 ;; Ok (b0 :: s))%py
          else if in_range 194 223 b0 then
            match r0 with
            | b1 :: r1 =>
                if is_cont b1 then
                  (s <- utf8_decode_aux fuel' r1 ;;
                   Ok (((b0 - 192) * 64 + (b1 - 128))%N :: s))%py
                else Raise UnicodeDecodeError
            | _ => Raise UnicodeDecodeError
            end
          else if in_range 224 239 b0 then
            match r0 with
            | b1 :: b2 :: r2 =>
                if in_range (if (b0 =? 224)%N then 160 else 128)
                            (if (b0 =? 237)%N then 159 else 191) b1
                   && is_cont b2
                then
                  (s <- utf8_decode_aux fuel' r2 ;;
                   Ok (((b0 - 224) * 4096 + (b1 - 128) * 64 + (b2 - 128))%N :: s))%py
                else Raise UnicodeDecodeError
            | _ => Raise UnicodeDecodeError
            end
          else if in_range 240 244 b0 then
            match r0 with
            | b1 :: b2 :: b3 :: r3 =>
                if in_range (if (b0 =? 240)%N then 144 else 128)
                            (if (b0 =? 244)%N then 143 else 191) b1
                   && is_cont b2 && is_cont b3
                then
                  (s <- utf8_decode_aux fuel' r3 ;;
                   Ok (((b0 - 240) * 262144 + (b1 - 128) * 4096
                        + (b2 - 128) * 64 + (b3 - 128))%N :: s))%py
                else Raise UnicodeDecodeError
            | _ => Raise UnicodeDecodeError
            end
          else Raise UnicodeDecodeError
      end
  end.

(** Every step consumes at least one byte, so the length of the input is
    enough fuel. *)
Definition utf8_decode (b : bytes) : result str :=
  utf8_decode_aux (length b) (List.map Byte.to_N b).

(** *** [base64.b64decode(s)] on a [str]

    [b64decode] first encodes the text as ASCII ([ValueError] otherwise) and
    hands it to [binascii.a2b_base64] in its default, non-strict mode.  That
    routine skips every character outside the alphabet, stops at a complete
    padding sequence, and raises [binascii.Error] when the data characters do
    not fill their last quad. *)
Definition b64_value (c : N) : option Z :=
  (if in_range 65 90 c then Some (Z.of_N c - 65)
   else if in_range 97 122 c then Some (Z.of_N c - 71)
   else if in_range 48 57 c then Some (Z.of_N c + 4)
   else if (c =? 43)%N then Some 62
   else if (c =? 47)%N then Some 63
   else None).

(** The scanning loop: [quad_pos] is the position in the current group of
    four, [leftchar] the bits carried over, [pads] the padding characters seen
    since the last data character; the output is accumulated in reverse. *)
Fixpoint a2b_loop (s : str) (quad_pos : nat) (leftchar : Z) (pads : nat)
    (out : bytes) : result bytes :=
  match s with
  | [] =>
      match quad_pos with
      | O => Ok (rev out)
      | _ => Raise BinasciiError
      end
  | c :: s' =>
      if (c =? 61)%N then
        if (2 <=? quad_pos)%nat then
          if (4 <=? quad_pos + S pads)%nat then Ok (rev out)
          else a2b_loop s' quad_pos leftchar (S pads) out
        else a2b_loop s' quad_pos leftchar pads out
      else
        match b64_value c with
        | None => a2b_loop s' quad_pos leftchar pads out
        | Some v =>
            match quad_pos with
            | 0%nat => a2b_loop s' 1%nat v 0%nat out
            | 1%nat =>
                a2b_loop s' 2%nat (Z.land v 15) 0%nat
                  (byte_of_Z (Z.lor (Z.shiftl leftchar 2) (Z.shiftr v 4)) :: out)
            | 2%nat =>
                a2b_loop s' 3%nat (Z.land v 3) 0%nat
                  (byte_of_Z (Z.lor (Z.shiftl leftchar 4) (Z.shiftr v 2)) :: out)
            | _ =>
                a2b_loop s' 0%nat 0 0%nat
                  (byte_of_Z (Z.lor (Z.shiftl leftchar 6) v) :: out)
            end
        end
  end.

Definition b64decode (s : str) : result bytes :=
  if forallb (fun c => (c <=? 127)%N) s
  then a2b_loop s 0 0 0 []
  else Raise ValueError.

(** ** The decoding step of [handle_create] (lines 120-130) *)

(** Discriminator for the Create instruction (first 8 bytes). *)
Definition CREATE_DISC : bytes := [x18; x1e; xc8; x28; x05; x1c; x07; x77].

Definition PROGRAM_DATA : str := lit "Program data: ".

(** The fields that the decoding step binds: [name], [symbol], [uri]. *)
Record creation := {
  c_name : str;
  c_symbol : str;
  c_uri : str
}.

(** The bytes of [data_bytes] once the discriminator matched. *)
Definition parse_create (data_bytes : bytes) : result creation :=
  (name <- utf8_decode (slice data_bytes 8 40) ;;
   symbol <- utf8_decode (slice data_bytes 40 72) ;;
   let uri_len := from_bytes_little (slice data_bytes 72 76) in
   uri <- utf8_decode (slice data_bytes 76 (76 + uri_len)) ;;
   Ok {| c_name := rstrip_nul name;
         c_symbol := rstrip_nul symbol;
         c_uri := rstrip_nul uri |})%py.

(** The payload text selected from the batch: the second piece of the first
    line that contains the marker, stripped. [None] when no line has it. *)
Definition select_payload (logs : list str) : option (result str) :=
  match List.filter (str_contains PROGRAM_DATA) logs with
  | [] => None
  | l :: _ =>
      Some match nth_error (str_split PROGRAM_DATA l) 1 with
           | Some p => Ok (str_strip p)
           | None => Raise IndexError
           end
  end.

(** Lines 120-130. [Ok None] is the bare [return] that drops the event;
    [Raise] is an exception that leaves [handle_create]. *)
Definition decode_create (logs : list str) : result (option creation) :=
  match select_payload logs with
  | None => Ok None
  | Some payload =>
      (data_b64 <- payload ;;
       data_bytes <- b64decode data_b64 ;;
       if negb (bytes_eqb (slice data_bytes 0 8) CREATE_DISC) then Ok None
       else c <- parse_create data_bytes ;; Ok (Some c))%py
  end.

(** ** Python values

    The JSON documents that the fetchers receive, and the dictionaries that
    the bot builds from them, keep their dynamic types: an operation applied
    to a value of the wrong type raises. A [dict] lists its items in insertion
    order; its keys are strings. *)
Inductive value :=
| VNone
| VBool (b : bool)
| VInt (z : Z)
| VFloat (f : spec_float)
| VStr (s : str)
| VList (l : list value)
| VDict (d : list (str * value)).

Definition dict := list (str * value).

(** What the bot takes from outside its own source: the authorized Telegram
    id read from the process environment, Python's [str.lower] (Unicode case
    tables) and the text that [str()] produces for floats and containers. *)
Class Environment := {
  YOUR_ID : Z;
  str_lower : str -> str;
  repr_value : value -> str
}.

Definition str_eqb (a b : str) : bool := bool_decide (a = b).

Fixpoint dict_lookup (d : dict) (k : str) : option value :=
  match d with
  | [] => None
  | (k', v) :: d' => if str_eqb k' k then Some v else dict_lookup d' k
  end.

(** [d.get(k, default)] on a dictionary. *)
Definition dict_get (d : dict) (k : str) (default : value) : value :=
  match dict_lookup d k with
  | Some v => v
  | None => default
  end.

(** [d[k]] on a dictionary. *)
Definition dict_item (d : dict) (k : str) : result value :=
  match dict_lookup d k with
  | Some v => Ok v
  | None => Raise KeyError
  end.

(** [bool(v)] *)
Definition truthy (v : value) : bool :=
  match v with
  | VNone => false
  | VBool b => b
  | VInt z => negb (z =? 0)
  | VFloat (S754_zero _) => false
  | VFloat _ => true
  | VStr s => match s with [] => false | _ => true end
  | VList l => match l with [] => false | _ => true end
  | VDict d => match d with [] => false | _ => true end
  end.

(** [a or b] *)
Definition py_or (a b : value) : value := if truthy a then a else b.

(** [v.get(k, default)]: only a dictionary has the method. *)
Definition py_get (v : value) (k : str) (default : value) : result value :=
  match v with
  | VDict d => Ok (dict_get d k default)
  | _ => Raise AttributeError
  end.

(** [v.lower()]: only a string has the method. *)
Definition py_lower `{Environment} (v : value) : result str :=
  match v with
  | VStr s => Ok (str_lower s)
  | _ => Raise AttributeError
  end.

(** [v[k]] with a string key. *)
Definition py_item (v : value) (k : str) : result value :=
  match v with
  | VDict d => dict_item d k
  | _ => Raise TypeError
  end.

(** [v[0]] *)
Definition py_first (v : value) : result value :=
  match v with
  | VList (x :: _) => Ok x
  | VList [] => Raise IndexError
  | VStr (c :: _) => Ok (VStr [c])
  | VStr [] => Raise IndexError
  | VDict _ => Raise KeyError
  | _ => Raise TypeError
  end.

(** [needle in v] for a string [needle]. *)
Definition py_in (needle : str) (v : value) : result bool :=
  match v with
  | VStr s => Ok (str_contains needle s)
  | VList l =>
      Ok (existsb (fun x => match x with VStr s => str_eqb s needle | _ => false end) l)
  | VDict d => Ok (existsb (fun kv => str_eqb (fst kv) needle) d)
  | _ => Raise TypeError
  end.

(** The items that [for s in v] visits. *)
Definition py_iter (v : value) : result (list value) :=
  match v with
  | VList l => Ok l
  | VStr s => Ok (List.map (fun c => VStr [c]) s)
  | VDict d => Ok (List.map (fun kv => VStr (fst kv)) d)
  | _ => Raise TypeError
  end.

(** [next((w for w in l if p w), "")] *)
Definition first_word (p : str -> bool) (l : list str) : str :=
  match List.find p l with
  | Some w => w
  | None => []
  end.

(** ** Number formatting *)

Definition decimal (n : Z) : str :=
  lit (DecimalString.NilZero.string_of_uint (N.to_uint (Z.to_N n))).

(** Thousands separators, on the reversed digits. *)
Fixpoint group3 (r : str) : str :=
  match r with
  | a :: b :: c :: (_ :: _) as rest => a :: b :: c :: 44%N :: group3 rest
  | _ => r
  end.

Definition zero_pad (width : nat) (s : str) : str :=
  repeat 48%N (width - length s) ++ s.

(** [float(z)]: the nearest binary64, ties to even. *)
Definition float_of_int (z : Z) : result spec_float :=
  match binary_normalize 53 1024 z 0 false with
  | S754_infinity _ => Raise OverflowError
  | f => Ok f
  end.

(** The value of a finite float times [10^prec], rounded to an integer, ties
    to even: the digits that the ['f'] presentation prints. *)
Definition scaled_digits (m : positive) (e : Z) (prec : nat) : Z :=
  let p10 := 10 ^ Z.of_nat prec in
  if 0 <=? e then Z.pos m * 2 ^ e * p10
  else
    let num := Z.pos m * p10 in
    let den := 2 ^ (- e) in
    let q := num / den in
    let r := num mod den in
    match 2 * r ?= den with
    | Lt => q
    | Gt => q + 1
    | Eq => if Z.even q then q else q + 1
    end.

Definition fixed_point (thousands : bool) (prec : nat) (neg : bool) (scaled : Z) : str :=
  let p10 := 10 ^ Z.of_nat prec in
  let ip := decimal (scaled / p10) in
  (if neg then [45%N] else [])
  ++ (if thousands then rev (group3 (rev ip)) else ip)
  ++ match prec with
     | O => []
     | _ => 46%N :: zero_pad prec (decimal (scaled mod p10))
     end.

(** [format(f, ',.Nf')] and [format(f, '.Nf')] on a float. *)
Definition format_float (thousands : bool) (prec : nat) (f : spec_float) : str :=
  match f with
  | S754_nan => lit "nan"
  | S754_infinity s => (if s then [45%N] else []) ++ lit "inf"
  | S754_zero s => fixed_point thousands prec s 0
  | S754_finite s m e => fixed_point thousands prec s (scaled_digits m e prec)
  end.

(** The replacement field [{v:,.Nf}] or [{v:.Nf}]: numbers are printed in fixed
    point, a string rejects the presentation type with [ValueError], and
    [None] and the containers do not take a format string at all. *)
Definition format_f (thousands : bool) (prec : nat) (v : value) : result str :=
  match v with
  | VFloat f => Ok (format_float thousands prec f)
  | VInt z => (f <- float_of_int z ;; Ok (format_float thousands prec f))%py
  | VBool b => Ok (format_float thousands prec
                     (if b then S754_finite false 4503599627370496 (-52)
                      else S754_zero false))
  | VStr _ => Raise ValueError
  | VNone | VList _ | VDict _ => Raise TypeError
  end.

(** The replacement field [{v}], that is [str(v)]. *)
Definition py_str `{Environment} (v : value) : str :=
  match v with
  | VStr s => s
  | VInt z => (if z <? 0 then [45%N] else []) ++ decimal (Z.abs z)
  | VBool b => if b then lit "True" else lit "False"
  | VNone => lit "None"
  | _ => repr_value v
  end.


(** ** Utility functions (lines 39-97) *)

(** An HTTP response as the fetchers use it: [r.status_code], and [r.json()],
    which raises when the body is not JSON. *)
Record http_response := {
  status_code : Z;
  json : result value
}.

(** Body of [fetch_metadata] once [http.get(uri)] has returned or raised. *)
Definition metadata_of_response (resp : result http_response) : value :=
  match (r <- resp ;;
         if status_code r =? 200 then json r else Ok (VDict []))%py
  with
  | Ok v => v
  | Raise _ => VDict []
  end.

(** The condition of the generator of line 57:
    ["discord.gg" in w or "discord.com" in w]. *)
Definition is_discord_link (w : str) : bool :=
  str_contains (lit "discord.gg") w || str_contains (lit "discord.com") w.

(** Pull TG/Discord from metadata. The coroutine awaits nothing; it has no
    [try], so a document of an unexpected shape raises. *)
Definition extract_socials `{Environment} (metadata : value) : result dict :=
  (ext <- py_get metadata (lit "external_url") (VStr []) ;;
   let ext := py_or ext (VStr []) in
   d <- py_get metadata (lit "description") (VStr []) ;;
   desc <- py_lower d ;;
   let tg :=
     if str_contains (lit "t.me") desc || str_contains (lit "telegram") desc
     then first_word (str_contains (lit "t.me")) (str_words desc)
     else [] in
   let discord :=
     if str_contains (lit "discord") desc
     then first_word is_discord_link (str_words desc)
     else [] in
   extensions <- py_get metadata (lit "extensions") (VDict []) ;;
   et <- py_get extensions (lit "telegram") VNone ;;
   let tg := py_or et (VStr tg) in
   ed <- py_get extensions (lit "discord") VNone ;;
   let discord := py_or ed (VStr discord) in
   Ok [(lit "tg", tg); (lit "discord", discord)])%py.

(** [next((s["url"] for s in socials if kind in s.get("type", "")), "")]: the
    generator is consumed up to its first item only. *)
Fixpoint first_url (kind : str) (socials : list value) : result value :=
  match socials with
  | [] => Ok (VStr [])
  | s :: rest =>
      (t <- py_get s (lit "type") (VStr []) ;;
       b <- py_in kind t ;;
       if b then py_item s (lit "url") else first_url kind rest)%py
  end.

(** The [try] block of [get_dex_info] after the request: [Ok (Some d)] is its
    [return], [Ok None] is falling out of the [if]. *)
Definition dex_try (resp : result http_response) : result (option dict) :=
  (r <- resp ;;
   data <- json r ;;
   p <- py_get data (lit "pairs") VNone ;;
   has_pairs <- (if truthy p
                 then p' <- py_item data (lit "pairs") ;; Ok (truthy p')
                 else Ok false) ;;
   if has_pairs : bool then
     pairs <- py_item data (lit "pairs") ;;
     pair <- py_first pairs ;;
     info <- py_get pair (lit "info") (VDict []) ;;
     socials <- py_get info (lit "socials") (VList []) ;;
     items <- py_iter socials ;;
     tg <- first_url (lit "telegram") items ;;
     items' <- py_iter socials ;;
     dc <- first_url (lit "discord") items' ;;
     mc <- py_get pair (lit "fdv") (VInt 0) ;;
     holders <- py_get pair (lit "holderCount") (VStr (lit "?")) ;;
     price <- py_get pair (lit "priceUsd") (VInt 0) ;;
     Ok (Some [(lit "mc", mc); (lit "holders", holders); (lit "tg", tg);
               (lit "discord", dc); (lit "price", price)])
   else Ok None)%py.

(** Body of [get_dex_info] once the request has returned or raised: the bare
    [except: pass] and the final [return {}]. *)
Definition dex_of_response (resp : result http_response) : dict :=
  match dex_try resp with
  | Ok (Some d) => d
  | Ok None => []
  | Raise _ => []
  end.

(** An integer as an operand of the division: its exact value, with the
    mantissa as long as it needs to be. *)
Definition exact_int (z : Z) : spec_float :=
  match z with
  | Z0 => S754_zero false
  | Zpos p => S754_finite false p 0
  | Zneg p => S754_finite true p 0
  end.

(** [a / b] on integers: the binary64 nearest to the exact quotient, ties to
    even; [OverflowError] when that is out of range. *)
Definition int_truediv (a b : Z) : result spec_float :=
  if b =? 0 then Raise ZeroDivisionError
  else match SFdiv 53 1024 (exact_int a) (exact_int b) with
       | S754_infinity _ => Raise OverflowError
       | f => Ok f
       end.

(** The binary64 value 5.0, mantissa [5 * 2^50] and exponent [-50]. *)
Definition float_five : spec_float := S754_finite false 5629499534213120 (-50).

(** [f > 5] *)
Definition float_gt_5 (f : spec_float) : bool := SFltb float_five f.

(** Body of [dev_check] once [client.get_balance] has returned the lamports of
    [bal.value] or raised. *)
Definition dev_info_of_balance (bal : result Z) : dict :=
  match (lamports <- bal ;;
         sol <- int_truediv lamports 1000000000 ;;
         Ok [(lit "sol", VFloat sol); (lit "rich", VBool (float_gt_5 sol))])%py
  with
  | Ok d => d
  | Raise _ => [(lit "sol", VInt 0); (lit "rich", VBool false)]
  end.

(** One inline button, and a keyboard as [InlineKeyboardMarkup] holds it:
    rows of buttons. *)
Record button := { b_text : str; b_url : str }.
Definition keyboard := list (list button).

(** The constructor [InlineKeyboardButton] of aiogram 3, called with the
    given positional arguments and the keywords [text] and [url]: aiogram 3 is
    the version that has the [aiogram.filters] module and the [Dispatcher()]
    the bot uses. The class is a pydantic model, whose
    [__init__] takes keyword arguments only: any positional argument raises
    [TypeError]. Without one, a missing [text] fails the validation, a
    [ValueError]. *)
Definition InlineKeyboardButton (positional : list str) (text : option str)
    (url : str) : result button :=
  match positional, text with
  | _ :: _, _ => Raise TypeError
  | [], Some t => Ok {| b_text := t; b_url := url |}
  | [], None => Raise ValueError
  end.

(** Lines 93-97: the label is passed positionally, the url by keyword. *)
Definition buy_keyboard (ca : str) : result keyboard :=
  let url := lit "https://jup.ag/tokens/" ++ ca in
  (b <- InlineKeyboardButton
          [[128176%N] ++ lit " Buy on Jupiter " ++ [128640%N]] None url ;;
   Ok [[b]])%py.

(** ** Process state, external calls and coroutines *)

(** The two globals that the handlers and the pipeline share. *)
Record state := {
  seen_tokens : gset str;
  require_socials : bool
}.

Definition initial_state : state :=
  {| seen_tokens := ∅; require_socials := true |}.

(** A coroutine of the listener task, as a tree: every node that takes a
    continuation from a response is an [await] on an external call, the point
    where the event loop may run something else.  [GetTransaction] stands for
    [client.get_transaction(Signature.from_string(sig), ...)] and yields the
    account keys of [tx.value], [None] when [tx.value] is empty; [GetBalance]
    stands for [client.get_balance(Pubkey.from_string(dev))] and yields
    [bal.value]. Reads and writes of the globals and the clock do not
    suspend. *)
Inductive proc (A : Type) :=
| Ret (a : A)
| Throw (e : exn)
| GetGlobals (k : state -> proc A)
| SetGlobals (st : state) (k : proc A)
| Clock (k : N * N -> proc A)
| GetTransaction (sig : str) (k : result (option (list str)) -> proc A)
| HttpGet (url : str) (timeout : option Z) (k : result http_response -> proc A)
| GetBalance (address : str) (k : result Z -> proc A)
| SendMessage (chat_id : Z) (text : str) (markup : keyboard)
    (k : result unit -> proc A).
Arguments Ret {A} a.
Arguments Throw {A} e.
Arguments GetGlobals {A} k.
Arguments SetGlobals {A} st k.
Arguments Clock {A} k.
Arguments GetTransaction {A} sig k.
Arguments HttpGet {A} url timeout k.
Arguments GetBalance {A} address k.
Arguments SendMessage {A} chat_id text markup k.

Fixpoint pbind {A B} (p : proc A) (f : A -> proc B) : proc B :=
  match p with
  | Ret a => f a
  | Throw e => Throw e
  | GetGlobals k => GetGlobals (fun st => pbind (k st) f)
  | SetGlobals st k => SetGlobals st (pbind k f)
  | Clock k => Clock (fun t => pbind (k t) f)
  | GetTransaction sig k => GetTransaction sig (fun r => pbind (k r) f)
  | HttpGet url timeout k => HttpGet url timeout (fun r => pbind (k r) f)
  | GetBalance a k => GetBalance a (fun r => pbind (k r) f)
  | SendMessage c t m k => SendMessage c t m (fun r => pbind (k r) f)
  end.

(** A synchronous block inside a coroutine. *)
Definition lift {A} (r : result A) : proc A :=
  match r with
  | Ok a => Ret a
  | Raise e => Throw e
  end.

Declare Scope proc_scope.
Delimit Scope proc_scope with proc.
Notation "x <- p ;; k" := (pbind p (fun x => k))
  (at level 100, p at next level, right associativity) : proc_scope.

(** Fetch JSON metadata from Arweave/IPFS URI *)
Definition fetch_metadata (uri : str) : proc value :=
  HttpGet uri (Some 10) (fun resp => Ret (metadata_of_response resp)).

Definition DEX_URL : str := lit "https://api.dexscreener.com/latest/dex/tokens/".

(** Get basic info from DexScreener *)
Definition get_dex_info (ca : str) : proc dict :=
  HttpGet (DEX_URL ++ ca) None (fun resp => Ret (dex_of_response resp)).

Definition dev_check (dev : str) : proc dict :=
  GetBalance dev (fun bal => Ret (dev_info_of_balance bal)).

(** ** Handle New Token (lines 119-164) *)

Definition PARSE_MINT_HERE : str := lit "PARSE_MINT_HERE".

Definition nl : str := [10%N].

(** [datetime.now().strftime('%H:%M WAT')] from the hour and the minute. *)
Definition strftime (t : N * N) : str :=
  zero_pad 2 (decimal (Z.of_N (fst t))) ++ lit ":"
  ++ zero_pad 2 (decimal (Z.of_N (snd t))) ++ lit " WAT".

(** The lines of [social_txt]. *)
Definition social_text `{Environment} (tg dc : value) : str :=
  (if truthy tg then [128241%N] ++ lit " TG: " ++ py_str tg ++ nl else [])
  ++ (if truthy dc then [128172%N] ++ lit " Discord: " ++ py_str dc ++ nl else []).

(** The replacement fields of [msg_txt] up to the clock, evaluated from left
    to right: a field that cannot be formatted raises. *)
Definition message_head `{Environment} (c : creation) (ca dev : str)
    (dev_info dex : dict) (rug social_txt : str) : result str :=
  (sol <- dict_item dev_info (lit "sol") ;;
   sol_txt <- format_f false 2 sol ;;
   rich <- dict_item dev_info (lit "rich") ;;
   let rich_txt := if truthy rich then [128176%N] ++ lit " Rich" else lit "Poor" in
   mc_txt <- format_f true 0 (dict_get dex (lit "mc") (VStr (lit "?"))) ;;
   let holders_txt := py_str (dict_get dex (lit "holders") (VStr (lit "?"))) in
   price_txt <- format_f false 8 (dict_get dex (lit "price") (VInt 0)) ;;
   Ok (nl ++ [127381%N] ++ lit " **NEW PUMP.FUN COIN WITH SOCIALS!**" ++ nl
       ++ lit "CA: `" ++ ca ++ lit "`" ++ nl
       ++ lit "Name: " ++ c_name c ++ lit " (" ++ c_symbol c ++ lit ")" ++ nl
       ++ lit "Dev: `" ++ dev ++ lit "` (SOL: " ++ sol_txt ++ lit " "
       ++ rich_txt ++ lit ")" ++ nl
       ++ lit "MC: $" ++ mc_txt ++ lit " | Holders: " ++ holders_txt ++ nl
       ++ lit "Price: $" ++ price_txt ++ nl
       ++ rug ++ nl
       ++ social_txt ++ nl
       ++ lit "Time: "))%py.

(** [dex.get(k) or socials_meta[k]] (lines 144-145). *)
Definition final_social (dex socials_meta : dict) (k : str) : result value :=
  let a := dict_get dex k VNone in
  if truthy a then Ok a else dict_item socials_meta k.

(** The condition of line 146: [require_socials and not (tg or dc)]. *)
Definition filter_rejects (st : state) (tg dc : value) : bool :=
  require_socials st && negb (truthy (py_or tg dc)).

(** Lines 141-164: enrichment, filter and alert, entered once the mint has
    been added to [seen_tokens]. *)
Definition enrich_and_notify `{Environment} (c : creation) (ca dev : str)
    : proc unit :=
  (meta <- fetch_metadata (c_uri c) ;;
   socials_meta <- lift (extract_socials meta) ;;
   dex <- get_dex_info ca ;;
   tg <- lift (final_social dex socials_meta (lit "tg")) ;;
   dc <- lift (final_social dex socials_meta (lit "discord")) ;;
   GetGlobals (fun st =>
     if filter_rejects st tg dc then Ret tt
     else
       dev_info <- dev_check dev ;;
       rich <- lift (dict_item dev_info (lit "rich")) ;;
       let rug := if truthy rich then [128994%N] ++ lit " Low risk"
                  else [128308%N] ++ lit " Watch dev" in
       let social_txt := social_text tg dc in
       head <- lift (message_head c ca dev dev_info dex rug social_txt) ;;
       Clock (fun t =>
         let msg_txt := head ++ strftime t ++ nl ++ lit "    " in
         kb <- lift (buy_keyboard ca) ;;
         SendMessage YOUR_ID msg_txt kb lift)))%proc.

Definition handle_create `{Environment} (logs : list str) (sig : str)
    : proc unit :=
  (c <- lift (decode_create logs) ;;
   match c with
   | None => Ret tt
   | Some c =>
       GetTransaction sig (fun tx =>
         v <- lift tx ;;
         match v with
         | None => Ret tt
         | Some accounts =>
             dev <- lift (match accounts with
                          | a :: _ => Ok a
                          | [] => Raise IndexError
                          end) ;;
             let ca := PARSE_MINT_HERE in
             GetGlobals (fun st =>
               if bool_decide (ca ∈ seen_tokens st) then Ret tt
               else
                 SetGlobals {| seen_tokens := {[ca]} ∪ seen_tokens st;
                               require_socials := require_socials st |}
                   (enrich_and_notify c ca dev))
         end)
   end)%proc.

(** ** Telegram commands (lines 100-116) *)

(** What leaves the process, in the order in which it is issued. *)
Inductive effect :=
| EGetTransaction (sig : str)
| EHttpGet (url : str) (timeout : option Z)
| EGetBalance (address : str)
| ESendMessage (chat_id : Z) (text : str) (markup : keyboard)
| EAnswer (text : str).

(** The command filters of the three decorators. *)
Inductive command := CmdStart | CmdStatus | CmdSocials | CmdOther.

(** An incoming Telegram message: [msg.from_user] (its [id], [None] for a
    message without a sender), the command it matches, and what
    [await msg.answer(...)] will do. *)
Record message := {
  from_user : option Z;
  msg_command : command;
  answer_outcome : result unit
}.

(** A command handler runs up to its single [await], the last statement, in
    one piece: it maps the globals to its outcome, the new globals and what it
    sent. *)
Definition handler := state -> result unit * state * list effect.

Definition start `{Environment} (msg : message) : handler := fun st =>
  match from_user msg with
  | None => (Raise AttributeError, st, [])
  | Some id =>
      if negb (id =? YOUR_ID) then (Ok tt, st, [])
      else (answer_outcome msg, st,
            [EAnswer ([128293%N]
                      ++ lit " Pump.fun Tracker ON! Only coins WITH TG/Discord."
                      ++ nl ++ lit "/socials toggle | /status")])
  end.

Definition status `{Environment} (msg : message) : handler := fun st =>
  match from_user msg with
  | None => (Raise AttributeError, st, [])
  | Some id =>
      if negb (id =? YOUR_ID) then (Ok tt, st, [])
      else
        let filt := if require_socials st then lit "TG/Discord required"
                    else lit "All" in
        (answer_outcome msg, st,
         [EAnswer (lit "Seen: " ++ decimal (Z.of_nat (size (seen_tokens st)))
                   ++ nl ++ lit "Filter: " ++ filt)])
  end.

Definition toggle `{Environment} (msg : message) : handler := fun st =>
  match from_user msg with
  | None => (Raise AttributeError, st, [])
  | Some id =>
      if negb (id =? YOUR_ID) then (Ok tt, st, [])
      else
        let st' := {| seen_tokens := seen_tokens st;
                      require_socials := negb (require_socials st) |} in
        (answer_outcome msg, st',
         [EAnswer (lit "Social filter: "
                   ++ (if require_socials st' then lit "ON (only TG/Disc)"
                       else lit "OFF"))])
  end.

(** The dispatcher: the handler registered for the command, if any. *)
Definition dispatch `{Environment} (msg : message) : handler :=
  match msg_command msg with
  | CmdStart => start msg
  | CmdStatus => status msg
  | CmdSocials => toggle msg
  | CmdOther => fun st => (Ok tt, st, [])
  end.

(** Updates handled one after the other; an exception in a handler stays in
    the dispatcher. *)
Fixpoint dispatch_all `{Environment} (msgs : list message) (st : state)
    : state * list effect :=
  match msgs with
  | [] => (st, [])
  | m :: rest =>
      let '(_, st1, tr1) := dispatch m st in
      let '(st2, tr2) := dispatch_all rest st1 in
      (st2, tr1 ++ tr2)
  end.

(** ** Running a coroutine against the outside world *)

(** What the outside does during one run of the pipeline: the answer to each
    external call, the clock, and the Telegram updates that the polling task
    handles while the [n]-th [await] of the pipeline is pending. *)
Record world := {
  w_transaction : str -> result (option (list str));
  w_http : nat -> str -> option Z -> result http_response;
  w_balance : str -> result Z;
  w_clock : N * N;
  w_send : Z -> str -> keyboard -> result unit;
  w_updates : nat -> list message
}.

Section Run.
Context `{Environment} {A : Type} (w : world).

(** At an [await] the request is issued, the pending updates are handled,
    and the coroutine resumes with the response. [n] counts the [await]s
    taken so far. *)
Definition suspend (e : effect) (n : nat) (st : state)
    (resume : state -> result A * state * list effect)
    : result A * state * list effect :=
  let '(st1, tr1) := dispatch_all (w_updates w n) st in
  let '(r, st2, tr2) := resume st1 in
  (r, st2, e :: tr1 ++ tr2).

Fixpoint run (p : proc A) (n : nat) (st : state)
    : result A * state * list effect :=
  match p with
  | Ret a => (Ok a, st, [])
  | Throw e => (Raise e, st, [])
  | GetGlobals k => run (k st) n st
  | SetGlobals st' k => run k n st'
  | Clock k => run (k (w_clock w)) n st
  | GetTransaction sig k =>
      suspend (EGetTransaction sig) n st (run (k (w_transaction w sig)) (S n))
  | HttpGet url timeout k =>
      suspend (EHttpGet url timeout) n st (run (k (w_http w n url timeout)) (S n))
  | GetBalance a k =>
      suspend (EGetBalance a) n st (run (k (w_balance w a)) (S n))
  | SendMessage c t m k =>
      suspend (ESendMessage c t m) n st (run (k (w_send w c t m)) (S n))
  end.
End Run.

(** ** WebSocket listener and main (lines 167-185) *)

(** One iteration of [async for msg in ws]: [payload] is [None] when the
    message fails the [hasattr]/['value' in] test, otherwise the logs and the
    signature of [msg.result.value]. *)
Definition ws_listener_iter `{Environment} (payload : option (list str * str))
    : proc unit :=
  match payload with
  | Some (logs, sig) =>
      if str_contains (lit "Instruction: Create") (str_join logs)
      then handle_create logs sig
      else Ret tt
  | None => Ret tt
  end.

(** What reaches the process: a Telegram update for the polling task, or a
    message of the log subscription together with what the outside does while
    the listener works on it. *)
Inductive input :=
| Update (msg : message)
| LogMessage (payload : option (list str * str)) (w : world).

(** The process: its globals and whether the listener task is still in its
    loop. An exception that leaves [handle_create] leaves [ws_listener] too and
    ends the task; polling goes on. *)
Record process := {
  globals : state;
  listening : bool
}.

Definition step `{Environment} (i : input) (p : process)
    : process * list effect :=
  match i with
  | Update msg =>
      let '(_, st, tr) := dispatch msg (globals p) in
      ({| globals := st; listening := listening p |}, tr)
  | LogMessage payload w =>
      if listening p then
        let '(r, st, tr) := run w (ws_listener_iter payload) 0 (globals p) in
        ({| globals := st;
            listening := match r with Ok _ => true | Raise _ => false end |}, tr)
      else (p, [])
  end.

Fixpoint main `{Environment} (inputs : list input) (p : process)
    : process * list effect :=
  match inputs with
  | [] => (p, [])
  | i :: rest =>
      let '(p1, tr1) := step i p in
      let '(p2, tr2) := main rest p1 in
      (p2, tr1 ++ tr2)
  end.

Definition boot : process := {| globals := initial_state; listening := true |}.

(** The alerts among the effects. *)
Definition is_alert (e : effect) : bool :=
  match e with
  | ESendMessage _ _ _ => true
  | _ => false
  end.

Definition alerts (tr : list effect) : list effect := List.filter is_alert tr.

(** The external calls among the effects: everything but the answers of the
    command handlers. *)
Definition is_call (e : effect) : bool :=
  match e with
  | EAnswer _ => false
  | _ => true
  end.

Definition calls (tr : list effect) : list effect := List.filter is_call tr.

(** ** The runs of the pipeline, case by case

    The globals after the updates that arrive during the [n]-th [await], and
    the answers that these updates produce. *)
Definition after_updates `{Environment} (w : world) (n : nat) (st : state)
    : state :=
  fst (dispatch_all (w_updates w n) st).

Definition answers `{Environment} (w : world) (n : nat) (st : state)
    : list effect :=
  snd (dispatch_all (w_updates w n) st).

Section Cases.
Context `{Environment} (w : world).

Section Enrich.
Context (c : creation) (ca dev : str) (n : nat) (st : state).

(** The intermediate values of lines 141-164 in a run that starts with
    its [n]-th [await] in [st]. *)
Definition st_meta : state := after_updates w n st.
Definition st_dex : state := after_updates w (S n) st_meta.
Definition st_dev : state := after_updates w (S (S n)) st_dex.
Definition st_sent : state := after_updates w (S (S (S n))) st_dev.
Definition the_meta : value :=
  metadata_of_response (w_http w n (c_uri c) (Some 10)).
Definition the_dex : dict :=
  dex_of_response (w_http w (S n) (DEX_URL ++ ca) None).
Definition the_dev_info : dict := dev_info_of_balance (w_balance w dev).
Definition to_dex : list effect :=
  EHttpGet (c_uri c) (Some 10) :: answers w n st
  ++ EHttpGet (DEX_URL ++ ca) None :: answers w (S n) st_meta.
Definition to_dev : list effect :=
  to_dex ++ EGetBalance dev :: answers w (S (S n)) st_dex.
Definition the_rug (rich : value) : str :=
  if truthy rich then [128994%N] ++ lit " Low risk"
  else [128308%N] ++ lit " Watch dev".

(** Every way in which [enrich_and_notify] can end: outcome, globals and
    effects. *)
Inductive enrich_run : result unit -> state -> list effect -> Prop :=
| ER_socials_raise e :
    extract_socials the_meta = Raise e ->
    enrich_run (Raise e) st_meta
      (EHttpGet (c_uri c) (Some 10) :: answers w n st)
| ER_tg_raise sm e :
    extract_socials the_meta = Ok sm ->
    final_social the_dex sm (lit "tg") = Raise e ->
    enrich_run (Raise e) st_dex to_dex
| ER_dc_raise sm tg e :
    extract_socials the_meta = Ok sm ->
    final_social the_dex sm (lit "tg") = Ok tg ->
    final_social the_dex sm (lit "discord") = Raise e ->
    enrich_run (Raise e) st_dex to_dex
| ER_rejected sm tg dc :
    extract_socials the_meta = Ok sm ->
    final_social the_dex sm (lit "tg") = Ok tg ->
    final_social the_dex sm (lit "discord") = Ok dc ->
    filter_rejects st_dex tg dc = true ->
    enrich_run (Ok tt) st_dex to_dex
| ER_rich_raise sm tg dc e :
    extract_socials the_meta = Ok sm ->
    final_social the_dex sm (lit "tg") = Ok tg ->
    final_social the_dex sm (lit "discord") = Ok dc ->
    filter_rejects st_dex tg dc = false ->
    dict_item the_dev_info (lit "rich") = Raise e ->
    enrich_run (Raise e) st_dev to_dev
| ER_text_raise sm tg dc rich e :
    extract_socials the_meta = Ok sm ->
    final_social the_dex sm (lit "tg") = Ok tg ->
    final_social the_dex sm (lit "discord") = Ok dc ->
    filter_rejects st_dex tg dc = false ->
    dict_item the_dev_info (lit "rich") = Ok rich ->
    message_head c ca dev the_dev_info the_dex (the_rug rich)
      (social_text tg dc) = Raise e ->
    enrich_run (Raise e) st_dev to_dev
| ER_keyboard_raise sm tg dc rich head e :
    extract_socials the_meta = Ok sm ->
    final_social the_dex sm (lit "tg") = Ok tg ->
    final_social the_dex sm (lit "discord") = Ok dc ->
    filter_rejects st_dex tg dc = false ->
    dict_item the_dev_info (lit "rich") = Ok rich ->
    message_head c ca dev the_dev_info the_dex (the_rug rich)
      (social_text tg dc) = Ok head ->
    buy_keyboard ca = Raise e ->
    enrich_run (Raise e) st_dev to_dev
| ER_sent sm tg dc rich head kb :
    extract_socials the_meta = Ok sm ->
    final_social the_dex sm (lit "tg") = Ok tg ->
    final_social the_dex sm (lit "discord") = Ok dc ->
    filter_rejects st_dex tg dc = false ->
    dict_item the_dev_info (lit "rich") = Ok rich ->
    message_head c ca dev the_dev_info the_dex (the_rug rich)
      (social_text tg dc) = Ok head ->
    buy_keyboard ca = Ok kb ->
    let text := head ++ strftime (w_clock w) ++ nl ++ lit "    " in
    enrich_run (w_send w YOUR_ID text kb) st_sent
      (to_dev ++ ESendMessage YOUR_ID text kb
              :: answers w (S (S (S n))) st_dev).
End Enrich.

(** The globals once the mint has been recorded (line 139). *)
Definition mark_seen (ca : str) (st : state) : state :=
  {| seen_tokens := {[ca]} ∪ seen_tokens st;
     require_socials := require_socials st |}.

(** Every way in which [handle_create], run from its first [await] in [st],
    can end. *)
Inductive handle_run (logs : list str) (sig : str) (st : state)
  : result unit -> state -> list effect -> Prop :=
| HR_decode_raise e :
    decode_create logs = Raise e ->
    handle_run logs sig st (Raise e) st []
| HR_discarded :
    decode_create logs = Ok None ->
    handle_run logs sig st (Ok tt) st []
| HR_tx_raise c e :
    decode_create logs = Ok (Some c) ->
    w_transaction w sig = Raise e ->
    handle_run logs sig st (Raise e) (after_updates w 0 st)
      (EGetTransaction sig :: answers w 0 st)
| HR_unresolved c :
    decode_create logs = Ok (Some c) ->
    w_transaction w sig = Ok None ->
    handle_run logs sig st (Ok tt) (after_updates w 0 st)
      (EGetTransaction sig :: answers w 0 st)
| HR_no_account c :
    decode_create logs = Ok (Some c) ->
    w_transaction w sig = Ok (Some []) ->
    handle_run logs sig st (Raise IndexError) (after_updates w 0 st)
      (EGetTransaction sig :: answers w 0 st)
| HR_duplicate c dev accounts :
    decode_create logs = Ok (Some c) ->
    w_transaction w sig = Ok (Some (dev :: accounts)) ->
    PARSE_MINT_HERE ∈ seen_tokens (after_updates w 0 st) ->
    handle_run logs sig st (Ok tt) (after_updates w 0 st)
      (EGetTransaction sig :: answers w 0 st)
| HR_fresh c dev accounts r st' tr :
    decode_create logs = Ok (Some c) ->
    w_transaction w sig = Ok (Some (dev :: accounts)) ->
    PARSE_MINT_HERE ∉ seen_tokens (after_updates w 0 st) ->
    enrich_run c PARSE_MINT_HERE dev 1
      (mark_seen PARSE_MINT_HERE (after_updates w 0 st)) r st' tr ->
    handle_run logs sig st r st'
      (EGetTransaction sig :: answers w 0 st ++ tr).
End Cases.

(** The globals as line 146 of [handle_create] reads them, in a run that
    starts in [st] and gets as far as the filter: the mint has been recorded,
    and the updates that arrived during the first three [await]s have been
    handled. *)
Definition filter_state `{Environment} (w : world) (st : state) : state :=
  st_dex w 1 (mark_seen PARSE_MINT_HERE (after_updates w 0 st)).

(** The calls of a coroutine that stopped at the duplicate check or before:
    the transaction lookup only. *)
Definition is_lookup (e : effect) : bool :=
  match e with
  | EGetTransaction _ => true
  | _ => false
  end.

(** ** A concrete environment and concrete inputs for the examples *)

Definition ascii_lower (s : str) : str :=
  List.map (fun c => if in_range 65 90 c then (c + 32)%N else c) s.

Definition sample_env : Environment :=
  {| YOUR_ID := 1001; str_lower := ascii_lower; repr_value := fun _ => lit "<value>" |}.

(** A batch with a well-formed create payload: name "Foo", symbol "FOO",
    uri "https://x/y.json". *)
Definition foo_logs : list str :=
  [lit "Program log: Instruction: Create";
   lit "Program data: GB7IKAUcB3dGb28AAAAAAAAAAAAAAAAAAAAAAAAAAAAAAAAAAAAAAEZPTwAAAAAAAAAAAAAAAAAAAAAAAAAAAAAAAAAAAAAAEAAAAGh0dHBzOi8veC95Lmpzb24="].

Definition foo_payload : str :=
  lit "GB7IKAUcB3dGb28AAAAAAAAAAAAAAAAAAAAAAAAAAAAAAAAAAAAAAEZPTwAAAAAAAAAAAAAAAAAAAAAAAAAAAAAAAAAAAAAAEAAAAGh0dHBzOi8veC95Lmpzb24=".

(** The same header with a uri length of 100 and only four bytes after it. *)
Definition overlong_logs : list str :=
  [lit "Program data: GB7IKAUcB3dGb28AAAAAAAAAAAAAAAAAAAAAAAAAAAAAAAAAAAAAAEZPTwAAAAAAAAAAAAAAAAAAAAAAAAAAAAAAAAAAAAAAZAAAAGh0dHA="].

(** The discriminator followed by two bytes only. *)
Definition truncated_logs : list str := [lit "Program data: GB7IKAUcB3dGbw=="].

(** A payload of another instruction: the bytes "12345678". *)
Definition other_logs : list str := [lit "Program data: MTIzNDU2Nzg="].

(** A name field that starts with the byte 0xff. *)
Definition bad_utf8_logs : list str :=
  [lit "Program data: GB7IKAUcB3f/AAAAAAAAAAAAAAAAAAAAAAAAAAAAAAAAAAAAAEZPTwAAAAAAAAAAAAAAAAAAAAAAAAAAAAAAAAAAAAAAEAAAAGh0dHBzOi8veC95Lmpzb24="].

(** Metadata with a structured Telegram link and a description that names
    another one. *)
Definition foo_metadata : value :=
  VDict [(lit "description", VStr (lit "Join T.ME/other or discord.gg/foo today"));
         (lit "extensions", VDict [(lit "telegram", VStr (lit "t.me/foo"))])].

(** Metadata without any link. *)
Definition plain_metadata : value :=
  VDict [(lit "description", VStr (lit "just a coin"))].

(** A market-data document with one pair. *)
Definition foo_market : value :=
  VDict [(lit "pairs",
          VList [VDict [(lit "fdv", VInt 123456);
                        (lit "priceUsd", VFloat (S754_finite false 5 (-3)))]])].

(** A world in which the transaction resolves, the metadata request (the
    second [await]) returns [meta], the market-data request returns [market],
    and the dev wallet holds [lamports]. *)
Definition sample_world (meta : value) (market : result http_response)
    (lamports : Z) (updates : nat -> list message) : world :=
  {| w_transaction := fun _ => Ok (Some [lit "DevWallet111"]);
     w_http := fun n _ _ =>
       if (n =? 1)%nat then Ok {| status_code := 200; json := Ok meta |}
       else market;
     w_balance := fun _ => Ok lamports;
     w_clock := (9%N, 5%N);
     w_send := fun _ _ _ => Ok tt;
     w_updates := updates |}.

Definition no_updates : nat -> list message := fun _ => [].

Definition owner_toggle : message :=
  {| from_user := Some 1001; msg_command := CmdSocials; answer_outcome := Ok tt |}.

Definition stranger (c : command) : message :=
  {| from_user := Some 4242; msg_command := c; answer_outcome := Ok tt |}.

(** Worlds for the examples: one with market data and Telegram in the
    metadata, one without any link and without market data. *)
Definition linked_world : world :=
  sample_world foo_metadata (Ok {| status_code := 200; json := Ok foo_market |})
    1000000000 no_updates.

Definition plain_world : world :=
  sample_world plain_metadata (Raise ExternalError) 1000000000 no_updates.



(** The metadata carries a Telegram link, the market-data request fails. *)
Definition no_market_world : world :=
  sample_world foo_metadata (Raise ExternalError) 1000000000 no_updates.

(** ** Notions used by the further properties *)

(** The Telegram updates among the inputs, in order. *)
Definition updates_of (inputs : list input) : list message :=
  flat_map (fun i => match i with
                     | Update msg => [msg]
                     | LogMessage _ _ => []
                     end) inputs.

(** The characters that [a2b_base64] looks at: the alphabet and the padding
    character. *)
Definition b64_kept (c : N) : bool :=
  (c =? 61)%N || match b64_value c with Some _ => true | None => false end.

(** Unicode scalar values: up to U+10FFFF, surrogates excluded. *)
Definition is_scalar (c : N) : bool :=
  ((c <=? 1114111) && negb ((55296 <=? c) && (c <=? 57343)))%N.

(** The update that flips the filter: the /socials command of the owner. *)
Definition is_owner_toggle `{Environment} (msg : message) : bool :=
  match msg_command msg, from_user msg with
  | CmdSocials, Some id => id =? YOUR_ID
  | _, _ => false
  end.

Definition flip_filter (st : state) : state :=
  {| seen_tokens := seen_tokens st;
     require_socials := negb (require_socials st) |}.

(** A Create batch whose name field is not UTF-8. *)
Definition bad_batch : list str :=
  lit "Program log: Instruction: Create" :: bad_utf8_logs.

(** The number of updates that flip the filter. *)
Definition owner_toggles `{Environment} (msgs : list message) : nat :=
  length (List.filter is_owner_toggle msgs).

(** The shape that [extract_socials] relies on without checking it: a dict
    whose description, when present, is a string and whose extensions, when
    present, are a dict. *)
Definition well_shaped (metadata : value) : bool :=
  match metadata with
  | VDict d =>
      match dict_get d (lit "description") (VStr []),
            dict_get d (lit "extensions") (VDict []) with
      | VStr _, VDict _ => true
      | _, _ => false
      end
  | _ => false
  end.

(** An entry of the socials list that the generators of lines 72-73 pass
    over when they look for [kind]: a dict whose type, when present, is a
    string without [kind] in it. *)
Definition passed_over (kind : str) (s : value) : bool :=
  match s with
  | VDict d =>
      match dict_get d (lit "type") (VStr []) with
      | VStr t => negb (str_contains kind t)
      | _ => false
      end
  | _ => false
  end.

(** The metadata request returns a document whose description is null. *)
Definition null_description_world : world :=
  sample_world (VDict [(lit "description", VNone)])
    (Ok {| status_code := 200; json := Ok foo_market |}) 1000000000 no_updates.

(** A market-data document with two pairs and a socials list whose second
    entry is the first Telegram one; the entry after it has no url. *)
Definition two_pairs : dict :=
  [(lit "schemaVersion", VStr (lit "1.0.0"));
   (lit "pairs",
    VList [VDict [(lit "fdv", VInt 123456);
                  (lit "info",
                   VDict [(lit "socials",
                           VList [VDict [(lit "type", VStr (lit "twitter"));
                                         (lit "url", VStr (lit "https://x.com/foo"))];
                                  VDict [(lit "type", VStr (lit "telegram"));
                                         (lit "url", VStr (lit "https://t.me/foo"))];
                                  VDict [(lit "type", VStr (lit "telegram"))]])])];
           VDict [(lit "fdv", VInt 1)]])].

(** The ways in which an exception leaves [handle_create], and with it
    [ws_listener], each with the path that leads to it: the decoding step
    (lines 123-130), the transaction lookup (line 132), a transaction without
    account keys (line 135), metadata of a shape that [extract_socials] does
    not handle (line 142), a market cap or a price that the text cannot
    format (lines 157-158), and the keyboard (line 163). *)
Inductive failure `{Environment} (w : world) (logs : list str) (sig : str)
    (st : state) : exn -> Prop :=
| F_decode e :
    decode_create logs = Raise e ->
    failure w logs sig st e
| F_lookup c e :
    decode_create logs = Ok (Some c) ->
    w_transaction w sig = Raise e ->
    failure w logs sig st e
| F_no_account c :
    decode_create logs = Ok (Some c) ->
    w_transaction w sig = Ok (Some []) ->
    failure w logs sig st IndexError
| F_metadata c dev accounts :
    decode_create logs = Ok (Some c) ->
    w_transaction w sig = Ok (Some (dev :: accounts)) ->
    PARSE_MINT_HERE ∉ seen_tokens st ->
    well_shaped (the_meta w c 1) = false ->
    failure w logs sig st AttributeError
| F_market_cap c dev accounts sm tg dc e :
    decode_create logs = Ok (Some c) ->
    w_transaction w sig = Ok (Some (dev :: accounts)) ->
    PARSE_MINT_HERE ∉ seen_tokens st ->
    extract_socials (the_meta w c 1) = Ok sm ->
    final_social (the_dex w PARSE_MINT_HERE 1) sm (lit "tg") = Ok tg ->
    final_social (the_dex w PARSE_MINT_HERE 1) sm (lit "discord") = Ok dc ->
    filter_rejects (filter_state w st) tg dc = false ->
    format_f true 0
      (dict_get (the_dex w PARSE_MINT_HERE 1) (lit "mc") (VStr (lit "?")))
      = Raise e ->
    failure w logs sig st e
| F_price c dev accounts sm tg dc mc_txt e :
    decode_create logs = Ok (Some c) ->
    w_transaction w sig = Ok (Some (dev :: accounts)) ->
    PARSE_MINT_HERE ∉ seen_tokens st ->
    extract_socials (the_meta w c 1) = Ok sm ->
    final_social (the_dex w PARSE_MINT_HERE 1) sm (lit "tg") = Ok tg ->
    final_social (the_dex w PARSE_MINT_HERE 1) sm (lit "discord") = Ok dc ->
    filter_rejects (filter_state w st) tg dc = false ->
    format_f true 0
      (dict_get (the_dex w PARSE_MINT_HERE 1) (lit "mc") (VStr (lit "?")))
      = Ok mc_txt ->
    format_f false 8
      (dict_get (the_dex w PARSE_MINT_HERE 1) (lit "price") (VInt 0))
      = Raise e ->
    failure w logs sig st e
| F_keyboard c dev accounts sm tg dc mc_txt price_txt :
    decode_create logs = Ok (Some c) ->
    w_transaction w sig = Ok (Some (dev :: accounts)) ->
    PARSE_MINT_HERE ∉ seen_tokens st ->
    extract_socials (the_meta w c 1) = Ok sm ->
    final_social (the_dex w PARSE_MINT_HERE 1) sm (lit "tg") = Ok tg ->
    final_social (the_dex w PARSE_MINT_HERE 1) sm (lit "discord") = Ok dc ->
    filter_rejects (filter_state w st) tg dc = false ->
    format_f true 0
      (dict_get (the_dex w PARSE_MINT_HERE 1) (lit "mc") (VStr (lit "?")))
      = Ok mc_txt ->
    format_f false 8
      (dict_get (the_dex w PARSE_MINT_HERE 1) (lit "price") (VInt 0))
      = Ok price_txt ->
    failure w logs sig st TypeError.

(** * Properties *)

(** ** Command handlers *)

Section Handlers.
Context `{Environment}.

Lemma dispatch_seen (msg : message) (st : state) :
  seen_tokens (snd (fst (dispatch msg st))) = seen_tokens st.
Proof.
  unfold dispatch, start, status, toggle.
  destruct (msg_command msg), (from_user msg) as [id|]; simpl;
    try destruct (negb (id =? YOUR_ID)); reflexivity.
Qed.

Lemma dispatch_alerts (msg : message) (st : state) :
  alerts (snd (dispatch msg st)) = [].
Proof.
  unfold dispatch, start, status, toggle.
  destruct (msg_command msg), (from_user msg) as [id|]; simpl;
    try destruct (negb (id =? YOUR_ID)); reflexivity.
Qed.

Lemma alerts_app (a b : list effect) : alerts (a ++ b) = alerts a ++ alerts b.
Proof. apply List.filter_app. Qed.

Lemma dispatch_all_seen (msgs : list message) (st : state) :
  seen_tokens (fst (dispatch_all msgs st)) = seen_tokens st.
Proof.
  revert st; induction msgs as [|m rest IH]; intros st; simpl; [reflexivity|].
  pose proof (dispatch_seen m st) as Hm.
  destruct (dispatch m st) as [[r st1] tr1]; simpl in Hm.
  specialize (IH st1). destruct (dispatch_all rest st1) as [st2 tr2].
  simpl in *. congruence.
Qed.

Lemma dispatch_all_alerts (msgs : list message) (st : state) :
  alerts (snd (dispatch_all msgs st)) = [].
Proof.
  revert st; induction msgs as [|m rest IH]; intros st; simpl; [reflexivity|].
  pose proof (dispatch_alerts m st) as Hm.
  destruct (dispatch m st) as [[r st1] tr1]; simpl in Hm.
  specialize (IH st1). destruct (dispatch_all rest st1) as [st2 tr2].
  simpl in *. rewrite alerts_app, Hm, IH. reflexivity.
Qed.

(** C10: a start, status or toggle command whose sender is not the
    authorized user gets no answer and leaves both globals as they were:
    the handler returns at its first line. *)
Theorem unauthorized_command_ignored (msg : message) (st : state) (id : Z) :
  from_user msg = Some id ->
  id <> YOUR_ID ->
  start msg st = (Ok tt, st, [])
  /\ status msg st = (Ok tt, st, [])
  /\ toggle msg st = (Ok tt, st, [])
  /\ dispatch msg st = (Ok tt, st, []).
Proof.
  intros Hu Hid.
  assert (Hne : negb (id =? YOUR_ID) = true)
    by (apply negb_true_iff, Z.eqb_neq; exact Hid).
  unfold dispatch, start, status, toggle. rewrite Hu, Hne.
  repeat split. destruct (msg_command msg); reflexivity.
Qed.
End Handlers.

Lemma unauthorized_command_ignored_witness :
  @toggle sample_env (stranger CmdSocials) initial_state = (Ok tt, initial_state, [])
  /\ @status sample_env (stranger CmdStatus) initial_state = (Ok tt, initial_state, [])
  /\ fst (@main sample_env [Update (stranger CmdSocials)] boot) = boot.
Proof.
  pose proof (@unauthorized_command_ignored sample_env (stranger CmdSocials)
                initial_state 4242 eq_refl) as Ht.
  pose proof (@unauthorized_command_ignored sample_env (stranger CmdStatus)
                initial_state 4242 eq_refl) as Hs.
  assert (Hne : 4242 <> @YOUR_ID sample_env) by (simpl; lia).
  destruct (Ht Hne) as (_ & _ & Ht3 & Ht4), (Hs Hne) as (_ & Hs2 & _).
  split; [exact Ht3 | split; [exact Hs2 |]].
  cbv [main step boot globals listening]. rewrite Ht4. reflexivity.
Defined.

(** ** The decoding step *)

Section Decoder.

Lemma split_aux_nonempty (sep : str) (s : str) :
  forall skip cur, split_aux sep skip cur s <> [].
Proof.
  induction s as [|c s IH]; intros skip cur; simpl; [discriminate|].
  destruct skip; [destruct (is_prefix sep (c :: s))|]; try discriminate; apply IH.
Qed.

Lemma split_aux_two (sep : str) (s : str) :
  sep <> [] -> forall cur,
  str_contains sep s = true ->
  (2 <= length (split_aux sep 0 cur s))%nat.
Proof.
  intros Hsep. induction s as [|c s IH]; intros cur Hc.
  - destruct sep; [congruence | discriminate].
  - cbn [str_contains] in Hc. cbn [split_aux].
    destruct (is_prefix sep (c :: s)) eqn:Hp.
    + pose proof (split_aux_nonempty sep s (length sep - 1) []) as Hne.
      destruct (split_aux sep (length sep - 1) [] s); [congruence | simpl; lia].
    + apply IH. exact Hc.
Qed.

(** The subscript [[1]] of line 123 is always in range: the line was
    selected because it contains the marker. *)
Lemma select_payload_no_raise (logs : list str) (e : exn) :
  select_payload logs <> Some (Raise e).
Proof.
  unfold select_payload.
  destruct (List.filter (str_contains PROGRAM_DATA) logs) as [|l rest] eqn:Hf;
    [discriminate|].
  assert (Hl : str_contains PROGRAM_DATA l = true).
  { assert (Hin : List.In l (List.filter (str_contains PROGRAM_DATA) logs))
      by (rewrite Hf; left; reflexivity).
    apply List.filter_In in Hin. apply Hin. }
  pose proof (split_aux_two PROGRAM_DATA l ltac:(discriminate) [] Hl) as H2.
  unfold str_split.
  destruct (split_aux PROGRAM_DATA 0 [] l) as [|a [|b t]]; simpl in *;
    try lia; discriminate.
Qed.

Lemma bytes_eqb_true (a b : bytes) : a = b -> bytes_eqb a b = true.
Proof. intros ->. unfold bytes_eqb. apply bool_decide_eq_true. reflexivity. Qed.

Lemma to_N_inj (a b : byte) : Byte.to_N a = Byte.to_N b -> a = b.
Proof.
  intros E. apply (f_equal Byte.of_N) in E.
  rewrite !Byte.of_to_N in E. congruence.
Qed.

Lemma bytes_eqb_false (a b : bytes) : a <> b -> bytes_eqb a b = false.
Proof.
  intros Hne. unfold bytes_eqb. apply bool_decide_eq_false. intros E. apply Hne.
  clear Hne. revert b E; induction a as [|x a IH]; intros [|y b] E;
    simpl in E; try discriminate; [reflexivity|].
  injection E as E1 E2. f_equal; [apply to_N_inj, E1 | apply IH, E2].
Qed.

Lemma slice_length {A} (l : list A) (lo hi : Z) :
  0 <= lo <= hi -> hi <= Z.of_nat (length l) ->
  length (slice l lo hi) = Z.to_nat (hi - lo).
Proof.
  intros Hlo Hhi. unfold slice.
  rewrite List.length_firstn, List.length_skipn. lia.
Qed.

Lemma byte_range (b : byte) : 0 <= Z.of_N (Byte.to_N b) < 256.
Proof. pose proof (Byte.to_N_bounded b). lia. Qed.

(** Four bytes read as a little-endian unsigned 32-bit integer. *)
Lemma from_bytes_little_4 (b : bytes) :
  length b = 4%nat ->
  exists b0 b1 b2 b3, b = [b0; b1; b2; b3]
    /\ from_bytes_little b
       = Z.of_N (Byte.to_N b0) + 2 ^ 8 * Z.of_N (Byte.to_N b1)
         + 2 ^ 16 * Z.of_N (Byte.to_N b2) + 2 ^ 24 * Z.of_N (Byte.to_N b3)
    /\ 0 <= from_bytes_little b < 2 ^ 32.
Proof.
  destruct b as [|b0 [|b1 [|b2 [|b3 [|]]]]]; try discriminate. intros _.
  exists b0, b1, b2, b3. split; [reflexivity|].
  pose proof (byte_range b0); pose proof (byte_range b1);
    pose proof (byte_range b2); pose proof (byte_range b3).
  cbn [from_bytes_little]. lia.
Qed.

(** [rstrip] removes exactly the trailing run of the stripped character. *)
Lemma rstrip_with_spec (p : N -> bool) (s : str) :
  exists t, s = rstrip_with p s ++ t
    /\ forallb p t = true
    /\ (forall u c, rstrip_with p s = u ++ [c] -> p c = false).
Proof.
  induction s as [|c s IH]; cbn [rstrip_with].
  - exists []. split; [reflexivity|]. split; [reflexivity|].
    intros [|x u] c E; discriminate E.
  - destruct IH as (t & Hs & Ht & Hlast).
    destruct (rstrip_with p s) as [|d r] eqn:Hr.
    + destruct (p c) eqn:Hc.
      * exists (c :: t). split; [simpl in Hs; rewrite <- Hs; reflexivity|].
        split; [simpl; rewrite Hc; exact Ht|].
        intros [|x u] c' E; discriminate E.
      * exists t. split; [simpl in Hs; rewrite <- Hs; reflexivity|].
        split; [exact Ht|].
        intros [|x u] c' E; simpl in E.
        -- injection E as <-. exact Hc.
        -- injection E as _ E. destruct u; discriminate E.
    + exists t. split; [simpl; f_equal; exact Hs|].
      split; [exact Ht|].
      intros [|x u] c' E; simpl in E; [discriminate E|].
      injection E as _ E. exact (Hlast u c' E).
Qed.

(** C5: for a payload with the Create discriminator, a buffer that holds the
    whole of its fields, and fields that are valid UTF-8, the decoding step
    returns exactly the name decoded from the 32 bytes [8,40) with its
    trailing NULs stripped, the symbol from the 32 bytes [40,72) under the
    same rule, and the uri decoded from the [len] bytes [76,76+len) with
    its trailing NULs stripped, where [len] is the four bytes [72,76) read
    as a little-endian unsigned 32-bit integer. *)
Theorem decode_create_fields (logs : list str) (payload : str) (data : bytes)
    (name symbol uri : str) :
  select_payload logs = Some (Ok payload) ->
  b64decode payload = Ok data ->
  slice data 0 8 = CREATE_DISC ->
  76 + from_bytes_little (slice data 72 76) <= Z.of_nat (length data) ->
  utf8_decode (slice data 8 40) = Ok name ->
  utf8_decode (slice data 40 72) = Ok symbol ->
  utf8_decode (slice data 76 (76 + from_bytes_little (slice data 72 76))) = Ok uri ->
  decode_create logs
    = Ok (Some {| c_name := rstrip_nul name;
                  c_symbol := rstrip_nul symbol;
                  c_uri := rstrip_nul uri |})
  /\ length (slice data 8 40) = 32%nat
  /\ length (slice data 40 72) = 32%nat
  /\ (exists b0 b1 b2 b3, slice data 72 76 = [b0; b1; b2; b3]
      /\ from_bytes_little (slice data 72 76)
         = Z.of_N (Byte.to_N b0) + 2 ^ 8 * Z.of_N (Byte.to_N b1)
           + 2 ^ 16 * Z.of_N (Byte.to_N b2) + 2 ^ 24 * Z.of_N (Byte.to_N b3)
      /\ 0 <= from_bytes_little (slice data 72 76) < 2 ^ 32)
  /\ Z.of_nat (length (slice data 76 (76 + from_bytes_little (slice data 72 76))))
     = from_bytes_little (slice data 72 76).
Proof.
  intros Hsel Hb64 Hdisc Hlen Hname Hsym Huri.
  assert (Hpos : 0 <= from_bytes_little (slice data 72 76)).
  { generalize (slice data 72 76). intros b. induction b as [|x b IH]; simpl;
      [lia | pose proof (byte_range x); lia]. }
  split; [|split; [|split; [|split]]].
  - unfold decode_create. rewrite Hsel. cbn [rbind]. rewrite Hb64. cbn [rbind].
    rewrite (bytes_eqb_true _ _ Hdisc). cbn [negb].
    unfold parse_create. rewrite Hname, Hsym. cbn [rbind]. rewrite Huri.
    reflexivity.
  - rewrite slice_length; lia.
  - rewrite slice_length; lia.
  - apply from_bytes_little_4. rewrite slice_length; lia.
  - rewrite slice_length; lia.
Qed.
End Decoder.

Lemma decode_create_fields_witness :
  decode_create foo_logs
  = Ok (Some {| c_name := lit "Foo"; c_symbol := lit "FOO";
                c_uri := lit "https://x/y.json" |}).
Proof.
  destruct (b64decode foo_payload) as [data|] eqn:Hd; [|discriminate Hd].
  destruct (utf8_decode (slice data 8 40)) as [name|] eqn:Hn;
    [|vm_compute in Hd; injection Hd as <-; discriminate Hn].
  destruct (utf8_decode (slice data 40 72)) as [symbol|] eqn:Hs;
    [|vm_compute in Hd; injection Hd as <-; discriminate Hs].
  destruct (utf8_decode (slice data 76 (76 + from_bytes_little (slice data 72 76))))
    as [uri|] eqn:Hu; [|vm_compute in Hd; injection Hd as <-; discriminate Hu].
  destruct (decode_create_fields foo_logs foo_payload data name symbol uri)
    as [Hdec _]; try assumption.
  - reflexivity.
  - vm_compute in Hd. injection Hd as <-. reflexivity.
  - vm_compute in Hd. injection Hd as <-. vm_compute. discriminate.
  - rewrite Hdec. vm_compute in Hd. injection Hd as <-.
    vm_compute in Hn, Hs, Hu. injection Hn as <-. injection Hs as <-.
    injection Hu as <-. reflexivity.
Defined.

Section Rejection.

(** C1, as amended: a batch without a 'Program data: ' line, and a batch
    whose payload decodes to a buffer that does not start with the Create
    discriminator (every buffer shorter than 8 bytes is one), is dropped by
    a plain return, without an exception; the subscript of the split never
    raises. A buffer that starts with the discriminator is not rejected for
    its length: the slices are clamped to the buffer, so a truncated header
    or a uri length beyond the end of the buffer yields an event with the
    shortened fields whenever these are valid UTF-8. *)
Theorem decode_create_discards (logs : list str) :
  (forall e, select_payload logs <> Some (Raise e))
  /\ (select_payload logs = None -> decode_create logs = Ok None)
  /\ (forall payload data,
        select_payload logs = Some (Ok payload) ->
        b64decode payload = Ok data ->
        (slice data 0 8 <> CREATE_DISC \/ (length data < 8)%nat) ->
        decode_create logs = Ok None)
  /\ (forall payload data name symbol uri,
        select_payload logs = Some (Ok payload) ->
        b64decode payload = Ok data ->
        slice data 0 8 = CREATE_DISC ->
        utf8_decode (slice data 8 40) = Ok name ->
        utf8_decode (slice data 40 72) = Ok symbol ->
        utf8_decode (slice data 76 (76 + from_bytes_little (slice data 72 76)))
          = Ok uri ->
        decode_create logs
          = Ok (Some {| c_name := rstrip_nul name;
                        c_symbol := rstrip_nul symbol;
                        c_uri := rstrip_nul uri |})).
Proof.
  split; [intros e; apply select_payload_no_raise|].
  split; [intros Hsel; unfold decode_create; rewrite Hsel; reflexivity|].
  split.
  - intros payload data Hsel Hb64 Hbad.
    assert (Hne : slice data 0 8 <> CREATE_DISC).
    { destruct Hbad as [Hne|Hshort]; [exact Hne|].
      intros E. apply (f_equal (@length byte)) in E.
      unfold slice in E. rewrite List.length_firstn, List.length_skipn in E.
      change (Z.to_nat (8 - 0)) with 8%nat in E.
      change (length CREATE_DISC) with 8%nat in E. lia. }
    unfold decode_create. rewrite Hsel. cbn [rbind]. rewrite Hb64. cbn [rbind].
    rewrite (bytes_eqb_false _ _ Hne). reflexivity.
  - intros payload data name symbol uri Hsel Hb64 Hdisc Hname Hsym Huri.
    unfold decode_create. rewrite Hsel. cbn [rbind]. rewrite Hb64. cbn [rbind].
    rewrite (bytes_eqb_true _ _ Hdisc). cbn [negb].
    unfold parse_create. rewrite Hname, Hsym. cbn [rbind]. rewrite Huri.
    reflexivity.
Qed.
End Rejection.

(** C1, as stated, fails: the uri length field says 100, four bytes follow
    it in a buffer of 80 bytes, and the event is not discarded; the decoder
    returns it with these four bytes as its uri. *)
Lemma decode_create_keeps_overlong_uri :
  exists payload data,
    select_payload overlong_logs = Some (Ok payload)
    /\ b64decode payload = Ok data
    /\ length data = 80%nat
    /\ from_bytes_little (slice data 72 76) = 100
    /\ decode_create overlong_logs
       = Ok (Some {| c_name := lit "Foo"; c_symbol := lit "FOO";
                     c_uri := lit "http" |}).
Proof.
  eexists. eexists.
  split; [vm_compute; reflexivity|].
  split; [vm_compute; reflexivity|].
  repeat split; vm_compute; reflexivity.
Qed.

Lemma decode_create_discards_witness :
  decode_create [lit "Program log: Instruction: Create"] = Ok None
  /\ decode_create other_logs = Ok None
  /\ decode_create truncated_logs
     = Ok (Some {| c_name := lit "Fo"; c_symbol := []; c_uri := [] |}).
Proof.
  split; [|split].
  - apply (decode_create_discards [lit "Program log: Instruction: Create"]).
    reflexivity.
  - destruct (decode_create_discards other_logs) as (_ & _ & Hbad & _).
    apply (Hbad (lit "MTIzNDU2Nzg=") [x31; x32; x33; x34; x35; x36; x37; x38]);
      [reflexivity | reflexivity | left; discriminate].
  - destruct (decode_create_discards truncated_logs) as (_ & _ & _ & Hkeep).
    apply (Hkeep (lit "GB7IKAUcB3dGbw==")
             [x18; x1e; xc8; x28; x05; x1c; x07; x77; x46; x6f]
             (lit "Fo") [] []); reflexivity.
Defined.

(** What the amended claim leaves out: bad padding in the payload and a field
    that is not UTF-8 raise out of the decoding step, and with it out of
    [handle_create]. *)
Example decode_create_raises :
  decode_create [lit "Program data: MTI"] = Raise BinasciiError
  /\ decode_create bad_utf8_logs = Raise UnicodeDecodeError.
Proof. split; vm_compute; reflexivity. Qed.

(** ** Enrichment fetchers *)

Section Fetchers.
Context `{Environment} (w : world).

Lemma suspend_eq {A} (e : effect) (n : nat) (st : state)
    (resume : state -> result A * state * list effect) :
  suspend w e n st resume
  = (fst (fst (resume (fst (dispatch_all (w_updates w n) st)))),
     snd (fst (resume (fst (dispatch_all (w_updates w n) st)))),
     e :: snd (dispatch_all (w_updates w n) st)
       ++ snd (resume (fst (dispatch_all (w_updates w n) st)))).
Proof.
  unfold suspend. destruct (dispatch_all (w_updates w n) st) as [st1 tr1].
  simpl. destruct (resume st1) as [[r st2] tr2]. reflexivity.
Qed.

(** C7, as amended: none of the three fetchers raises to its caller,
    whatever the outside does. [fetch_metadata] returns the empty dict when
    the request raises, when the status is not 200 and when the body is not
    JSON; [get_dex_info] returns the empty dict whenever anything in its
    [try] block raises and whenever the document has no pairs, and it never
    looks at the status code; [dev_check] returns sol 0 and rich False when
    the balance query or the division raises. *)
Theorem fetchers_never_raise (uri ca dev : str) (n : nat) (st : state) :
  fst (fst (run w (fetch_metadata uri) n st))
    = Ok (metadata_of_response (w_http w n uri (Some 10)))
  /\ fst (fst (run w (get_dex_info ca) n st))
    = Ok (dex_of_response (w_http w n (DEX_URL ++ ca) None))
  /\ fst (fst (run w (dev_check dev) n st))
    = Ok (dev_info_of_balance (w_balance w dev))
  /\ (forall e, metadata_of_response (Raise e) = VDict [])
  /\ (forall r, status_code r <> 200 -> metadata_of_response (Ok r) = VDict [])
  /\ (forall r e, json r = Raise e -> metadata_of_response (Ok r) = VDict [])
  /\ (forall e, dex_of_response (Raise e) = [])
  /\ (forall r e, json r = Raise e -> dex_of_response (Ok r) = [])
  /\ (forall resp e, dex_try resp = Raise e -> dex_of_response resp = [])
  /\ (forall resp, dex_try resp = Ok None -> dex_of_response resp = [])
  /\ (forall r code,
        dex_of_response (Ok {| status_code := code; json := json r |})
        = dex_of_response (Ok r))
  /\ (forall e, dev_info_of_balance (Raise e)
                = [(lit "sol", VInt 0); (lit "rich", VBool false)])
  /\ (forall lamports e,
        int_truediv lamports 1000000000 = Raise e ->
        dev_info_of_balance (Ok lamports)
        = [(lit "sol", VInt 0); (lit "rich", VBool false)]).
Proof.
  repeat match goal with |- _ /\ _ => split end.
  - cbn [run fetch_metadata]. rewrite suspend_eq. reflexivity.
  - cbn [run get_dex_info]. rewrite suspend_eq. reflexivity.
  - cbn [run dev_check]. rewrite suspend_eq. reflexivity.
  - reflexivity.
  - intros r Hr. unfold metadata_of_response. cbn [rbind].
    destruct (status_code r =? 200) eqn:E; [apply Z.eqb_eq in E; lia | reflexivity].
  - intros r e Hj. unfold metadata_of_response. cbn [rbind].
    destruct (status_code r =? 200); [rewrite Hj|]; reflexivity.
  - reflexivity.
  - intros r e Hj. unfold dex_of_response, dex_try. cbn [rbind].
    rewrite Hj. reflexivity.
  - intros resp e He. unfold dex_of_response. rewrite He. reflexivity.
  - intros resp He. unfold dex_of_response. rewrite He. reflexivity.
  - reflexivity.
  - reflexivity.
  - intros lamports e He. unfold dev_info_of_balance. cbn [rbind].
    rewrite He. reflexivity.
Qed.
End Fetchers.

(** C7, as stated, fails for [get_dex_info]: a response with status 500
    whose body is a market-data document is used like any other. *)
Lemma get_dex_info_ignores_status :
  dex_of_response (Ok {| status_code := 500; json := Ok foo_market |})
  = [(lit "mc", VInt 123456); (lit "holders", VStr (lit "?"));
     (lit "tg", VStr []); (lit "discord", VStr []);
     (lit "price", VFloat (S754_finite false 5 (-3)))].
Proof. vm_compute. reflexivity. Qed.

Lemma fetchers_never_raise_witness :
  let w := sample_world foo_metadata
             (Ok {| status_code := 404; json := Raise ValueError |})
             1000000000 no_updates in
  fst (fst (@run sample_env _ w (fetch_metadata (lit "https://x/y.json")) 0
              initial_state))
    = Ok (VDict [])
  /\ fst (fst (@run sample_env _ w (get_dex_info PARSE_MINT_HERE) 0
                 initial_state))
    = Ok [].
Proof.
  intros w.
  destruct (@fetchers_never_raise sample_env w (lit "https://x/y.json")
              PARSE_MINT_HERE (lit "DevWallet111") 0 initial_state)
    as (Hm & Hd & _ & _ & H404 & _ & _ & Hjson & _).
  split.
  - rewrite Hm. apply (f_equal Ok).
    exact (H404 {| status_code := 404; json := Raise ValueError |}
             ltac:(simpl; lia)).
  - rewrite Hd. apply (f_equal Ok).
    exact (Hjson {| status_code := 404; json := Raise ValueError |} ValueError
             eq_refl).
Defined.

(** ** The pipeline *)

Section Pipeline.
Context `{Environment} (w : world).

Lemma suspend_inv {A} (e : effect) (n : nat) (st : state)
    (resume : state -> result A * state * list effect) r st' tr :
  suspend w e n st resume = (r, st', tr) ->
  exists tr2, resume (after_updates w n st) = (r, st', tr2)
              /\ tr = e :: answers w n st ++ tr2.
Proof.
  unfold suspend, after_updates, answers.
  destruct (dispatch_all (w_updates w n) st) as [st1 tr1]. cbn [fst snd].
  destruct (resume st1) as [[r2 st2] tr2]. intros [= <- <- <-].
  exists tr2. split; reflexivity.
Qed.

Lemma to_dex_app (c : creation) (ca : str) (n : nat) (st : state)
    (x : list effect) :
  EHttpGet (c_uri c) (Some 10) :: answers w n st
    ++ EHttpGet (DEX_URL ++ ca) None :: answers w (S n) (st_meta w n st) ++ x
  = to_dex w c ca n st ++ x.
Proof. unfold to_dex. cbn [app]. rewrite <- app_assoc. reflexivity. Qed.

Lemma to_dev_app (c : creation) (ca dev : str) (n : nat) (st : state)
    (x : list effect) :
  EHttpGet (c_uri c) (Some 10) :: answers w n st
    ++ EHttpGet (DEX_URL ++ ca) None :: answers w (S n) (st_meta w n st)
    ++ EGetBalance dev :: answers w (S (S n)) (st_dex w n st) ++ x
  = to_dev w c ca dev n st ++ x.
Proof.
  unfold to_dev. rewrite <- app_assoc. cbn [app]. apply to_dex_app.
Qed.

(** Line 96 passes the label of the button positionally: the keyboard is
    never built. *)
Lemma buy_keyboard_raises (ca : str) : buy_keyboard ca = Raise TypeError.
Proof. reflexivity. Qed.

(** The run of lines 141-164 is one of the listed cases. *)
Lemma run_enrich c ca dev n st r st' tr :
  run w (enrich_and_notify c ca dev) n st = (r, st', tr) ->
  enrich_run w c ca dev n st r st' tr.
Proof.
  unfold enrich_and_notify.
  cbn [run pbind fetch_metadata get_dex_info dev_check lift].
  intros Hrun. apply suspend_inv in Hrun as (tr1 & Hrun & ->).
  fold (st_meta w n st) (the_meta w c n) in Hrun.
  destruct (extract_socials (the_meta w c n)) as [sm|e] eqn:Hsm;
    cbn [lift pbind run] in Hrun.
  2:{ injection Hrun as <- <- <-. rewrite app_nil_r.
      apply ER_socials_raise. exact Hsm. }
  apply suspend_inv in Hrun as (tr2 & Hrun & ->).
  fold (st_dex w n st) (the_dex w ca n) in Hrun.
  destruct (final_social (the_dex w ca n) sm (lit "tg")) as [tg|e] eqn:Htg;
    cbn [lift pbind run] in Hrun.
  2:{ injection Hrun as <- <- <-. rewrite to_dex_app, app_nil_r.
      eapply ER_tg_raise; eassumption. }
  destruct (final_social (the_dex w ca n) sm (lit "discord")) as [dc|e] eqn:Hdc;
    cbn [lift pbind run] in Hrun.
  2:{ injection Hrun as <- <- <-. rewrite to_dex_app, app_nil_r.
      eapply ER_dc_raise; eassumption. }
  destruct (filter_rejects (st_dex w n st) tg dc) eqn:Hf; cbn [run] in Hrun.
  { injection Hrun as <- <- <-. rewrite to_dex_app, app_nil_r.
    eapply ER_rejected; eassumption. }
  apply suspend_inv in Hrun as (tr3 & Hrun & ->).
  fold (st_dev w n st) (the_dev_info w dev) in Hrun.
  rewrite to_dev_app.
  destruct (dict_item (the_dev_info w dev) (lit "rich")) as [rich|e] eqn:Hrich;
    cbn [lift pbind run] in Hrun.
  2:{ injection Hrun as <- <- <-. rewrite app_nil_r.
      eapply ER_rich_raise; eassumption. }
  change (if truthy rich then [128994%N] ++ lit " Low risk"
          else [128308%N] ++ lit " Watch dev") with (the_rug rich) in Hrun.
  destruct (message_head c ca dev (the_dev_info w dev) (the_dex w ca n)
              (the_rug rich) (social_text tg dc)) as [head|e] eqn:Hhead;
    cbn [lift pbind run] in Hrun.
  2:{ injection Hrun as <- <- <-. rewrite app_nil_r.
      eapply ER_text_raise; eassumption. }
  destruct (buy_keyboard ca) as [kb|e] eqn:Hkb; cbn [lift pbind run] in Hrun.
  2:{ injection Hrun as <- <- <-. rewrite app_nil_r.
      eapply ER_keyboard_raise; eassumption. }
  apply suspend_inv in Hrun as (tr4 & Hrun & ->).
  fold (st_sent w n st) in Hrun.
  destruct (w_send w YOUR_ID (head ++ strftime (w_clock w) ++ nl ++ lit "    ")
              kb) as [[]|e] eqn:Hsend;
    cbn [lift run] in Hrun; injection Hrun as <- <- <-;
    rewrite app_nil_r, <- Hsend; eapply ER_sent; eassumption.
Qed.

(** The run of [handle_create] is one of the listed cases. *)
Lemma run_handle_create logs sig st r st' tr :
  run w (handle_create logs sig) 0 st = (r, st', tr) ->
  handle_run w logs sig st r st' tr.
Proof.
  unfold handle_create. intros Hrun.
  destruct (decode_create logs) as [[c|]|e] eqn:Hdec;
    cbn [lift pbind run] in Hrun.
  3:{ injection Hrun as <- <- <-. apply HR_decode_raise, Hdec. }
  2:{ injection Hrun as <- <- <-. apply HR_discarded, Hdec. }
  apply suspend_inv in Hrun as (tr1 & Hrun & ->).
  destruct (w_transaction w sig) as [[[|dev accounts]|]|e] eqn:Htx;
    cbn [lift pbind run] in Hrun.
  4:{ injection Hrun as <- <- <-. rewrite app_nil_r.
      eapply HR_tx_raise; eassumption. }
  3:{ injection Hrun as <- <- <-. rewrite app_nil_r.
      eapply HR_unresolved; eassumption. }
  1:{ injection Hrun as <- <- <-. rewrite app_nil_r.
      eapply HR_no_account; eassumption. }
  destruct (bool_decide (PARSE_MINT_HERE ∈ seen_tokens (after_updates w 0 st)))
    eqn:Hseen; cbn [run] in Hrun.
  - injection Hrun as <- <- <-. rewrite app_nil_r.
    apply bool_decide_eq_true in Hseen. eapply HR_duplicate; eassumption.
  - apply bool_decide_eq_false in Hseen.
    eapply HR_fresh; try eassumption. apply run_enrich. exact Hrun.
Qed.
End Pipeline.

(** ** Deduplication *)

Section Dedup.
Context `{Environment}.

Lemma dispatch_calls (msg : message) (st : state) :
  calls (snd (dispatch msg st)) = [].
Proof.
  unfold dispatch, start, status, toggle.
  destruct (msg_command msg), (from_user msg) as [id|]; simpl;
    try destruct (negb (id =? YOUR_ID)); reflexivity.
Qed.

Lemma calls_app (a b : list effect) : calls (a ++ b) = calls a ++ calls b.
Proof. apply List.filter_app. Qed.

Lemma dispatch_all_calls (msgs : list message) (st : state) :
  calls (snd (dispatch_all msgs st)) = [].
Proof.
  revert st; induction msgs as [|m rest IH]; intros st; simpl; [reflexivity|].
  pose proof (dispatch_calls m st) as Hm.
  destruct (dispatch m st) as [[r st1] tr1]; simpl in Hm.
  specialize (IH st1). destruct (dispatch_all rest st1) as [st2 tr2].
  simpl in *. rewrite calls_app, Hm, IH. reflexivity.
Qed.

Lemma after_updates_seen (w : world) (n : nat) (st : state) :
  seen_tokens (after_updates w n st) = seen_tokens st.
Proof. apply dispatch_all_seen. Qed.

Lemma answers_alerts (w : world) (n : nat) (st : state) :
  alerts (answers w n st) = [].
Proof. apply dispatch_all_alerts. Qed.

Lemma answers_calls (w : world) (n : nat) (st : state) :
  calls (answers w n st) = [].
Proof. apply dispatch_all_calls. Qed.

Lemma to_dex_alerts w c ca n st : alerts (to_dex w c ca n st) = [].
Proof.
  unfold to_dex. cbn [alerts List.filter is_alert].
  change (List.filter is_alert) with alerts.
  rewrite alerts_app. cbn [alerts List.filter is_alert].
  change (List.filter is_alert) with alerts.
  rewrite !answers_alerts. reflexivity.
Qed.

Lemma to_dev_alerts w c ca dev n st : alerts (to_dev w c ca dev n st) = [].
Proof.
  unfold to_dev. rewrite alerts_app, to_dex_alerts.
  cbn [alerts List.filter is_alert app].
  change (List.filter is_alert) with alerts. apply answers_alerts.
Qed.

Lemma to_dex_calls w c ca n st :
  calls (to_dex w c ca n st)
  = [EHttpGet (c_uri c) (Some 10); EHttpGet (DEX_URL ++ ca) None].
Proof.
  unfold to_dex. cbn [calls List.filter is_call].
  change (List.filter is_call) with calls.
  rewrite calls_app. cbn [calls List.filter is_call].
  change (List.filter is_call) with calls.
  rewrite !answers_calls. reflexivity.
Qed.

Lemma to_dev_calls w c ca dev n st :
  calls (to_dev w c ca dev n st)
  = [EHttpGet (c_uri c) (Some 10); EHttpGet (DEX_URL ++ ca) None;
     EGetBalance dev].
Proof.
  unfold to_dev. rewrite calls_app, to_dex_calls.
  cbn [calls List.filter is_call app].
  change (List.filter is_call) with calls. rewrite answers_calls. reflexivity.
Qed.

(** Enrichment never touches [seen_tokens] and sends at most one alert. *)
Lemma enrich_run_seen w c ca dev n st r st' tr :
  enrich_run w c ca dev n st r st' tr ->
  seen_tokens st' = seen_tokens st /\ (length (alerts tr) <= 1)%nat.
Proof.
  intros Hrun.
  assert (H1 : seen_tokens (st_meta w n st) = seen_tokens st)
    by apply after_updates_seen.
  assert (H2 : seen_tokens (st_dex w n st) = seen_tokens st)
    by (unfold st_dex; rewrite after_updates_seen; exact H1).
  assert (H3 : seen_tokens (st_dev w n st) = seen_tokens st)
    by (unfold st_dev; rewrite after_updates_seen; exact H2).
  assert (H4 : seen_tokens (st_sent w n st) = seen_tokens st)
    by (unfold st_sent; rewrite after_updates_seen; exact H3).
  destruct Hrun; (split; [assumption|]);
    rewrite ?alerts_app, ?to_dex_alerts, ?to_dev_alerts;
    cbn [alerts List.filter is_alert app length];
    change (List.filter is_alert) with alerts;
    rewrite ?answers_alerts; cbn [length]; lia.
Qed.

(** A batch that arrives when the placeholder is already in [seen_tokens]
    sends nothing and calls nothing but the transaction lookup. *)
Lemma handle_run_duplicate w logs sig st r st' tr :
  handle_run w logs sig st r st' tr ->
  PARSE_MINT_HERE ∈ seen_tokens st ->
  alerts tr = [] /\ forallb is_lookup (calls tr) = true
  /\ seen_tokens st' = seen_tokens st.
Proof.
  intros Hrun Hin.
  destruct Hrun;
    try (rewrite after_updates_seen in *;
         cbn [alerts calls List.filter is_alert is_call];
         change (List.filter is_alert) with alerts;
         change (List.filter is_call) with calls;
         rewrite ?answers_alerts, ?answers_calls; repeat split; reflexivity).
  - repeat split; reflexivity.
  - repeat split; reflexivity.
  - rewrite after_updates_seen in *. contradiction.
Qed.

(** In general a batch sends at most one alert, only ever adds the
    placeholder to [seen_tokens], and has added it when it sent an alert. *)
Lemma handle_run_general w logs sig st r st' tr :
  handle_run w logs sig st r st' tr ->
  (length (alerts tr) <= 1)%nat
  /\ (alerts tr <> [] -> PARSE_MINT_HERE ∈ seen_tokens st')
  /\ (seen_tokens st' = seen_tokens st
      \/ seen_tokens st' = {[PARSE_MINT_HERE]} ∪ seen_tokens st).
Proof.
  intros Hrun.
  destruct Hrun as [| | | | | |c dev accounts r st' tr Hdec Htx Hseen Hen];
    try (rewrite ?after_updates_seen;
         cbn [alerts List.filter is_alert];
         change (List.filter is_alert) with alerts;
         rewrite ?answers_alerts; cbn [length];
         split; [lia | split; [congruence | left; reflexivity]]).
  destruct (enrich_run_seen _ _ _ _ _ _ _ _ _ Hen) as [Hs Hle].
  unfold mark_seen in Hs. simpl in Hs.
  rewrite after_updates_seen in Hs.
  cbn [alerts List.filter is_alert]. change (List.filter is_alert) with alerts.
  rewrite alerts_app, answers_alerts. cbn [app].
  split; [exact Hle|]. split; [|right; exact Hs].
  intros _. rewrite Hs. apply elem_of_union. left.
  apply elem_of_singleton. reflexivity.
Qed.
End Dedup.

Section Lifetime.
Context `{Environment}.

Lemma run_listener_iter w payload st r st' tr :
  run w (ws_listener_iter payload) 0 st = (r, st', tr) ->
  (r = Ok tt /\ st' = st /\ tr = [])
  \/ exists logs sig, handle_run w logs sig st r st' tr.
Proof.
  unfold ws_listener_iter. destruct payload as [[logs sig]|].
  - destruct (str_contains (lit "Instruction: Create") (str_join logs)).
    + intros Hrun. right. exists logs, sig. apply run_handle_create, Hrun.
    + cbn [run]. intros [= <- <- <-]. left. repeat split.
  - cbn [run]. intros [= <- <- <-]. left. repeat split.
Qed.

Lemma step_duplicate (i : input) (p p1 : process) (tr : list effect) :
  step i p = (p1, tr) ->
  PARSE_MINT_HERE ∈ seen_tokens (globals p) ->
  alerts tr = [] /\ forallb is_lookup (calls tr) = true
  /\ seen_tokens (globals p1) = seen_tokens (globals p).
Proof.
  intros Hstep Hin. destruct i as [msg|payload w]; cbn [step] in Hstep.
  - pose proof (dispatch_seen msg (globals p)) as Hs.
    pose proof (dispatch_alerts msg (globals p)) as Ha.
    pose proof (dispatch_calls msg (globals p)) as Hc.
    destruct (dispatch msg (globals p)) as [[r st] t]. cbn [fst snd] in *.
    injection Hstep as <- <-. rewrite Ha, Hc. repeat split. exact Hs.
  - destruct (listening p).
    + destruct (run w (ws_listener_iter payload) 0 (globals p))
        as [[r st] t] eqn:Hrun.
      injection Hstep as <- <-. cbn [globals].
      apply run_listener_iter in Hrun as [(-> & -> & ->)|(logs & sig & Hrun)].
      * repeat split.
      * apply (handle_run_duplicate _ _ _ _ _ _ _ Hrun Hin).
    + injection Hstep as <- <-. repeat split.
Qed.

Lemma step_general (i : input) (p p1 : process) (tr : list effect) :
  step i p = (p1, tr) ->
  (length (alerts tr) <= 1)%nat
  /\ (alerts tr <> [] -> PARSE_MINT_HERE ∈ seen_tokens (globals p1))
  /\ (seen_tokens (globals p1) = seen_tokens (globals p)
      \/ seen_tokens (globals p1)
         = {[PARSE_MINT_HERE]} ∪ seen_tokens (globals p)).
Proof.
  intros Hstep. destruct i as [msg|payload w]; cbn [step] in Hstep.
  - pose proof (dispatch_seen msg (globals p)) as Hs.
    pose proof (dispatch_alerts msg (globals p)) as Ha.
    destruct (dispatch msg (globals p)) as [[r st] t]. cbn [fst snd] in *.
    injection Hstep as <- <-. rewrite Ha. cbn [length globals].
    split; [lia | split; [congruence | left; exact Hs]].
  - destruct (listening p).
    + destruct (run w (ws_listener_iter payload) 0 (globals p))
        as [[r st] t] eqn:Hrun.
      injection Hstep as <- <-. cbn [globals].
      apply run_listener_iter in Hrun as [(-> & -> & ->)|(logs & sig & Hrun)].
      * cbn [alerts List.filter length].
        split; [lia | split; [congruence | left; reflexivity]].
      * apply (handle_run_general _ _ _ _ _ _ _ Hrun).
    + injection Hstep as <- <-. cbn [alerts List.filter length].
      split; [lia | split; [congruence | left; reflexivity]].
Qed.

(** Once the placeholder is in [seen_tokens], nothing that reaches the
    process produces an alert or an enrichment call. *)
Lemma main_duplicate (inputs : list input) (p : process) :
  PARSE_MINT_HERE ∈ seen_tokens (globals p) ->
  alerts (snd (main inputs p)) = []
  /\ forallb is_lookup (calls (snd (main inputs p))) = true.
Proof.
  revert p. induction inputs as [|i rest IH]; intros p Hin; cbn [main].
  - split; reflexivity.
  - destruct (step i p) as [p1 tr1] eqn:Hstep.
    destruct (step_duplicate _ _ _ _ Hstep Hin) as (Ha & Hc & Hs).
    assert (Hin1 : PARSE_MINT_HERE ∈ seen_tokens (globals p1))
      by (rewrite Hs; exact Hin).
    destruct (IH p1 Hin1) as [IHa IHc].
    destruct (main rest p1) as [p2 tr2]. cbn [snd] in *.
    rewrite alerts_app, calls_app, Ha, IHa, forallb_app, Hc, IHc.
    split; reflexivity.
Qed.

Lemma main_seen_bound (inputs : list input) (p : process) :
  seen_tokens (globals p) ⊆ {[PARSE_MINT_HERE]} ->
  seen_tokens (globals (fst (main inputs p))) ⊆ {[PARSE_MINT_HERE]}.
Proof.
  revert p. induction inputs as [|i rest IH]; intros p Hsub; cbn [main].
  - exact Hsub.
  - destruct (step i p) as [p1 tr1] eqn:Hstep.
    destruct (step_general _ _ _ _ Hstep) as (_ & _ & Hs).
    assert (Hsub1 : seen_tokens (globals p1) ⊆ {[PARSE_MINT_HERE]})
      by (destruct Hs as [-> | ->];
          [exact Hsub | apply union_least; [reflexivity | exact Hsub]]).
    specialize (IH p1 Hsub1). destruct (main rest p1) as [p2 tr2].
    exact IH.
Qed.

Lemma main_alerts_bound (inputs : list input) (p : process) :
  (length (alerts (snd (main inputs p))) <= 1)%nat.
Proof.
  revert p. induction inputs as [|i rest IH]; intros p; cbn [main].
  - cbn. lia.
  - destruct (step i p) as [p1 tr1] eqn:Hstep.
    destruct (step_general _ _ _ _ Hstep) as (Hle & Hin & _).
    pose proof (IH p1) as IH1. pose proof (main_duplicate rest p1) as Hdup.
    destruct (main rest p1) as [p2 tr2]. cbn [snd] in *.
    rewrite alerts_app, length_app.
    destruct (alerts tr1) as [|a l] eqn:Ha; [cbn [length]; lia|].
    destruct (Hdup (Hin ltac:(discriminate))) as [-> _]. cbn [length] in *. lia.
Qed.

(** An event that is decoded and whose transaction resolves leaves the
    placeholder in [seen_tokens], whatever else happens to it. *)
Lemma resolved_marks_seen w logs sig st c dev accounts :
  decode_create logs = Ok (Some c) ->
  w_transaction w sig = Ok (Some (dev :: accounts)) ->
  PARSE_MINT_HERE ∈ seen_tokens (snd (fst (run w (handle_create logs sig) 0 st))).
Proof.
  intros Hdec Htx.
  destruct (run w (handle_create logs sig) 0 st) as [[r st'] tr] eqn:Hrun.
  apply run_handle_create in Hrun. cbn [fst snd].
  destruct Hrun as [| | | | | |c' dev' acc' r st' tr Hd Ht Hseen Hen];
    try congruence.
  destruct (enrich_run_seen _ _ _ _ _ _ _ _ _ Hen) as [Hs _].
  rewrite Hs. unfold mark_seen. simpl. apply elem_of_union. left.
  apply elem_of_singleton. reflexivity.
Qed.

(** C4: the mint of every event is the constant placeholder, never a value
    taken from the resolved transaction: it is the only identifier that
    [seen_tokens] ever receives, and every decoded event whose transaction
    resolves leaves it there. Deduplication is keyed on it, so the process
    sends at most one alert over any sequence of inputs, and once the
    placeholder is recorded every later event is dropped at the duplicate
    check: no alert, and no external call but the transaction lookup. *)
Theorem placeholder_mint_single_alert (inputs : list input) (p : process) :
  (length (alerts (snd (main inputs p))) <= 1)%nat
  /\ (PARSE_MINT_HERE ∈ seen_tokens (globals p) ->
      alerts (snd (main inputs p)) = []
      /\ forallb is_lookup (calls (snd (main inputs p))) = true)
  /\ (seen_tokens (globals p) ⊆ {[PARSE_MINT_HERE]} ->
      seen_tokens (globals (fst (main inputs p))) ⊆ {[PARSE_MINT_HERE]})
  /\ (forall w logs sig st c dev accounts,
        decode_create logs = Ok (Some c) ->
        w_transaction w sig = Ok (Some (dev :: accounts)) ->
        PARSE_MINT_HERE
          ∈ seen_tokens (snd (fst (run w (handle_create logs sig) 0 st)))).
Proof.
  split; [apply main_alerts_bound|].
  split; [apply main_duplicate|].
  split; [apply main_seen_bound|].
  intros w logs sig st c dev accounts. apply resolved_marks_seen.
Qed.
End Lifetime.

Lemma placeholder_mint_single_alert_witness :
  let first := LogMessage (Some (foo_logs, lit "sig1")) linked_world in
  let second := LogMessage (Some (foo_logs, lit "sig2")) linked_world in
  seen_tokens (globals (fst (@main sample_env [first] boot)))
  = {[PARSE_MINT_HERE]}
  /\ alerts (snd (@main sample_env [second]
                    (fst (@main sample_env [first] boot)))) = [].
Proof.
  intros first second. split; [vm_compute; reflexivity|].
  apply (@placeholder_mint_single_alert sample_env [second]
           (fst (@main sample_env [first] boot))).
  refine (bool_decide_unpack _ _). vm_compute. exact I.
Defined.

Section Filter.
Context `{Environment}.

(** C2: an event that reaches the filter while [require_socials] is true
    and for which neither a Telegram nor a Discord link was found sends no
    alert, and the mint is in [seen_tokens] all the same, because it was
    recorded before the enrichment. From then on no input sequence, with
    or without toggles of the filter in it, produces an alert. *)
Theorem rejected_event_stays_seen (w : world) (logs : list str) (sig : str)
    (st : state) (c : creation) (dev : str) (accounts : list str)
    (sm : dict) (tg dc : value) :
  decode_create logs = Ok (Some c) ->
  w_transaction w sig = Ok (Some (dev :: accounts)) ->
  PARSE_MINT_HERE ∉ seen_tokens st ->
  extract_socials (the_meta w c 1) = Ok sm ->
  final_social (the_dex w PARSE_MINT_HERE 1) sm (lit "tg") = Ok tg ->
  final_social (the_dex w PARSE_MINT_HERE 1) sm (lit "discord") = Ok dc ->
  truthy tg = false ->
  truthy dc = false ->
  require_socials (filter_state w st) = true ->
  fst (fst (run w (handle_create logs sig) 0 st)) = Ok tt
  /\ alerts (snd (run w (handle_create logs sig) 0 st)) = []
  /\ PARSE_MINT_HERE ∈ seen_tokens (snd (fst (run w (handle_create logs sig) 0 st)))
  /\ (forall inputs alive,
        alerts (snd (main inputs
                       {| globals := snd (fst (run w (handle_create logs sig) 0 st));
                          listening := alive |})) = []).
Proof.
  intros Hdec Htx Hfresh Hsm Htg Hdc Ht Hd Hreq.
  pose proof (resolved_marks_seen w logs sig st c dev accounts Hdec Htx) as Hin.
  destruct (run w (handle_create logs sig) 0 st) as [[r st'] tr] eqn:Hrun.
  cbn [fst snd] in *.
  assert (Hrej : filter_rejects (filter_state w st) tg dc = true).
  { unfold filter_rejects, py_or. rewrite Hreq, Ht, Hd. reflexivity. }
  split; [|split; [|split; [exact Hin|]]].
  - apply run_handle_create in Hrun.
    destruct Hrun as [| | | | | |c' dev' acc' r st' tr Hd' Ht' Hseen Hen];
      try congruence.
    rewrite Hdec in Hd'. injection Hd' as <-.
    rewrite Htx in Ht'. injection Ht' as <- <-.
    unfold filter_state in Hrej.
    destruct Hen; try reflexivity; congruence.
  - apply run_handle_create in Hrun.
    destruct Hrun as [| | | | | |c' dev' acc' r st' tr Hd' Ht' Hseen Hen];
      try reflexivity;
      try (cbn [alerts List.filter is_alert];
           change (List.filter is_alert) with alerts;
           apply answers_alerts).
    rewrite Hdec in Hd'. injection Hd' as <-.
    rewrite Htx in Ht'. injection Ht' as <- <-.
    unfold filter_state in Hrej.
    cbn [alerts List.filter is_alert]. change (List.filter is_alert) with alerts.
    rewrite alerts_app, answers_alerts. cbn [app].
    destruct Hen;
      try (cbn [alerts List.filter is_alert];
           change (List.filter is_alert) with alerts; apply answers_alerts);
      try apply to_dex_alerts; try apply to_dev_alerts; congruence.
  - intros inputs alive.
    apply (main_duplicate inputs {| globals := st'; listening := alive |}).
    exact Hin.
Qed.
End Filter.

Lemma rejected_event_stays_seen_witness :
  let run1 := @run sample_env _ plain_world
                (@handle_create sample_env foo_logs (lit "sig1")) 0 initial_state in
  alerts (snd run1) = []
  /\ PARSE_MINT_HERE ∈ seen_tokens (snd (fst run1))
  /\ alerts (snd (@main sample_env
                    [Update owner_toggle;
                     LogMessage (Some (foo_logs, lit "sig2")) linked_world]
                    {| globals := snd (fst run1); listening := true |})) = [].
Proof.
  intros run1.
  destruct (@rejected_event_stays_seen sample_env plain_world foo_logs
              (lit "sig1") initial_state
              {| c_name := lit "Foo"; c_symbol := lit "FOO";
                 c_uri := lit "https://x/y.json" |}
              (lit "DevWallet111") []
              [(lit "tg", VStr []); (lit "discord", VStr [])]
              (VStr []) (VStr []))
    as (_ & Ha & Hs & Hlater);
    try (vm_compute; reflexivity).
  - apply not_elem_of_empty.
  - split; [exact Ha | split; [exact Hs | apply Hlater]].
Defined.

(** ** The alert text without market data *)

Section NoMarket.
Context `{Environment}.

(** With an empty [dex] the field [{dex.get('mc', '?'):,.0f}] formats the
    string '?' with a float presentation type: the text cannot be built. *)
Lemma message_head_without_market (c : creation) (ca dev : str)
    (bal : result Z) (rug social_txt : str) :
  message_head c ca dev (dev_info_of_balance bal) [] rug social_txt
  = Raise ValueError.
Proof.
  unfold dev_info_of_balance.
  destruct bal as [lamports|e]; cbn [rbind]; [|reflexivity].
  destruct (int_truediv lamports 1000000000) as [sol|e]; reflexivity.
Qed.

(** Whenever the market-data fetch degrades to the empty dict, the pipeline
    sends no alert; an event that passes the filter ends in [ValueError]. *)
Lemma empty_market_never_alerts w c ca dev n st r st' tr :
  run w (enrich_and_notify c ca dev) n st = (r, st', tr) ->
  the_dex w ca n = [] ->
  alerts tr = []
  /\ (forall sm tg dc,
        extract_socials (the_meta w c n) = Ok sm ->
        final_social (the_dex w ca n) sm (lit "tg") = Ok tg ->
        final_social (the_dex w ca n) sm (lit "discord") = Ok dc ->
        filter_rejects (st_dex w n st) tg dc = false ->
        r = Raise ValueError).
Proof.
  intros Hrun Hdex. apply run_enrich in Hrun.
  pose proof (message_head_without_market c ca dev (w_balance w dev)) as Hhead.
  fold (the_dev_info w dev) in Hhead. rewrite <- Hdex in Hhead.
  assert (Hrich : exists b, dict_item (the_dev_info w dev) (lit "rich") = Ok (VBool b)).
  { unfold the_dev_info, dev_info_of_balance.
    destruct (w_balance w dev) as [lamports|e]; cbn [rbind];
      [destruct (int_truediv lamports 1000000000)|]; eexists; reflexivity. }
  destruct Hrich as [b Hrich].
  destruct Hrun as [e Hsm|sm e Hsm Htg|sm tg e Hsm Htg Hdc|sm tg dc Hsm Htg Hdc Hf
                    |sm tg dc e Hsm Htg Hdc Hf Hr|sm tg dc rich e Hsm Htg Hdc Hf Hr Hh
                    |sm tg dc rich head e Hsm Htg Hdc Hf Hr Hh Hkb
                    |sm tg dc rich head kb Hsm Htg Hdc Hf Hr Hh Hkb].
  8: { rewrite Hhead in Hh. discriminate Hh. }
  7: { rewrite Hhead in Hh. discriminate Hh. }
  6: { rewrite Hhead in Hh. injection Hh as <-.
       split; [rewrite to_dev_alerts; reflexivity | intros; reflexivity]. }
  all: (split;
     [ rewrite ?alerts_app, ?to_dex_alerts, ?to_dev_alerts;
       cbn [alerts List.filter is_alert app];
       change (List.filter is_alert) with alerts;
       rewrite ?answers_alerts; try reflexivity
     | intros sm' tg' dc' Hsm' Htg' Hdc' Hf'; congruence ]).
Qed.
End NoMarket.

(** C3 (the code departs from the claim): the market-data request fails, the
    metadata and the balance arrive, the metadata carries a Telegram link, so
    the filter passes; the pipeline then raises [ValueError] while it formats
    the default market cap '?' with [,.0f]. No alert is sent, and the
    exception ends the listener task. *)
Theorem market_failure_sends_no_alert :
  let r := @main sample_env
             [LogMessage (Some (foo_logs, lit "sig1")) no_market_world] boot in
  alerts (snd r) = []
  /\ listening (fst r) = false
  /\ fst (fst (@run sample_env _ no_market_world
                 (@handle_create sample_env foo_logs (lit "sig1")) 0
                 initial_state))
     = Raise ValueError
  /\ calls (snd r)
     = [EGetTransaction (lit "sig1");
        EHttpGet (lit "https://x/y.json") (Some 10);
        EHttpGet (DEX_URL ++ PARSE_MINT_HERE) None;
        EGetBalance (lit "DevWallet111")].
Proof. vm_compute. repeat split. Qed.

(** ** Order of the enrichment calls *)

Section Order.
Context `{Environment}.

(** C9, as amended: within one event's pipeline the enrichment fetches run
    one after the other, in the order metadata, market data, dev risk; the
    external calls of lines 141-164 are always an initial part of that
    sequence. The socials filter is applied
    after the first two fetches and before the third: an event that the
    filter rejects ends with exactly the two HTTP requests, and the balance
    query appears only in runs in which the filter has passed. *)
Theorem enrichment_is_sequential (w : world) (c : creation) (ca dev : str)
    (n : nat) (st : state) (r : result unit) (st' : state) (tr : list effect) :
  run w (enrich_and_notify c ca dev) n st = (r, st', tr) ->
  let meta_call := EHttpGet (c_uri c) (Some 10) in
  let dex_call := EHttpGet (DEX_URL ++ ca) None in
  (calls tr = [meta_call]
   \/ calls tr = [meta_call; dex_call]
   \/ calls tr = [meta_call; dex_call; EGetBalance dev])
  /\ (forall sm tg dc,
        extract_socials (the_meta w c n) = Ok sm ->
        final_social (the_dex w ca n) sm (lit "tg") = Ok tg ->
        final_social (the_dex w ca n) sm (lit "discord") = Ok dc ->
        filter_rejects (st_dex w n st) tg dc = true ->
        r = Ok tt /\ calls tr = [meta_call; dex_call])
  /\ (forall a, In (EGetBalance a) (calls tr) ->
        exists sm tg dc,
          extract_socials (the_meta w c n) = Ok sm
          /\ final_social (the_dex w ca n) sm (lit "tg") = Ok tg
          /\ final_social (the_dex w ca n) sm (lit "discord") = Ok dc
          /\ filter_rejects (st_dex w n st) tg dc = false).
Proof.
  intros Hrun meta_call dex_call. subst meta_call dex_call.
  apply run_enrich in Hrun.
  assert (Hcalls1 : calls (EHttpGet (c_uri c) (Some 10) :: answers w n st)
                    = [EHttpGet (c_uri c) (Some 10)]).
  { cbn [calls List.filter is_call].
    change (List.filter is_call) with calls. rewrite answers_calls. reflexivity. }
  destruct Hrun as [e Hsm|sm e Hsm Htg|sm tg e Hsm Htg Hdc|sm tg dc Hsm Htg Hdc Hf
                    |sm tg dc e Hsm Htg Hdc Hf Hr|sm tg dc rich e Hsm Htg Hdc Hf Hr Hh
                    |sm tg dc rich head e Hsm Htg Hdc Hf Hr Hh Hkb
                    |sm tg dc rich head kb Hsm Htg Hdc Hf Hr Hh Hkb];
    rewrite ?calls_app, ?Hcalls1, ?to_dex_calls, ?to_dev_calls.
  - split; [left; reflexivity|].
    split; [intros; congruence|].
    intros a [Ha|[]]. discriminate Ha.
  - split; [right; left; reflexivity|].
    split; [intros; congruence|].
    intros a [Ha|[Ha|[]]]; discriminate Ha.
  - split; [right; left; reflexivity|].
    split; [intros; congruence|].
    intros a [Ha|[Ha|[]]]; discriminate Ha.
  - split; [right; left; reflexivity|].
    split; [intros; split; reflexivity|].
    intros a [Ha|[Ha|[]]]; discriminate Ha.
  - split; [right; right; reflexivity|].
    split; [intros; congruence|].
    intros a _. exists sm, tg, dc. repeat split; assumption.
  - split; [right; right; reflexivity|].
    split; [intros; congruence|].
    intros a _. exists sm, tg, dc. repeat split; assumption.
  - split; [right; right; reflexivity|].
    split; [intros; congruence|].
    intros a _. exists sm, tg, dc. repeat split; assumption.
  - rewrite buy_keyboard_raises in Hkb. discriminate Hkb.
Qed.
End Order.

(** C9, as stated, fails: with the filter on and no link found the pipeline
    applies the filter and drops the event after the metadata and the
    market-data requests; the dev-risk fetch has not been started, let alone
    awaited. With a link the three requests follow one another. *)
Lemma filter_precedes_dev_check :
  let dropped := @run sample_env _ plain_world
                   (@handle_create sample_env foo_logs (lit "sig1")) 0
                   initial_state in
  let passed := @run sample_env _ linked_world
                  (@handle_create sample_env foo_logs (lit "sig1")) 0
                  initial_state in
  fst (fst dropped) = Ok tt
  /\ calls (snd dropped)
     = [EGetTransaction (lit "sig1");
        EHttpGet (lit "https://x/y.json") (Some 10);
        EHttpGet (DEX_URL ++ PARSE_MINT_HERE) None]
  /\ ~ In (EGetBalance (lit "DevWallet111")) (snd dropped)
  /\ calls (snd passed)
     = [EGetTransaction (lit "sig1");
        EHttpGet (lit "https://x/y.json") (Some 10);
        EHttpGet (DEX_URL ++ PARSE_MINT_HERE) None;
        EGetBalance (lit "DevWallet111")].
Proof.
  vm_compute. repeat split. intros [E|[E|[E|[]]]]; discriminate E.
Qed.

Lemma enrichment_is_sequential_witness :
  calls (snd (@run sample_env _ plain_world
                (@enrich_and_notify sample_env
                   {| c_name := lit "Foo"; c_symbol := lit "FOO";
                      c_uri := lit "https://x/y.json" |}
                   PARSE_MINT_HERE (lit "DevWallet111")) 1 initial_state))
  = [EHttpGet (lit "https://x/y.json") (Some 10);
     EHttpGet (DEX_URL ++ PARSE_MINT_HERE) None].
Proof.
  set (c := {| c_name := lit "Foo"; c_symbol := lit "FOO";
               c_uri := lit "https://x/y.json" |}).
  destruct (@run sample_env _ plain_world
              (@enrich_and_notify sample_env c PARSE_MINT_HERE
                 (lit "DevWallet111")) 1 initial_state)
    as [[r st'] tr] eqn:Hrun.
  destruct (@enrichment_is_sequential sample_env plain_world c PARSE_MINT_HERE
              (lit "DevWallet111") 1 initial_state r st' tr Hrun)
    as (_ & Hrej & _).
  apply (Hrej [(lit "tg", VStr []); (lit "discord", VStr [])] (VStr []) (VStr []));
    vm_compute; reflexivity.
Defined.

(** ** Social links *)

Section Socials.
Context `{Environment}.

Lemma is_prefix_iff (p s : str) :
  is_prefix p s = true <-> exists post, s = p ++ post.
Proof.
  revert s. induction p as [|a p IH]; intros s; cbn [is_prefix].
  - split; [intros _; exists s; reflexivity | reflexivity].
  - destruct s as [|b s].
    + split; [discriminate | intros [post E]; discriminate E].
    + rewrite andb_true_iff, N.eqb_eq, IH. split.
      * intros [-> [post ->]]. exists post. reflexivity.
      * intros [post E]. injection E as -> ->. split; [reflexivity|].
        exists post. reflexivity.
Qed.

Lemma str_contains_iff (sub s : str) :
  str_contains sub s = true <-> exists pre post, s = pre ++ sub ++ post.
Proof.
  induction s as [|c s IH]; cbn [str_contains];
    rewrite orb_true_iff, is_prefix_iff.
  - split.
    + intros [[post E]|E]; [|discriminate E]. exists [], post. exact E.
    + intros (pre & post & E). left. destruct pre as [|x pre]; [|discriminate E].
      exists post. exact E.
  - rewrite IH. split.
    + intros [[post E]|(pre & post & E)].
      * exists [], post. exact E.
      * exists (c :: pre), post. rewrite E. reflexivity.
    + intros (pre & post & E). destruct pre as [|x pre].
      * left. exists post. exact E.
      * right. injection E as -> ->. exists pre, post. reflexivity.
Qed.







End Socials.

Section Precedence.
Context `{Environment}.

Lemma dev_info_rich (bal : result Z) :
  exists b, dict_item (dev_info_of_balance bal) (lit "rich") = Ok (VBool b).
Proof.
  unfold dev_info_of_balance.
  destruct bal as [lamports|e]; cbn [rbind];
    [destruct (int_truediv lamports 1000000000)|]; eexists; reflexivity.
Qed.


End Precedence.


(** ** Dev risk: the binary64 quotient and the threshold *)

Section DevRisk.

Lemma digits2_size (p : positive) : digits2_pos p = Pos.size p.
Proof. induction p; simpl; congruence. Qed.

Lemma Zdigits2_bounds (p : positive) :
  2 ^ (Zdigits2 (Z.pos p) - 1) <= Z.pos p < 2 ^ Zdigits2 (Z.pos p).
Proof.
  cbn [Zdigits2]. rewrite digits2_size.
  pose proof (Pos.size_gt p) as Hgt. pose proof (Pos.size_le p) as Hle.
  apply Pos2Z.pos_lt_pos in Hgt. apply Pos2Z.pos_le_pos in Hle.
  rewrite Pos2Z.inj_pow in Hgt, Hle. change (Z.pos 2) with 2 in *.
  split; [|exact Hgt].
  assert (E : 2 ^ Z.pos (Pos.size p) = 2 * 2 ^ (Z.pos (Pos.size p) - 1)).
  { rewrite <- Z.pow_succ_r by lia. f_equal. lia. }
  rewrite E in Hle. change (Z.pos p~0) with (2 * Z.pos p) in Hle. lia.
Qed.

Lemma Zdigits2_unique (m d : Z) :
  0 < d -> 2 ^ (d - 1) <= m < 2 ^ d -> Zdigits2 m = d.
Proof.
  intros Hd [Hlo Hhi].
  assert (Hm : 0 < m) by (pose proof (Z.pow_pos_nonneg 2 (d - 1)); lia).
  destruct m as [|p|p]; try lia.
  pose proof (Zdigits2_bounds p) as [Blo Bhi].
  assert (Hpos : 0 < Zdigits2 (Z.pos p)) by (cbn; lia).
  destruct (Z.lt_trichotomy (Zdigits2 (Z.pos p)) d) as [Hlt|[Heq|Hgt]]; [|exact Heq|].
  - pose proof (Z.pow_le_mono_r 2 (Zdigits2 (Z.pos p)) (d - 1)). lia.
  - pose proof (Z.pow_le_mono_r 2 d (Zdigits2 (Z.pos p) - 1)). lia.
Qed.

Lemma shr_fexp_keep (m e : Z) (l : location) :
  Zdigits2 m = 53 -> -1074 <= e ->
  shr_fexp 53 1024 m e l = (shr_record_of_loc m l, e).
Proof.
  intros Hd He. unfold shr_fexp, fexp, emin. rewrite Hd.
  replace (Z.max (53 + e - 53) (3 - 1024 - 53) - e) with 0 by lia.
  reflexivity.
Qed.

Lemma shr_fexp_one (m e : Z) (l : location) :
  Zdigits2 m = 54 -> -1075 <= e ->
  shr_fexp 53 1024 m e l = (shr_1 (shr_record_of_loc m l), e + 1).
Proof.
  intros Hd He. unfold shr_fexp, fexp, emin. rewrite Hd.
  replace (Z.max (54 + e - 53) (3 - 1024 - 53) - e) with 1 by lia.
  reflexivity.
Qed.

Lemma shr_1_half (m : Z) (l : location) :
  0 < m -> shr_m (shr_1 (shr_record_of_loc m l)) = m / 2.
Proof.
  intros Hm. destruct m as [|p|p]; try lia.
  assert (E : forall r s, shr_m (shr_1 {| shr_m := Z.pos p; shr_r := r; shr_s := s |})
                          = Z.pos p / 2).
  { intros r s. destruct p as [p|p|]; cbn [shr_1 shr_m].
    - rewrite Pos2Z.inj_xI. apply Z.div_unique with 1; lia.
    - rewrite Pos2Z.inj_xO. apply Z.div_unique with 0; lia.
    - reflexivity. }
  destruct l as [|[]]; apply E.
Qed.

Lemma shr_m_of_loc (m : Z) (l : location) : shr_m (shr_record_of_loc m l) = m.
Proof. destruct l as [|[]]; reflexivity. Qed.

Lemma round_nearest_even_bounds (m : Z) (l : location) :
  m <= round_nearest_even m l <= m + 1.
Proof.
  unfold round_nearest_even. destruct l as [|[]]; try destruct (Z.even m); lia.
Qed.

(** The second normalisation of [binary_round_aux], after rounding. *)
Lemma renormalise (m1 e1 : Z) :
  2 ^ 52 <= m1 <= 2 ^ 53 -> -1074 <= e1 <= 970 ->
  exists m e,
    (let '(mrs, e2) := shr_fexp 53 1024 m1 e1 loc_Exact in
     match shr_m mrs with
     | Z0 => S754_zero false
     | Zpos m => if e2 <=? 1024 - 53 then S754_finite false m e2
                 else S754_infinity false
     | Zneg _ => S754_nan
     end) = S754_finite false m e
    /\ 2 ^ 52 <= Z.pos m < 2 ^ 53
    /\ ((e = e1 /\ Z.pos m = m1) \/ (e = e1 + 1 /\ 2 * Z.pos m = m1)).
Proof.
  intros Hm He.
  destruct (Z.eq_dec m1 (2 ^ 53)) as [->|Hne].
  - rewrite shr_fexp_one by (try reflexivity; lia).
    cbn [shr_record_of_loc shr_1 shr_m].
    replace (e1 + 1 <=? 1024 - 53) with true by (symmetry; apply Z.leb_le; lia).
    eexists _, _. split; [reflexivity|]. split; [lia|]. right. split; reflexivity.
  - rewrite shr_fexp_keep by (try apply Zdigits2_unique; lia).
    cbn [shr_record_of_loc shr_m].
    destruct m1 as [|p|p]; try lia.
    replace (e1 <=? 1024 - 53) with true by (symmetry; apply Z.leb_le; lia).
    eexists _, _. split; [reflexivity|]. split; [lia|]. left. split; reflexivity.
Qed.

Lemma binary_round_aux_spec (mz ez : Z) (lz : location) :
  2 ^ 52 <= mz < 2 ^ 54 -> -1074 <= ez <= 960 ->
  exists m e,
    binary_round_aux 53 1024 false mz ez lz = S754_finite false m e
    /\ 2 ^ 52 <= Z.pos m < 2 ^ 53
    /\ ((e = ez /\ mz <= Z.pos m <= mz + 1)
        \/ (e = ez + 1 /\ mz - 1 <= 2 * Z.pos m <= mz + 2)
        \/ (e = ez + 2 /\ mz - 1 <= 4 * Z.pos m <= mz + 2)).
Proof.
  intros Hm He. unfold binary_round_aux.
  destruct (Z_lt_le_dec mz (2 ^ 53)) as [Hlt|Hge].
  - rewrite shr_fexp_keep by (try apply Zdigits2_unique; lia).
    cbn [fst snd]. rewrite shr_m_of_loc.
    set (m1 := round_nearest_even _ _).
    assert (Hm1 : mz <= m1 <= mz + 1) by apply round_nearest_even_bounds.
    destruct (renormalise m1 ez) as (m & e & Heq & Hr & Hcase); [lia | lia |].
    exists m, e. split; [exact Heq|]. split; [exact Hr|].
    destruct Hcase as [[-> Hv]|[-> Hv]]; [left | right; left]; split; lia.
  - rewrite shr_fexp_one by (try apply Zdigits2_unique; lia).
    set (m1 := round_nearest_even _ _).
    assert (Hhalf : shr_m (shr_1 (shr_record_of_loc mz lz)) = mz / 2)
      by (apply shr_1_half; lia).
    assert (Hm1 : mz / 2 <= m1 <= mz / 2 + 1).
    { unfold m1. rewrite Hhalf. apply round_nearest_even_bounds. }
    pose proof (Z.div_mod mz 2 ltac:(lia)) as Hdm.
    pose proof (Z.mod_pos_bound mz 2 ltac:(lia)) as Hmod.
    destruct (renormalise m1 (ez + 1)) as (m & e & Heq & Hr & Hcase); [lia | lia |].
    exists m, e. split; [exact Heq|]. split; [exact Hr|].
    destruct Hcase as [[-> Hv]|[-> Hv]]; [right; left | right; right]; split; lia.
Qed.

Lemma sfdiv_lamports_spec (p : positive) :
  Z.pos p < 2 ^ 64 ->
  let s := 83 - Zdigits2 (Z.pos p) in
  let q := Z.pos p * 2 ^ s / 1000000000 in
  exists m e,
    SFdiv 53 1024 (S754_finite false p 0) (S754_finite false 1000000000 0)
    = S754_finite false m e
    /\ 2 ^ 52 <= Z.pos m < 2 ^ 53
    /\ ((e = - s /\ q <= Z.pos m <= q + 1)
        \/ (e = - s + 1 /\ q - 1 <= 2 * Z.pos m <= q + 2)
        \/ (e = - s + 2 /\ q - 1 <= 4 * Z.pos m <= q + 2)).
Proof.
  intros Hp s q.
  pose proof (Zdigits2_bounds p) as [Blo Bhi].
  assert (Hd1 : 1 <= Zdigits2 (Z.pos p) <= 64).
  { split; [cbn; lia|].
    destruct (Z_le_gt_dec (Zdigits2 (Z.pos p)) 64) as [|Hgt]; [assumption|].
    pose proof (Z.pow_le_mono_r 2 64 (Zdigits2 (Z.pos p) - 1)). lia. }
  assert (Hs : 19 <= s <= 82) by (unfold s; lia).
  assert (Hpow : 2 ^ 82 <= Z.pos p * 2 ^ s < 2 ^ 83).
  { assert (E1 : 2 ^ 82 = 2 ^ (Zdigits2 (Z.pos p) - 1) * 2 ^ s)
      by (rewrite <- Z.pow_add_r by lia; f_equal; unfold s; lia).
    assert (E2 : 2 ^ 83 = 2 ^ Zdigits2 (Z.pos p) * 2 ^ s)
      by (rewrite <- Z.pow_add_r by lia; f_equal; unfold s; lia).
    pose proof (Z.pow_pos_nonneg 2 s). rewrite E1, E2. nia. }
  assert (Hq : 2 ^ 52 <= q < 2 ^ 54).
  { unfold q. split.
    - apply Z.div_le_lower_bound; lia.
    - apply Z.div_lt_upper_bound; lia. }
  cbn [SFdiv xorb]. unfold SFdiv_core_binary.
  change (Zdigits2 (Z.pos 1000000000)) with 30.
  replace (Z.min (fexp 53 1024 (Zdigits2 (Z.pos p) + 0 - (30 + 0))) (0 - 0))
    with (- s) by (unfold fexp, emin, s; lia).
  replace (0 - 0 - - s) with s by lia.
  assert (Hshift : match s with
                   | Z.pos _ => Z.shiftl (Z.pos p) s
                   | 0 => Z.pos p
                   | Z.neg _ => 0
                   end = Z.pos p * 2 ^ s).
  { destruct s; try lia. apply Z.shiftl_mul_pow2. lia. }
  rewrite Hshift.
  assert (Hdiv : fst (Z.div_eucl (Z.pos p * 2 ^ s) 1000000000) = q) by reflexivity.
  destruct (Z.div_eucl (Z.pos p * 2 ^ s) 1000000000) as [q' r']. cbn [fst] in Hdiv.
  subst q'.
  destruct (binary_round_aux_spec q (- s) (new_location 1000000000 r'))
    as (m & e & Heq & Hm & Hcase); [exact Hq | lia |].
  exists m, e. split; [exact Heq|]. split; [exact Hm|]. exact Hcase.
Qed.

Lemma float_gt_5_finite (m : positive) (e : Z) :
  float_gt_5 (S754_finite false m e)
  = match -50 ?= e with
    | Lt => true
    | Gt => false
    | Eq => 5629499534213120 <? Z.pos m
    end.
Proof.
  unfold float_gt_5, SFltb, SFcompare, float_five.
  destruct (-50 ?= e); reflexivity.
Qed.

Lemma rich_threshold (n : Z) :
  0 <= n < 2 ^ 64 ->
  exists sol, int_truediv n 1000000000 = Ok sol
              /\ float_gt_5 sol = (5000000000 <? n).
Proof.
  intros Hn. destruct n as [|p|p]; try lia.
  { exists (S754_zero false). split; reflexivity. }
  destruct (Z.eq_dec (Z.pos p) 5000000000) as [E|Hne].
  { injection E as ->. eexists. split; vm_compute; reflexivity. }
  destruct (sfdiv_lamports_spec p ltac:(lia)) as (m & e & Heq & Hm & Hcase).
  pose proof (Zdigits2_bounds p) as [Blo Bhi].
  set (d := Zdigits2 (Z.pos p)) in *.
  assert (Hd : 1 <= d) by (unfold d; cbn; lia).
  exists (S754_finite false m e). split.
  { unfold int_truediv. cbn [Z.eqb exact_int]. rewrite Heq. reflexivity. }
  rewrite float_gt_5_finite.
  assert (Hdm : exists q r, Z.pos p * 2 ^ (83 - d) = 1000000000 * q + r
                            /\ 0 <= r < 1000000000
                            /\ q = Z.pos p * 2 ^ (83 - d) / 1000000000).
  { exists (Z.pos p * 2 ^ (83 - d) / 1000000000),
           (Z.pos p * 2 ^ (83 - d) mod 1000000000).
    split; [apply Z.div_mod; lia|]. split; [apply Z.mod_pos_bound; lia | reflexivity]. }
  destruct Hdm as (q & r & Hqr & Hr & Hq). rewrite <- Hq in Hcase. clear Hq.
  change (2 ^ 52) with 4503599627370496 in *.
  change (2 ^ 53) with 9007199254740992 in *.
  destruct (Z_le_gt_dec d 30) as [H30|H30].
  { (* below 2^30 *)
    assert (Z.pos p < 2 ^ 30)
      by (pose proof (Z.pow_le_mono_r 2 d 30); lia).
    change (2 ^ 30) with 1073741824 in *.
    replace (5000000000 <? Z.pos p) with false by (symmetry; apply Z.ltb_ge; lia).
    destruct (Z.compare_spec (-50) e); try reflexivity; lia. }
  destruct (Z_le_gt_dec 34 d) as [H34|H34].
  { assert (2 ^ 33 <= Z.pos p)
      by (pose proof (Z.pow_le_mono_r 2 33 (d - 1)); lia).
    change (2 ^ 33) with 8589934592 in *.
    replace (5000000000 <? Z.pos p) with true by (symmetry; apply Z.ltb_lt; lia).
    destruct (Z.compare_spec (-50) e); try reflexivity; lia. }
  assert (Hcases : d = 31 \/ d = 32 \/ d = 33) by lia.
  clearbody d.
  destruct Hcases as [-> | [-> | ->]].
  - change (2 ^ (31 - 1)) with 1073741824 in *. change (2 ^ 31) with 2147483648 in *.
    change (2 ^ (83 - 31)) with 4503599627370496 in *.
    replace (5000000000 <? Z.pos p) with false by (symmetry; apply Z.ltb_ge; lia).
    destruct (Z.compare_spec (-50) e); try reflexivity; try lia;
      symmetry; apply Z.ltb_ge; lia.
  - change (2 ^ (32 - 1)) with 2147483648 in *. change (2 ^ 32) with 4294967296 in *.
    change (2 ^ (83 - 32)) with 2251799813685248 in *.
    replace (5000000000 <? Z.pos p) with false by (symmetry; apply Z.ltb_ge; lia).
    destruct (Z.compare_spec (-50) e); try reflexivity; try lia;
      symmetry; apply Z.ltb_ge; lia.
  - change (2 ^ (33 - 1)) with 4294967296 in *. change (2 ^ 33) with 8589934592 in *.
    change (2 ^ (83 - 33)) with 1125899906842624 in *.
    destruct (Z.compare_spec (-50) e).
    + destruct (Z.ltb_spec 5000000000 (Z.pos p)).
      * apply Z.ltb_lt. lia.
      * apply Z.ltb_ge. lia.
    + symmetry. apply Z.ltb_lt. lia.
    + lia.
Qed.

(** C6: for every lamport balance that a 64-bit field can hold, the dev-risk
    check computes sol as the balance divided by 1e9 (the binary64 nearest to
    the quotient; the division never fails) and rich as the comparison
    [sol > 5], which is strict: rich holds exactly for balances above
    5_000_000_000 lamports, so not at 5.0 SOL and already at 5.000001 SOL. *)
Theorem dev_check_threshold `{Environment} (lamports : Z) :
  0 <= lamports < 2 ^ 64 ->
  exists sol,
    int_truediv lamports 1000000000 = Ok sol
    /\ dev_info_of_balance (Ok lamports)
       = [(lit "sol", VFloat sol); (lit "rich", VBool (float_gt_5 sol))]
    /\ float_gt_5 sol = (5000000000 <? lamports)
    /\ (forall w dev n st,
          w_balance w dev = Ok lamports ->
          fst (fst (run w (dev_check dev) n st))
          = Ok [(lit "sol", VFloat sol); (lit "rich", VBool (float_gt_5 sol))]).
Proof.
  intros Hn. destruct (rich_threshold lamports Hn) as (sol & Hdiv & Hgt).
  assert (Hinfo : dev_info_of_balance (Ok lamports)
                  = [(lit "sol", VFloat sol); (lit "rich", VBool (float_gt_5 sol))]).
  { unfold dev_info_of_balance. cbn [rbind]. rewrite Hdiv. reflexivity. }
  exists sol. split; [exact Hdiv|]. split; [exact Hinfo|]. split; [exact Hgt|].
  intros w dev n st Hbal. cbn [run dev_check]. rewrite suspend_eq.
  cbn [run fst]. rewrite Hbal. f_equal. exact Hinfo.
Qed.
End DevRisk.

Lemma dev_check_threshold_witness :
  dev_info_of_balance (Ok 5000000000)
  = [(lit "sol", VFloat float_five); (lit "rich", VBool false)]
  /\ dict_item (dev_info_of_balance (Ok 5000001000)) (lit "rich")
     = Ok (VBool true).
Proof.
  split.
  - destruct (@dev_check_threshold sample_env 5000000000)
      as (sol & Hdiv & Hinfo & Hgt & _); [vm_compute; split; congruence|].
    rewrite Hinfo, Hgt. vm_compute in Hdiv. injection Hdiv as <-. reflexivity.
  - destruct (@dev_check_threshold sample_env 5000001000)
      as (sol & Hdiv & Hinfo & Hgt & _); [vm_compute; split; congruence|].
    rewrite Hinfo, Hgt. reflexivity.
Defined.

(** * Further properties of the code *)

(** ** Command handlers *)

Section Commands.
Context `{Environment}.

(** One update changes the globals in one case only: the /socials command of
    the owner flips [require_socials]. *)
Lemma dispatch_globals (msg : message) (st : state) :
  snd (fst (dispatch msg st))
  = if is_owner_toggle msg then flip_filter st else st.
Proof.
  unfold dispatch, is_owner_toggle, start, status, toggle, flip_filter.
  destruct (msg_command msg), (from_user msg) as [id|]; cbn [fst snd];
    try destruct (id =? YOUR_ID); reflexivity.
Qed.

Lemma dispatch_all_globals (msgs : list message) (st : state) :
  fst (dispatch_all msgs st)
  = {| seen_tokens := seen_tokens st;
       require_socials :=
         xorb (require_socials st) (Nat.odd (owner_toggles msgs)) |}.
Proof.
  revert st. induction msgs as [|m rest IH]; intros st.
  - destruct st as [seen req]. cbn. rewrite xorb_false_r. reflexivity.
  - cbn [dispatch_all]. pose proof (dispatch_globals m st) as E.
    destruct (dispatch m st) as [[r s1] t1]. cbn [fst snd] in E. subst s1.
    specialize (IH (if is_owner_toggle m then flip_filter st else st)).
    destruct (dispatch_all rest (if is_owner_toggle m then flip_filter st else st))
      as [s2 t2].
    cbn [fst] in *. rewrite IH. unfold owner_toggles. cbn [List.filter].
    destruct (is_owner_toggle m);
      cbn [length flip_filter seen_tokens require_socials]; [|reflexivity].
    rewrite Nat.odd_succ, <- Nat.negb_odd. f_equal.
    destruct (require_socials st), (Nat.odd _); reflexivity.
Qed.

(** X1: after any sequence of updates [seen_tokens] is what it was, and
    [require_socials] has been flipped once for every /socials command of the
    owner. Every other update, the /start and /status commands of the owner
    and all commands of other users included, leaves the globals alone; the
    flip does not depend on whether the answer could be sent. The filter of
    line 146 reads the global after the third [await] of the pipeline: the
    value it sees is the one at the arrival of the event, flipped once for
    every such command handled while the transaction lookup, the metadata
    request and the market-data request were pending. *)
Theorem filter_follows_toggle_parity (msgs : list message) (w : world)
    (st : state) :
  fst (dispatch_all msgs st)
  = {| seen_tokens := seen_tokens st;
       require_socials :=
         xorb (require_socials st) (Nat.odd (owner_toggles msgs)) |}
  /\ require_socials (filter_state w st)
     = xorb (require_socials st)
         (Nat.odd (owner_toggles (w_updates w 0 ++ w_updates w 1
                                  ++ w_updates w 2))).
Proof.
  split; [apply dispatch_all_globals|].
  unfold filter_state, st_dex, st_meta, after_updates.
  rewrite !dispatch_all_globals. cbn [require_socials mark_seen].
  unfold owner_toggles. rewrite !List.filter_app, !length_app, !Nat.odd_add.
  destruct (require_socials st), (Nat.odd _), (Nat.odd _), (Nat.odd _);
    reflexivity.
Qed.
End Commands.

(** ** The listener task *)

Section Listener.
Context `{Environment}.

(** Once the listener task has ended, the process only handles commands: a
    run is the dispatch of its Telegram updates, log messages have no effect,
    and the task never comes back. *)
Lemma main_stopped (inputs : list input) (st : state) :
  main inputs {| globals := st; listening := false |}
  = ({| globals := fst (dispatch_all (updates_of inputs) st);
        listening := false |},
     snd (dispatch_all (updates_of inputs) st)).
Proof.
  revert st. induction inputs as [|i rest IH]; intros st; [reflexivity|].
  cbn [main]. destruct i as [msg|payload w]; cbn [step globals listening].
  - cbn [updates_of flat_map app dispatch_all].
    destruct (dispatch msg st) as [[r st1] tr1]. rewrite IH.
    fold (updates_of rest).
    destruct (dispatch_all (updates_of rest) st1) as [st2 tr2]. reflexivity.
  - rewrite IH. cbn [updates_of flat_map app]. fold (updates_of rest).
    destruct (dispatch_all (updates_of rest) st) as [st2 tr2]. reflexivity.
Qed.

(** X2: an exception that leaves [handle_create] ends the listener: whatever
    arrives afterwards, the process performs no further external call and
    sends no alert; only the command handlers still run. *)
Theorem exception_ends_listener (logs : list str) (sig : str) (w : world)
    (p : process) (rest : list input) (e : exn) (st' : state)
    (tr : list effect) :
  listening p = true ->
  str_contains (lit "Instruction: Create") (str_join logs) = true ->
  run w (handle_create logs sig) 0 (globals p) = (Raise e, st', tr) ->
  main (LogMessage (Some (logs, sig)) w :: rest) p
  = ({| globals := fst (dispatch_all (updates_of rest) st');
        listening := false |},
     tr ++ snd (dispatch_all (updates_of rest) st')).
Proof.
  intros Hl Hc Hrun. cbn [main step]. rewrite Hl.
  unfold ws_listener_iter. rewrite Hc, Hrun.
  rewrite main_stopped. reflexivity.
Qed.

(** X3: the test of line 179 joins the lines without a separator, so a batch is
    handed to [handle_create] whenever one of its lines contains the marker. *)
Theorem create_line_is_handled (logs : list str) (sig : str) (l : str) :
  In l logs ->
  str_contains (lit "Instruction: Create") l = true ->
  ws_listener_iter (Some (logs, sig)) = handle_create logs sig.
Proof.
  intros Hin Hl. unfold ws_listener_iter.
  replace (str_contains (lit "Instruction: Create") (str_join logs)) with true;
    [reflexivity|].
  symmetry. apply str_contains_iff.
  apply str_contains_iff in Hl as (pre & post & ->).
  apply List.in_split in Hin as (l1 & l2 & ->).
  exists (concat l1 ++ pre), (post ++ concat l2).
  unfold str_join. rewrite concat_app. cbn [concat].
  rewrite <- !app_assoc. reflexivity.
Qed.

(** X4: [seen_tokens] only grows, and in a process started from [boot] it never
    holds more than one mint. *)
Theorem seen_tokens_grow (inputs : list input) (p : process) :
  seen_tokens (globals p) ⊆ seen_tokens (globals (fst (main inputs p)))
  /\ (size (seen_tokens (globals (fst (main inputs boot)))) <= 1)%nat.
Proof.
  split.
  - revert p. induction inputs as [|i rest IH]; intros p; cbn [main].
    + reflexivity.
    + destruct (step i p) as [p1 tr1] eqn:Hstep.
      destruct (step_general _ _ _ _ Hstep) as (_ & _ & Hs).
      specialize (IH p1). destruct (main rest p1) as [p2 tr2].
      cbn [fst] in *. etransitivity; [|exact IH].
      destruct Hs as [-> | ->]; [reflexivity | apply union_subseteq_r].
  - pose proof (main_seen_bound inputs boot) as Hb.
    assert (Hsub : seen_tokens (globals (fst (main inputs boot)))
                   ⊆ {[PARSE_MINT_HERE]}).
    { apply Hb. cbn. apply empty_subseteq. }
    apply subseteq_size in Hsub. rewrite size_singleton in Hsub. exact Hsub.
Qed.
End Listener.

Lemma exception_ends_listener_witness :
  @main sample_env
    [LogMessage (Some (bad_batch, lit "sig1")) linked_world;
     LogMessage (Some (foo_logs, lit "sig2")) linked_world;
     Update owner_toggle]
    boot
  = ({| globals := flip_filter initial_state; listening := false |},
     [EAnswer (lit "Social filter: OFF")]).
Proof.
  rewrite (@exception_ends_listener sample_env bad_batch (lit "sig1")
             linked_world boot _ UnicodeDecodeError initial_state []);
    vm_compute; reflexivity.
Defined.

Lemma create_line_is_handled_witness :
  @ws_listener_iter sample_env (Some (foo_logs, lit "sig1"))
  = @handle_create sample_env foo_logs (lit "sig1").
Proof.
  apply (@create_line_is_handled sample_env foo_logs (lit "sig1")
           (lit "Program log: Instruction: Create")).
  - left. reflexivity.
  - vm_compute. reflexivity.
Defined.

(** ** Selecting and decoding the payload *)

Section Payload.

Lemma split_aux_skip (sep t rest cur : str) :
  split_aux sep (length t) cur (t ++ rest) = split_aux sep 0 cur rest.
Proof. induction t as [|c t IH]; [reflexivity | exact IH]. Qed.

Lemma split_aux_no_sep (sep s : str) :
  str_contains sep s = false ->
  forall cur, split_aux sep 0 cur s = [rev cur ++ s].
Proof.
  induction s as [|c s IH]; intros Hc cur.
  - cbn [split_aux]. rewrite app_nil_r. reflexivity.
  - cbn [str_contains] in Hc. apply orb_false_iff in Hc as [Hp Hs].
    cbn [split_aux]. rewrite Hp, (IH Hs). cbn [rev].
    rewrite <- app_assoc. reflexivity.
Qed.

Lemma filter_none {A} (f : A -> bool) (l : list A) :
  forallb (fun x => negb (f x)) l = true -> List.filter f l = [].
Proof.
  induction l as [|x l IH]; [reflexivity|]. cbn [forallb List.filter].
  intros Hl. apply andb_true_iff in Hl as [Hx Hl].
  apply negb_true_iff in Hx. rewrite Hx. exact (IH Hl).
Qed.

(** X5: the payload is taken from the first line that has the marker, whatever
    comes before or after that line in the batch: for a line that starts
    with 'Program data: ' and has no second marker, it is the rest of the
    line with the surrounding whitespace removed. *)
Theorem select_payload_first_line (before after : list str) (payload : str) :
  forallb (fun l => negb (str_contains PROGRAM_DATA l)) before = true ->
  str_contains PROGRAM_DATA payload = false ->
  select_payload (before ++ (PROGRAM_DATA ++ payload) :: after)
  = Some (Ok (str_strip payload)).
Proof.
  intros Hb Hp. unfold select_payload.
  rewrite List.filter_app, (filter_none _ _ Hb). cbn [app List.filter].
  assert (Hm : str_contains PROGRAM_DATA (PROGRAM_DATA ++ payload) = true).
  { apply str_contains_iff. exists [], payload. reflexivity. }
  rewrite Hm. unfold str_split.
  change (PROGRAM_DATA ++ payload)
    with (80%N :: (lit "rogram data: " ++ payload)) at 1.
  cbn [split_aux].
  replace (is_prefix PROGRAM_DATA (80%N :: lit "rogram data: " ++ payload))
    with true
    by (symmetry; apply is_prefix_iff; exists payload; reflexivity).
  change (length PROGRAM_DATA - 1)%nat with (length (lit "rogram data: ")).
  rewrite split_aux_skip, (split_aux_no_sep _ _ Hp). reflexivity.
Qed.

Lemma a2b_loop_skips (s : str) :
  forall quad_pos leftchar pads out,
    a2b_loop (List.filter b64_kept s) quad_pos leftchar pads out
    = a2b_loop s quad_pos leftchar pads out.
Proof.
  induction s as [|c s IH]; intros q l p out; [reflexivity|].
  cbn [List.filter]. unfold b64_kept at 1.
  destruct (c =? 61)%N eqn:Hpad.
  - cbn [orb a2b_loop]. rewrite Hpad.
    destruct (2 <=? q)%nat; [destruct (4 <=? q + S p)%nat|];
      try reflexivity; apply IH.
  - cbn [orb]. destruct (b64_value c) as [v|] eqn:Hv.
    + cbn [a2b_loop]. rewrite Hpad, Hv.
      destruct q as [|[|[|q]]]; apply IH.
    + cbn [a2b_loop]. rewrite Hpad, Hv. apply IH.
Qed.

(** X6: [b64decode] is called without [validate]: in an ASCII payload every
    character outside the base64 alphabet and the padding character is
    skipped, not rejected, so the payload decodes like the same text with
    these characters removed. *)
Theorem b64decode_skips_foreign (s : str) :
  forallb (fun c => (c <=? 127)%N) s = true ->
  b64decode s = b64decode (List.filter b64_kept s).
Proof.
  intros Hascii. unfold b64decode. rewrite Hascii.
  replace (forallb (fun c => (c <=? 127)%N) (List.filter b64_kept s)) with true.
  - symmetry. apply a2b_loop_skips.
  - symmetry. apply forallb_forall. intros c Hin.
    apply List.filter_In in Hin as [Hin _].
    rewrite forallb_forall in Hascii. exact (Hascii c Hin).
Qed.
End Payload.

Lemma select_payload_first_line_witness :
  select_payload foo_logs = Some (Ok foo_payload).
Proof.
  apply (select_payload_first_line [lit "Program log: Instruction: Create"] []
           foo_payload); vm_compute; reflexivity.
Defined.

Lemma b64decode_skips_foreign_witness :
  b64decode (lit "Q!Q =-=") = b64decode (lit "QQ==")
  /\ b64decode (lit "QQ==") = Ok [x41].
Proof.
  split; [|vm_compute; reflexivity].
  rewrite (b64decode_skips_foreign (lit "Q!Q =-=")); vm_compute; reflexivity.
Defined.

(** ** The wire layout *)

Section Layout.

Lemma slice_middle {A} (pre mid post : list A) (lo hi : Z) :
  Z.of_nat (length pre) = lo ->
  Z.of_nat (length mid) = hi - lo ->
  slice (pre ++ mid ++ post) lo hi = mid.
Proof.
  intros Hlo Hmid. unfold slice.
  rewrite (drop_app_length' pre (mid ++ post)) by lia.
  apply take_app_length'. lia.
Qed.

(** X7: the buffer seen as a concatenation: the discriminator, 32 bytes of name,
    32 bytes of symbol, four bytes that hold the length of the uri, the uri,
    and anything else. The decoded event is made of the three texts alone:
    what follows the uri is ignored. *)
Theorem parse_create_layout (nb sb lb ub extra : bytes) (name symbol uri : str) :
  length nb = 32%nat ->
  length sb = 32%nat ->
  length lb = 4%nat ->
  from_bytes_little lb = Z.of_nat (length ub) ->
  utf8_decode nb = Ok name ->
  utf8_decode sb = Ok symbol ->
  utf8_decode ub = Ok uri ->
  let data := CREATE_DISC ++ nb ++ sb ++ lb ++ ub ++ extra in
  slice data 0 8 = CREATE_DISC
  /\ parse_create data
     = Ok {| c_name := rstrip_nul name;
             c_symbol := rstrip_nul symbol;
             c_uri := rstrip_nul uri |}.
Proof.
  intros Hn Hs Hl Hlen Hname Hsym Huri data.
  assert (S0 : slice data 0 8 = CREATE_DISC).
  { apply (slice_middle [] CREATE_DISC); reflexivity. }
  assert (S1 : slice data 8 40 = nb).
  { apply (slice_middle CREATE_DISC nb); [reflexivity | lia]. }
  assert (S2 : slice data 40 72 = sb).
  { unfold data. rewrite (app_assoc CREATE_DISC nb).
    apply slice_middle; [rewrite length_app; cbn [length CREATE_DISC]; lia | lia]. }
  assert (S3 : slice data 72 76 = lb).
  { unfold data. rewrite (app_assoc CREATE_DISC nb), (app_assoc _ sb).
    apply slice_middle;
      [rewrite !length_app; cbn [length CREATE_DISC]; lia | lia]. }
  assert (S4 : slice data 76 (76 + Z.of_nat (length ub)) = ub).
  { unfold data.
    rewrite (app_assoc CREATE_DISC nb), (app_assoc _ sb), (app_assoc _ lb).
    apply slice_middle;
      [rewrite !length_app; cbn [length CREATE_DISC]; lia | lia]. }
  split; [exact S0|].
  unfold parse_create. rewrite S1, S2, S3, Hlen, S4, Hname, Hsym, Huri.
  reflexivity.
Qed.

Lemma is_scalar_iff (c : N) :
  is_scalar c = true <-> (c <= 1114111 /\ (c < 55296 \/ 57343 < c))%N.
Proof.
  unfold is_scalar.
  rewrite andb_true_iff, negb_true_iff, andb_false_iff, N.leb_le,
    !N.leb_gt. reflexivity.
Qed.

Ltac decode_tail H IH :=
  match type of H with
  | rbind (utf8_decode_aux ?f ?r) _ = Ok _ =>
      let E := fresh "E" in
      destruct (utf8_decode_aux f r) as [t|] eqn:E;
      cbn [rbind] in H; [injection H as <-; apply IH in E | discriminate H]
  end.

(** Decoding never yields more characters than bytes, and yields Unicode
    scalar values only. *)
Lemma utf8_decode_aux_sound (fuel : nat) :
  forall (b : list N) (s : str),
    utf8_decode_aux fuel b = Ok s ->
    (length s <= length b)%nat /\ forallb is_scalar s = true.
Proof.
  induction fuel as [|fuel IH]; intros b s H; cbn [utf8_decode_aux] in H.
  { injection H as <-. split; [cbn; lia | reflexivity]. }
  destruct b as [|b0 r0]; [injection H as <-; split; [cbn; lia | reflexivity]|].
  destruct (b0 <=? 127)%N eqn:H0.
  { decode_tail H IH. destruct E as [El Es]. cbn [length forallb].
    split; [lia|]. rewrite Es, andb_true_r. apply is_scalar_iff.
    apply N.leb_le in H0. lia. }
  unfold in_range, is_cont in H.
  destruct ((194 <=? b0) && (b0 <=? 223))%N eqn:H2.
  { destruct r0 as [|b1 r1]; [discriminate H|].
    destruct ((128 <=? b1) && (b1 <=? 191))%N eqn:C1; [|discriminate H].
    decode_tail H IH. destruct E as [El Es]. cbn [length forallb].
    split; [lia|]. rewrite Es, andb_true_r. apply is_scalar_iff.
    apply andb_true_iff in H2 as [A1 A2]. apply andb_true_iff in C1 as [B1 B2].
    apply N.leb_le in A1, A2, B1, B2. lia. }
  destruct ((224 <=? b0) && (b0 <=? 239))%N eqn:H3.
  { destruct r0 as [|b1 [|b2 r2]]; try discriminate H.
    destruct (((if (b0 =? 224)%N then 160 else 128) <=? b1)
              && (b1 <=? (if (b0 =? 237)%N then 159 else 191))
              && ((128 <=? b2) && (b2 <=? 191)))%N eqn:C; [|discriminate H].
    decode_tail H IH. destruct E as [El Es]. cbn [length forallb].
    split; [lia|]. rewrite Es, andb_true_r. apply is_scalar_iff.
    apply andb_true_iff in H3 as [A1 A2]. apply andb_true_iff in C as [C1 C2].
    apply andb_true_iff in C1 as [B1 B2]. apply andb_true_iff in C2 as [D1 D2].
    apply N.leb_le in A1, A2, B1, B2, D1, D2.
    destruct (N.eqb_spec b0 224), (N.eqb_spec b0 237); lia. }
  destruct ((240 <=? b0) && (b0 <=? 244))%N eqn:H4; [|discriminate H].
  destruct r0 as [|b1 [|b2 [|b3 r3]]]; try discriminate H.
  destruct (((if (b0 =? 240)%N then 144 else 128) <=? b1)
            && (b1 <=? (if (b0 =? 244)%N then 143 else 191))
            && ((128 <=? b2) && (b2 <=? 191))
            && ((128 <=? b3) && (b3 <=? 191)))%N eqn:C; [|discriminate H].
  decode_tail H IH. destruct E as [El Es]. cbn [length forallb].
  split; [lia|]. rewrite Es, andb_true_r. apply is_scalar_iff.
  apply andb_true_iff in H4 as [A1 A2]. apply andb_true_iff in C as [C1 C3].
  apply andb_true_iff in C1 as [C1 C2]. apply andb_true_iff in C2 as [D1 D2].
  apply andb_true_iff in C3 as [F1 F2]. apply andb_true_iff in C1 as [B1 B2].
  apply N.leb_le in A1, A2, B1, B2, D1, D2, F1, F2.
  destruct (N.eqb_spec b0 240), (N.eqb_spec b0 244); lia.
Qed.

Lemma rstrip_with_prefix (p : N -> bool) (s : str) :
  (length (rstrip_with p s) <= length s)%nat
  /\ (forall f, forallb f s = true -> forallb f (rstrip_with p s) = true).
Proof.
  destruct (rstrip_with_spec p s) as (t & Hs & _).
  split.
  - rewrite Hs at 2. rewrite length_app. lia.
  - intros f Hf. rewrite Hs, forallb_app in Hf.
    apply andb_true_iff in Hf. apply Hf.
Qed.

Lemma slice_length_le {A} (l : list A) (lo hi : Z) :
  (length (slice l lo hi) <= Z.to_nat (hi - lo))%nat.
Proof. unfold slice. rewrite length_take. lia. Qed.

(** X8: whatever the buffer, a decoded event has a name and a symbol of at most
    32 characters and a uri no longer than the length field says; the three
    texts consist of Unicode scalar values and do not end in NUL. *)
Theorem decoded_fields_bounded (data : bytes) (c : creation) :
  parse_create data = Ok c ->
  (length (c_name c) <= 32)%nat
  /\ (length (c_symbol c) <= 32)%nat
  /\ Z.of_nat (length (c_uri c)) <= from_bytes_little (slice data 72 76)
  /\ forallb is_scalar (c_name c ++ c_symbol c ++ c_uri c) = true
  /\ (forall u, c_name c <> u ++ [0%N])
  /\ (forall u, c_symbol c <> u ++ [0%N])
  /\ (forall u, c_uri c <> u ++ [0%N]).
Proof.
  unfold parse_create, utf8_decode. intros H.
  destruct (utf8_decode_aux _ (List.map Byte.to_N (slice data 8 40)))
    as [name|] eqn:En; [|discriminate H].
  destruct (utf8_decode_aux _ (List.map Byte.to_N (slice data 40 72)))
    as [symbol|] eqn:Es; [|discriminate H].
  cbn [rbind] in H.
  destruct (utf8_decode_aux _ (List.map Byte.to_N (slice data 76 _)))
    as [uri|] eqn:Eu; [|discriminate H].
  injection H as <-. cbn [c_name c_symbol c_uri].
  apply utf8_decode_aux_sound in En as [Ln Sn].
  apply utf8_decode_aux_sound in Es as [Ls Ss].
  apply utf8_decode_aux_sound in Eu as [Lu Su].
  rewrite length_map in Ln, Ls, Lu.
  pose proof (slice_length_le data 8 40) as B1.
  pose proof (slice_length_le data 40 72) as B2.
  pose proof (slice_length_le data 76 (76 + from_bytes_little (slice data 72 76)))
    as B3.
  assert (Hpos : 0 <= from_bytes_little (slice data 72 76)).
  { generalize (slice data 72 76). intros b. induction b as [|x b IHb];
      cbn [from_bytes_little]; [lia | pose proof (byte_range x); lia]. }
  unfold rstrip_nul.
  destruct (rstrip_with_prefix (N.eqb 0) name) as [Pn Fn].
  destruct (rstrip_with_prefix (N.eqb 0) symbol) as [Ps Fs].
  destruct (rstrip_with_prefix (N.eqb 0) uri) as [Pu Fu].
  assert (Hnul : forall s u, rstrip_with (N.eqb 0) s <> u ++ [0%N]).
  { intros s u E. destruct (rstrip_with_spec (N.eqb 0) s) as (_ & _ & _ & Hlast).
    specialize (Hlast u 0%N E). discriminate Hlast. }
  repeat split; try apply Hnul; try lia.
  rewrite !forallb_app, (Fn _ Sn), (Fs _ Ss), (Fu _ Su). reflexivity.
Qed.
End Layout.

Lemma parse_create_layout_witness :
  parse_create (CREATE_DISC ++ (x46 :: x6f :: x6f :: repeat x00 29)
                ++ (x46 :: x4f :: x4f :: repeat x00 29)
                ++ [x02; x00; x00; x00] ++ [x68; x69] ++ [xff; xff])
  = Ok {| c_name := lit "Foo"; c_symbol := lit "FOO"; c_uri := lit "hi" |}.
Proof.
  apply (parse_create_layout (x46 :: x6f :: x6f :: repeat x00 29)
           (x46 :: x4f :: x4f :: repeat x00 29) [x02; x00; x00; x00]
           [x68; x69] [xff; xff]
           (lit "Foo" ++ repeat 0%N 29) (lit "FOO" ++ repeat 0%N 29) (lit "hi"));
    vm_compute; reflexivity.
Defined.

Lemma decoded_fields_bounded_witness :
  forallb is_scalar (lit "Fo") = true /\ (length (lit "Fo") <= 32)%nat.
Proof.
  destruct (decoded_fields_bounded
              [x18; x1e; xc8; x28; x05; x1c; x07; x77; x46; x6f]
              {| c_name := lit "Fo"; c_symbol := []; c_uri := [] |})
    as (Hn & _ & _ & Hs & _); [vm_compute; reflexivity|].
  split; [|exact Hn].
  cbn [c_name c_symbol c_uri] in Hs. rewrite !app_nil_r in Hs. exact Hs.
Defined.

(** ** Metadata of an unexpected shape *)

Section Metadata.
Context `{Environment}.

Lemma extract_socials_malformed (metadata : value) :
  well_shaped metadata = false ->
  extract_socials metadata = Raise AttributeError.
Proof.
  unfold well_shaped, extract_socials.
  destruct metadata as [| | | | | |d]; try reflexivity.
  cbn [py_get rbind].
  destruct (dict_get d (lit "description") (VStr [])) as [| | | |desc| |];
    try reflexivity.
  cbn [py_lower rbind].
  destruct (dict_get d (lit "extensions") (VDict [])) as [| | | | | |ext];
    try reflexivity.
  discriminate.
Qed.

Lemma extract_socials_well_shaped (metadata : value) :
  well_shaped metadata = true ->
  exists tg dc, extract_socials metadata = Ok [(lit "tg", tg); (lit "discord", dc)].
Proof.
  unfold well_shaped. intros Hw.
  destruct metadata as [| | | | | |d]; try discriminate Hw.
  unfold extract_socials. cbn [py_get rbind].
  destruct (dict_get d (lit "description") (VStr [])) as [| | | |desc| |];
    try discriminate Hw.
  destruct (dict_get d (lit "extensions") (VDict [])) as [| | | | | |ext];
    try discriminate Hw.
  cbn [py_lower py_get rbind]. eexists. eexists. reflexivity.
Qed.

(** X9: [extract_socials] has no [try]: it returns, with exactly the two keys
    "tg" and "discord", on a document of the shape it relies on, and raises
    [AttributeError] on every other one: a document that is not a dict, a
    description that is not a string (null included), extensions that are not
    a dict. It raises nothing else. *)
Theorem extract_socials_outcome (metadata : value) :
  match extract_socials metadata with
  | Ok sm =>
      well_shaped metadata = true
      /\ exists tg dc, sm = [(lit "tg", tg); (lit "discord", dc)]
  | Raise e => well_shaped metadata = false /\ e = AttributeError
  end.
Proof.
  destruct (well_shaped metadata) eqn:Hw.
  - destruct (extract_socials_well_shaped _ Hw) as (tg & dc & ->).
    split; [reflexivity|]. exists tg, dc. reflexivity.
  - rewrite (extract_socials_malformed _ Hw). split; reflexivity.
Qed.

(** X10: a metadata document of another shape ends the listener: the request for
    it is the last external call that the process ever makes for the log
    subscription, the mint stays recorded, and no alert is sent. *)
Theorem malformed_metadata_ends_listener (w : world) (logs : list str)
    (sig : str) (p : process) (c : creation) (dev : str)
    (accounts : list str) :
  listening p = true ->
  str_contains (lit "Instruction: Create") (str_join logs) = true ->
  decode_create logs = Ok (Some c) ->
  w_transaction w sig = Ok (Some (dev :: accounts)) ->
  PARSE_MINT_HERE ∉ seen_tokens (globals p) ->
  well_shaped (the_meta w c 1) = false ->
  listening (fst (step (LogMessage (Some (logs, sig)) w) p)) = false
  /\ PARSE_MINT_HERE
       ∈ seen_tokens (globals (fst (step (LogMessage (Some (logs, sig)) w) p)))
  /\ calls (snd (step (LogMessage (Some (logs, sig)) w) p))
     = [EGetTransaction sig; EHttpGet (c_uri c) (Some 10)]
  /\ fst (fst (run w (handle_create logs sig) 0 (globals p)))
     = Raise AttributeError.
Proof.
  intros Hl Hc Hdec Htx Hfresh Hshape.
  apply extract_socials_malformed in Hshape.
  cbn [step]. rewrite Hl. unfold ws_listener_iter. rewrite Hc.
  destruct (run w (handle_create logs sig) 0 (globals p)) as [[r st'] tr]
    eqn:Hrun.
  apply run_handle_create in Hrun. cbn [fst snd globals listening].
  destruct Hrun as [| | | | |c' dev' acc' Hd Ht Hseen
                    |c' dev' acc' r st' tr Hd Ht Hseen Hen];
    try congruence.
  - rewrite after_updates_seen in Hseen. contradiction.
  - rewrite Hdec in Hd. injection Hd as <-.
    rewrite Htx in Ht. injection Ht as <- <-.
    destruct Hen as [e Hsm|sm e Hsm Htg|sm tg e Hsm Htg Hdc|sm tg dc Hsm Htg Hdc Hf
                     |sm tg dc e Hsm Htg Hdc Hf Hr|sm tg dc rich e Hsm Htg Hdc Hf Hr Hh
                     |sm tg dc rich head e Hsm Htg Hdc Hf Hr Hh Hkb
                     |sm tg dc rich head kb Hsm Htg Hdc Hf Hr Hh Hkb];
      try congruence.
    rewrite Hshape in Hsm. injection Hsm as <-.
    split; [reflexivity|]. split.
    { unfold st_meta. rewrite after_updates_seen. unfold mark_seen.
      cbn [seen_tokens]. apply elem_of_union. left.
      apply elem_of_singleton. reflexivity. }
    split; [|reflexivity].
    cbn [calls List.filter is_call]. change (List.filter is_call) with calls.
    rewrite calls_app, answers_calls. cbn [app calls List.filter is_call].
    change (List.filter is_call) with calls. rewrite answers_calls. reflexivity.
Qed.
End Metadata.

Lemma malformed_metadata_ends_listener_witness :
  listening (fst (@step sample_env
                    (LogMessage (Some (foo_logs, lit "sig1"))
                       null_description_world) boot)) = false.
Proof.
  apply (@malformed_metadata_ends_listener sample_env null_description_world
           foo_logs (lit "sig1") boot
           {| c_name := lit "Foo"; c_symbol := lit "FOO";
              c_uri := lit "https://x/y.json" |}
           (lit "DevWallet111") []);
    try (vm_compute; reflexivity).
  apply not_elem_of_empty.
Defined.

(** ** Market data *)

Section Market.

Lemma str_eqb_refl (k : str) : str_eqb k k = true.
Proof. unfold str_eqb. apply bool_decide_eq_true. reflexivity. Qed.

(** X11: only the first pair of the document counts: the pairs after it are never
    looked at, nor are the other entries of the document or the status
    code. *)
Theorem dex_uses_first_pair (r : http_response) (d : dict) (pair : value)
    (rest : list value) :
  json r = Ok (VDict d) ->
  dict_lookup d (lit "pairs") = Some (VList (pair :: rest)) ->
  dex_of_response (Ok r)
  = dex_of_response
      (Ok {| status_code := 200;
             json := Ok (VDict [(lit "pairs", VList [pair])]) |}).
Proof.
  intros Hj Hl. unfold dex_of_response, dex_try. cbn [rbind json].
  rewrite Hj. cbn [rbind py_get py_item]. unfold dict_get, dict_item.
  cbn [dict_lookup]. rewrite Hl, str_eqb_refl.
  cbn [truthy rbind py_first]. reflexivity.
Qed.

(** X12: the link of a kind is the url of the first entry of the socials list
    whose type contains the kind. The generator stops there: the entries
    after it are not examined, whatever they are; when that entry has no url
    the lookup raises [KeyError]. *)
Theorem first_url_first_match (kind : str) (before after : list value)
    (d : dict) (t : str) :
  forallb (passed_over kind) before = true ->
  dict_get d (lit "type") (VStr []) = VStr t ->
  str_contains kind t = true ->
  first_url kind (before ++ VDict d :: after) = dict_item d (lit "url").
Proof.
  intros Hb Ht Hk. induction before as [|s before IH].
  - cbn [app first_url py_get rbind]. rewrite Ht. cbn [py_in rbind].
    rewrite Hk. reflexivity.
  - cbn [forallb] in Hb. apply andb_true_iff in Hb as [Hs Hb].
    cbn [app first_url]. unfold passed_over in Hs.
    destruct s as [| | | | | |ds]; try discriminate Hs.
    cbn [py_get rbind].
    destruct (dict_get ds (lit "type") (VStr [])) as [| | | |ts| |];
      try discriminate Hs.
    cbn [py_in rbind]. apply negb_true_iff in Hs. rewrite Hs. exact (IH Hb).
Qed.
End Market.

Lemma dex_uses_first_pair_witness :
  dex_of_response (Ok {| status_code := 503; json := Ok (VDict two_pairs) |})
  = [(lit "mc", VInt 123456); (lit "holders", VStr (lit "?"));
     (lit "tg", VStr (lit "https://t.me/foo")); (lit "discord", VStr []);
     (lit "price", VInt 0)].
Proof.
  rewrite (dex_uses_first_pair
             {| status_code := 503; json := Ok (VDict two_pairs) |} two_pairs
             (VDict [(lit "fdv", VInt 123456);
                     (lit "info",
                      VDict [(lit "socials",
                              VList [VDict [(lit "type", VStr (lit "twitter"));
                                            (lit "url", VStr (lit "https://x.com/foo"))];
                                     VDict [(lit "type", VStr (lit "telegram"));
                                            (lit "url", VStr (lit "https://t.me/foo"))];
                                     VDict [(lit "type", VStr (lit "telegram"))]])])])
             [VDict [(lit "fdv", VInt 1)]]);
    vm_compute; reflexivity.
Defined.

Lemma first_url_first_match_witness :
  first_url (lit "telegram")
    [VDict [(lit "type", VStr (lit "twitter"));
            (lit "url", VStr (lit "https://x.com/foo"))];
     VDict [(lit "type", VStr (lit "telegram"));
            (lit "url", VStr (lit "https://t.me/foo"))];
     VNone]
  = Ok (VStr (lit "https://t.me/foo")).
Proof.
  refine (eq_trans
            (first_url_first_match (lit "telegram")
               [VDict [(lit "type", VStr (lit "twitter"));
                       (lit "url", VStr (lit "https://x.com/foo"))]]
               [VNone]
               [(lit "type", VStr (lit "telegram"));
                (lit "url", VStr (lit "https://t.me/foo"))]
               (lit "telegram") _ _ _) _);
    vm_compute; reflexivity.
Defined.

(** ** The alert *)

Section Alert.
Context `{Environment}.

Lemma enrich_run_no_alert w c ca dev n st r st' tr :
  enrich_run w c ca dev n st r st' tr -> alerts tr = [].
Proof.
  intros Hrun.
  destruct Hrun as [e Hsm|sm e Hsm Htg|sm tg e Hsm Htg Hdc|sm tg dc Hsm Htg Hdc Hf
                    |sm tg dc e Hsm Htg Hdc Hf Hr|sm tg dc rich e Hsm Htg Hdc Hf Hr Hh
                    |sm tg dc rich head e Hsm Htg Hdc Hf Hr Hh Hkb
                    |sm tg dc rich head kb Hsm Htg Hdc Hf Hr Hh Hkb];
    try apply to_dex_alerts; try apply to_dev_alerts.
  - cbn [alerts List.filter is_alert]. apply answers_alerts.
  - rewrite buy_keyboard_raises in Hkb. discriminate Hkb.
Qed.

Lemma handle_run_no_alert w logs sig st r st' tr :
  handle_run w logs sig st r st' tr -> alerts tr = [].
Proof.
  intros Hrun.
  destruct Hrun as [| | | | | |c dev accounts r st' tr Hdec Htx Hseen Hen];
    try reflexivity;
    cbn [alerts List.filter is_alert]; change (List.filter is_alert) with alerts;
    rewrite ?alerts_app, ?answers_alerts; try reflexivity.
  cbn [app]. exact (enrich_run_no_alert _ _ _ _ _ _ _ _ _ Hen).
Qed.

Lemma step_no_alert (i : input) (p : process) : alerts (snd (step i p)) = [].
Proof.
  destruct i as [msg|payload w]; cbn [step].
  - pose proof (dispatch_alerts msg (globals p)) as Ha.
    destruct (dispatch msg (globals p)) as [[r st] t]. exact Ha.
  - destruct (listening p); [|reflexivity].
    destruct (run w (ws_listener_iter payload) 0 (globals p))
      as [[r st] t] eqn:Hrun. cbn [snd].
    apply run_listener_iter in Hrun as [(_ & _ & ->)|(logs & sig & Hrun)];
      [reflexivity | exact (handle_run_no_alert _ _ _ _ _ _ _ Hrun)].
Qed.

(** X13: whatever reaches the process, it never sends a message on its own.
    Line 96 passes the label of the button positionally, which the
    constructor rejects with [TypeError], so [buy_keyboard] raises for every
    mint and line 164 is not reached: over any sequence of inputs the effects
    of the process are the requests of the pipeline and the answers of the
    command handlers, and no [bot.send_message]. *)
Theorem no_alert_is_ever_sent (inputs : list input) (p : process) :
  (forall ca, buy_keyboard ca = Raise TypeError)
  /\ alerts (snd (main inputs p)) = []
  /\ (forall chat txt kb, ~ In (ESendMessage chat txt kb) (snd (main inputs p))).
Proof.
  split; [intros ca; reflexivity|].
  assert (Ha : alerts (snd (main inputs p)) = []).
  { revert p. induction inputs as [|i rest IH]; intros p; [reflexivity|].
    cbn [main]. pose proof (step_no_alert i p) as Hs.
    destruct (step i p) as [p1 tr1]. specialize (IH p1).
    destruct (main rest p1) as [p2 tr2]. cbn [snd] in *.
    rewrite alerts_app, Hs, IH. reflexivity. }
  split; [exact Ha|].
  intros chat txt kb Hin.
  assert (Hin' : In (ESendMessage chat txt kb) (alerts (snd (main inputs p))))
    by (apply List.filter_In; split; [exact Hin | reflexivity]).
  rewrite Ha in Hin'. exact Hin'.
Qed.

Lemma message_head_outcome (c : creation) (ca dev : str) (bal : result Z)
    (dex : dict) (rug social_txt : str) :
  match format_f true 0 (dict_get dex (lit "mc") (VStr (lit "?"))),
        format_f false 8 (dict_get dex (lit "price") (VInt 0)) with
  | Raise e, _ =>
      message_head c ca dev (dev_info_of_balance bal) dex rug social_txt
      = Raise e
  | Ok _, Raise e =>
      message_head c ca dev (dev_info_of_balance bal) dex rug social_txt
      = Raise e
  | Ok _, Ok _ =>
      exists head,
        message_head c ca dev (dev_info_of_balance bal) dex rug social_txt
        = Ok head
  end.
Proof.
  unfold message_head.
  assert (Hf : exists sol rich sol_txt,
             dict_item (dev_info_of_balance bal) (lit "sol") = Ok sol
             /\ format_f false 2 sol = Ok sol_txt
             /\ dict_item (dev_info_of_balance bal) (lit "rich") = Ok rich).
  { unfold dev_info_of_balance.
    destruct bal as [lamports|e]; cbn [rbind];
      [destruct (int_truediv lamports 1000000000) as [sol|e]|];
      do 3 eexists; repeat split; reflexivity. }
  destruct Hf as (sol & rich & sol_txt & -> & Hf & ->).
  cbn [rbind]. rewrite Hf. cbn [rbind].
  destruct (format_f true 0 (dict_get dex (lit "mc") (VStr (lit "?"))))
    as [mc_txt|e1]; cbn [rbind];
    destruct (format_f false 8 (dict_get dex (lit "price") (VInt 0)))
      as [price_txt|e2]; cbn [rbind]; try reflexivity.
  eexists. reflexivity.
Qed.

(** X14: an event that gets past the filter, that is, one for which the
    balance query is issued, never completes: it sends nothing and ends in an
    exception, which ends the listener. When the market cap or the price of
    the market data cannot be formatted (no market data, a string, null) the
    exception is the one of line 157 or 158; when both are numbers the text is
    built and line 163 raises [TypeError]. *)
Theorem passing_event_fails (w : world) (logs : list str) (sig : str)
    (st : state) (address : str) :
  In (EGetBalance address) (snd (run w (handle_create logs sig) 0 st)) ->
  alerts (snd (run w (handle_create logs sig) 0 st)) = []
  /\ fst (fst (run w (handle_create logs sig) 0 st))
     = match format_f true 0
               (dict_get (the_dex w PARSE_MINT_HERE 1) (lit "mc")
                  (VStr (lit "?"))),
             format_f false 8
               (dict_get (the_dex w PARSE_MINT_HERE 1) (lit "price") (VInt 0))
       with
       | Raise e, _ => Raise e
       | Ok _, Raise e => Raise e
       | Ok _, Ok _ => Raise TypeError
       end.
Proof.
  intros Hin.
  destruct (run w (handle_create logs sig) 0 st) as [[r st'] tr] eqn:Hrun.
  apply run_handle_create in Hrun. cbn [fst snd] in *.
  split; [exact (handle_run_no_alert _ _ _ _ _ _ _ Hrun)|].
  assert (Hcall : In (EGetBalance address) (calls tr))
    by (apply List.filter_In; split; [exact Hin | reflexivity]).
  assert (Hc0 : calls (EGetTransaction sig :: answers w 0 st)
                = [EGetTransaction sig]).
  { cbn [calls List.filter is_call]. change (List.filter is_call) with calls.
    rewrite answers_calls. reflexivity. }
  destruct Hrun as [| | | | | |c dev accounts r st' tr Hdec Htx Hseen Hen];
    try (destruct Hin; fail);
    try (rewrite Hc0 in Hcall; destruct Hcall as [E|[]]; discriminate E).
  clear Hc0. cbn [calls List.filter is_call] in Hcall.
  change (List.filter is_call) with calls in Hcall.
  rewrite calls_app, answers_calls in Hcall. cbn [app] in Hcall.
  destruct Hcall as [E|Hcall]; [discriminate E|].
  pose proof (message_head_outcome c PARSE_MINT_HERE dev (w_balance w dev)
                (the_dex w PARSE_MINT_HERE 1)) as Hout.
  fold (the_dev_info w dev) in Hout.
  assert (Hc1 : calls (EHttpGet (c_uri c) (Some 10)
                       :: answers w 1 (mark_seen PARSE_MINT_HERE
                                         (after_updates w 0 st)))
                = [EHttpGet (c_uri c) (Some 10)]).
  { cbn [calls List.filter is_call]. change (List.filter is_call) with calls.
    rewrite answers_calls. reflexivity. }
  destruct Hen as [e Hsm|sm e Hsm Htg|sm tg e Hsm Htg Hdc|sm tg dc Hsm Htg Hdc Hf
                   |sm tg dc e Hsm Htg Hdc Hf Hr|sm tg dc rich e Hsm Htg Hdc Hf Hr Hh
                   |sm tg dc rich head e Hsm Htg Hdc Hf Hr Hh Hkb
                   |sm tg dc rich head kb Hsm Htg Hdc Hf Hr Hh Hkb].
  - rewrite Hc1 in Hcall. destruct Hcall as [E|[]]. discriminate E.
  - rewrite to_dex_calls in Hcall. destruct Hcall as [E|[E|[]]]; discriminate E.
  - rewrite to_dex_calls in Hcall. destruct Hcall as [E|[E|[]]]; discriminate E.
  - rewrite to_dex_calls in Hcall. destruct Hcall as [E|[E|[]]]; discriminate E.
  - destruct (dev_info_rich (w_balance w dev)) as [b Hb].
    fold (the_dev_info w dev) in Hb. rewrite Hb in Hr. discriminate Hr.
  - specialize (Hout (the_rug rich) (social_text tg dc)).
    destruct (format_f true 0 _) as [mc_txt|e1];
      [destruct (format_f false 8 _) as [price_txt|e2]|].
    + destruct Hout as [head Hout]. rewrite Hout in Hh. discriminate Hh.
    + rewrite Hout in Hh. injection Hh as <-. reflexivity.
    + rewrite Hout in Hh. injection Hh as <-. reflexivity.
  - specialize (Hout (the_rug rich) (social_text tg dc)).
    rewrite buy_keyboard_raises in Hkb. injection Hkb as <-.
    destruct (format_f true 0 _) as [mc_txt|e1];
      [destruct (format_f false 8 _) as [price_txt|e2]|].
    + reflexivity.
    + rewrite Hout in Hh. discriminate Hh.
    + rewrite Hout in Hh. discriminate Hh.
  - rewrite buy_keyboard_raises in Hkb. discriminate Hkb.
Qed.
End Alert.

Lemma passing_event_fails_witness :
  fst (fst (@run sample_env _ linked_world
              (@handle_create sample_env foo_logs (lit "sig1")) 0
              initial_state))
  = Raise TypeError
  /\ fst (fst (@run sample_env _ no_market_world
                 (@handle_create sample_env foo_logs (lit "sig1")) 0
                 initial_state))
     = Raise ValueError.
Proof.
  split.
  - destruct (@passing_event_fails sample_env linked_world foo_logs
                (lit "sig1") initial_state (lit "DevWallet111")) as [_ Hr].
    + vm_compute. do 3 right. left. reflexivity.
    + rewrite Hr. vm_compute. reflexivity.
  - destruct (@passing_event_fails sample_env no_market_world foo_logs
                (lit "sig1") initial_state (lit "DevWallet111")) as [_ Hr].
    + vm_compute. do 3 right. left. reflexivity.
    + rewrite Hr. vm_compute. reflexivity.
Defined.

(** ** The exceptions that end the listener *)

Section Failures.
Context `{Environment}.

Lemma a2b_loop_raises (s : str) :
  forall quad_pos leftchar pads out e,
    a2b_loop s quad_pos leftchar pads out = Raise e -> e = BinasciiError.
Proof.
  induction s as [|c s IH]; intros q l p out e; cbn [a2b_loop].
  - destruct q; [discriminate | intros [= <-]; reflexivity].
  - destruct (c =? 61)%N.
    + destruct (2 <=? q)%nat; [destruct (4 <=? q + S p)%nat|];
        try discriminate; apply IH.
    + destruct (b64_value c) as [v|]; [|apply IH].
      destruct q as [|[|[|q]]]; apply IH.
Qed.

Lemma utf8_decode_aux_raises (fuel : nat) :
  forall (b : list N) (e : exn),
    utf8_decode_aux fuel b = Raise e -> e = UnicodeDecodeError.
Proof.
  induction fuel as [|fuel IH]; intros b e; cbn [utf8_decode_aux];
    [discriminate|].
  assert (Htail : forall r (k : str -> result str),
            (forall s, exists s', k s = Ok s') ->
            rbind (utf8_decode_aux fuel r) k = Raise e ->
            e = UnicodeDecodeError).
  { intros r k Hk. destruct (utf8_decode_aux fuel r) as [s|e'] eqn:E;
      cbn [rbind].
    - destruct (Hk s) as [s' ->]. discriminate.
    - intros [= <-]. exact (IH _ _ E). }
  destruct b as [|b0 r0]; [discriminate|].
  destruct (b0 <=? 127)%N.
  { apply Htail. intros s. eexists. reflexivity. }
  destruct (in_range 194 223 b0).
  { destruct r0 as [|b1 r1]; [intros [= <-]; reflexivity|].
    destruct (is_cont b1); [|intros [= <-]; reflexivity].
    apply Htail. intros s. eexists. reflexivity. }
  destruct (in_range 224 239 b0).
  { destruct r0 as [|b1 [|b2 r2]]; try (intros [= <-]; reflexivity).
    destruct (_ && _); [|intros [= <-]; reflexivity].
    apply Htail. intros s. eexists. reflexivity. }
  destruct (in_range 240 244 b0); [|intros [= <-]; reflexivity].
  destruct r0 as [|b1 [|b2 [|b3 r3]]]; try (intros [= <-]; reflexivity).
  destruct (_ && _); [|intros [= <-]; reflexivity].
  apply Htail. intros s. eexists. reflexivity.
Qed.

Lemma bytes_eqb_eq (a b : bytes) : bytes_eqb a b = true -> a = b.
Proof.
  unfold bytes_eqb. intros E. apply bool_decide_eq_true in E.
  revert b E; induction a as [|x a IH]; intros [|y b] E;
    cbn [List.map] in E; try discriminate E; [reflexivity|].
  injection E as E1 E2. f_equal; [apply to_N_inj, E1 | apply IH, E2].
Qed.

(** X16: the decoding step raises in three ways only: [ValueError] for a payload
    with a character outside ASCII, [binascii.Error] for data characters that
    do not fill their last group of four, and [UnicodeDecodeError] for a
    Create buffer with a field that is not UTF-8. The subscript of line 123
    and the slices never raise. *)
Theorem decode_create_exceptions (logs : list str) (e : exn) :
  decode_create logs = Raise e ->
  exists payload,
    select_payload logs = Some (Ok payload)
    /\ ((e = ValueError
         /\ forallb (fun c => (c <=? 127)%N) payload = false)
        \/ (e = BinasciiError
            /\ forallb (fun c => (c <=? 127)%N) payload = true
            /\ b64decode payload = Raise BinasciiError)
        \/ (e = UnicodeDecodeError
            /\ exists data,
                 b64decode payload = Ok data
                 /\ slice data 0 8 = CREATE_DISC
                 /\ parse_create data = Raise UnicodeDecodeError)).
Proof.
  unfold decode_create. intros Hd.
  destruct (select_payload logs) as [[payload|e']|] eqn:Hsel;
    [| exfalso; exact (select_payload_no_raise logs e' Hsel) | discriminate Hd].
  exists payload. split; [reflexivity|]. cbn [rbind] in Hd.
  destruct (b64decode payload) as [data|e'] eqn:Hb; cbn [rbind] in Hd.
  - right. right.
    destruct (bytes_eqb (slice data 0 8) CREATE_DISC) eqn:Hdisc;
      cbn [negb] in Hd; [|discriminate Hd].
    apply bytes_eqb_eq in Hdisc.
    destruct (parse_create data) as [c|e'] eqn:Hp; cbn [rbind] in Hd;
      [discriminate Hd|]. injection Hd as <-.
    assert (He : e' = UnicodeDecodeError).
    { unfold parse_create, utf8_decode in Hp.
      destruct (utf8_decode_aux _ (List.map Byte.to_N (slice data 8 40)))
        as [name|e1] eqn:E1; cbn [rbind] in Hp;
        [|injection Hp as <-; exact (utf8_decode_aux_raises _ _ _ E1)].
      destruct (utf8_decode_aux _ (List.map Byte.to_N (slice data 40 72)))
        as [symbol|e2] eqn:E2; cbn [rbind] in Hp;
        [|injection Hp as <-; exact (utf8_decode_aux_raises _ _ _ E2)].
      destruct (utf8_decode_aux _ (List.map Byte.to_N (slice data 76 _)))
        as [uri|e3] eqn:E3; cbn [rbind] in Hp;
        [discriminate Hp|injection Hp as <-; exact (utf8_decode_aux_raises _ _ _ E3)]. }
    subst e'. split; [reflexivity|]. exists data. repeat split; assumption.
  - injection Hd as <-. unfold b64decode in Hb |- *.
    destruct (forallb (fun c => (c <=? 127)%N) payload) eqn:Hascii.
    + right. left. pose proof (a2b_loop_raises _ _ _ _ _ _ Hb) as ->.
      split; [reflexivity | split; reflexivity].
    + left. injection Hb as <-. split; reflexivity.
Qed.

Lemma final_social_ok (dex : dict) (tg dc : value) (k : str) :
  k = lit "tg" \/ k = lit "discord" ->
  exists v, final_social dex [(lit "tg", tg); (lit "discord", dc)] k = Ok v.
Proof.
  unfold final_social. intros [-> | ->]; destruct (truthy _);
    eexists; reflexivity.
Qed.

Lemma extract_socials_raise (metadata : value) (e : exn) :
  extract_socials metadata = Raise e ->
  well_shaped metadata = false /\ e = AttributeError.
Proof.
  intros Hr. destruct (well_shaped metadata) eqn:Hw.
  - destruct (extract_socials_well_shaped _ Hw) as (tg & dc & Hok).
    rewrite Hok in Hr. discriminate Hr.
  - rewrite (extract_socials_malformed _ Hw) in Hr. injection Hr as <-.
    split; reflexivity.
Qed.

Lemma final_socials_defined (metadata : value) (sm dex : dict) (k : str)
    (e : exn) :
  extract_socials metadata = Ok sm ->
  k = lit "tg" \/ k = lit "discord" ->
  final_social dex sm k <> Raise e.
Proof.
  intros Hsm Hk Hr.
  destruct (well_shaped metadata) eqn:Hw;
    [|rewrite (extract_socials_malformed _ Hw) in Hsm; discriminate Hsm].
  destruct (extract_socials_well_shaped _ Hw) as (mt & md & Hok).
  rewrite Hok in Hsm. injection Hsm as <-.
  destruct (final_social_ok dex mt md k Hk) as [v Hv].
  rewrite Hv in Hr. discriminate Hr.
Qed.

(** The outcome of [handle_create] on an event that got as far as the
    enrichment, from the path conditions. *)
Lemma enrich_run_failure w c dev st0 r st' tr (e : exn) :
  enrich_run w c PARSE_MINT_HERE dev 1 st0 r st' tr ->
  (r = Raise e
   <-> (well_shaped (the_meta w c 1) = false /\ e = AttributeError)
       \/ exists sm tg dc,
            extract_socials (the_meta w c 1) = Ok sm
            /\ final_social (the_dex w PARSE_MINT_HERE 1) sm (lit "tg") = Ok tg
            /\ final_social (the_dex w PARSE_MINT_HERE 1) sm (lit "discord")
               = Ok dc
            /\ filter_rejects (st_dex w 1 st0) tg dc = false
            /\ match format_f true 0
                       (dict_get (the_dex w PARSE_MINT_HERE 1) (lit "mc")
                          (VStr (lit "?"))),
                     format_f false 8
                       (dict_get (the_dex w PARSE_MINT_HERE 1) (lit "price")
                          (VInt 0))
               with
               | Raise e1, _ => e = e1
               | Ok _, Raise e2 => e = e2
               | Ok _, Ok _ => e = TypeError
               end).
Proof.
  intros Hen.
  pose proof (message_head_outcome c PARSE_MINT_HERE dev (w_balance w dev)
                (the_dex w PARSE_MINT_HERE 1)) as Hout.
  fold (the_dev_info w dev) in Hout.
  destruct (dev_info_rich (w_balance w dev)) as [b Hb].
  fold (the_dev_info w dev) in Hb.
  destruct Hen as [e0 Hsm|sm e0 Hsm Htg|sm tg e0 Hsm Htg Hdc|sm tg dc Hsm Htg Hdc Hf
                   |sm tg dc e0 Hsm Htg Hdc Hf Hr|sm tg dc rich e0 Hsm Htg Hdc Hf Hr Hh
                   |sm tg dc rich head e0 Hsm Htg Hdc Hf Hr Hh Hkb
                   |sm tg dc rich head kb Hsm Htg Hdc Hf Hr Hh Hkb].
  - destruct (extract_socials_raise _ _ Hsm) as [Hw ->]. split.
    + intros [= <-]. left. split; [exact Hw | reflexivity].
    + intros [[_ ->]|(sm & tg & dc & Hsm' & _)]; [reflexivity | congruence].
  - exfalso. exact (final_socials_defined _ _ _ _ _ Hsm (or_introl eq_refl) Htg).
  - exfalso. exact (final_socials_defined _ _ _ _ _ Hsm (or_intror eq_refl) Hdc).
  - split; [discriminate|].
    intros [[Hw _]|(sm' & tg' & dc' & Hsm' & Htg' & Hdc' & Hf' & _)].
    + rewrite (extract_socials_malformed _ Hw) in Hsm. discriminate Hsm.
    + congruence.
  - rewrite Hb in Hr. discriminate Hr.
  - specialize (Hout (the_rug rich) (social_text tg dc)). split.
    + intros [= <-]. right. exists sm, tg, dc. repeat (split; [assumption|]).
      destruct (format_f true 0 _) as [mc_txt|e1];
        [destruct (format_f false 8 _) as [price_txt|e2]|].
      * destruct Hout as [head Hout]. congruence.
      * congruence.
      * congruence.
    + intros [[Hw _]|(sm' & tg' & dc' & Hsm' & Htg' & Hdc' & Hf' & He)].
      * rewrite (extract_socials_malformed _ Hw) in Hsm. discriminate Hsm.
      * destruct (format_f true 0 _) as [mc_txt|e1];
          [destruct (format_f false 8 _) as [price_txt|e2]|].
        -- destruct Hout as [head Hout]. congruence.
        -- congruence.
        -- congruence.
  - specialize (Hout (the_rug rich) (social_text tg dc)).
    rewrite buy_keyboard_raises in Hkb. injection Hkb as <-. split.
    + intros [= <-]. right. exists sm, tg, dc. repeat (split; [assumption|]).
      destruct (format_f true 0 _) as [mc_txt|e1];
        [destruct (format_f false 8 _) as [price_txt|e2]|];
        [reflexivity | congruence | congruence].
    + intros [[Hw _]|(sm' & tg' & dc' & Hsm' & Htg' & Hdc' & Hf' & He)].
      * rewrite (extract_socials_malformed _ Hw) in Hsm. discriminate Hsm.
      * destruct (format_f true 0 _) as [mc_txt|e1];
          [destruct (format_f false 8 _) as [price_txt|e2]|];
          congruence.
  - rewrite buy_keyboard_raises in Hkb. discriminate Hkb.
Qed.

(** X17: an exception leaves [handle_create] in exactly the listed ways, each
    with its path: the decoding step; the transaction lookup; a resolved
    transaction without account keys ([IndexError]); for a fresh mint,
    metadata of a shape that [extract_socials] does not handle
    ([AttributeError]); for an event that passed the filter, the market cap
    or else the price that the text cannot format; and, when both can be
    formatted, the [TypeError] of the keyboard at line 163. Every listed
    case does raise, and nothing else does. *)
Theorem handle_create_failure_causes (w : world) (logs : list str)
    (sig : str) (st : state) (e : exn) :
  fst (fst (run w (handle_create logs sig) 0 st)) = Raise e
  <-> failure w logs sig st e.
Proof.
  destruct (run w (handle_create logs sig) 0 st) as [[r st'] tr] eqn:Hrun.
  cbn [fst]. apply run_handle_create in Hrun.
  destruct Hrun as [e0 Hdec|Hdec|c e0 Hdec Htx|c Hdec Htx|c Hdec Htx
                    |c dev acc Hdec Htx Hseen
                    |c dev acc r st' tr Hdec Htx Hseen Hen].
  - split; [intros [= <-]; apply F_decode; exact Hdec|].
    intros Hf; destruct Hf; congruence.
  - split; [discriminate|]. intros Hf; destruct Hf; congruence.
  - split; [intros [= <-]; exact (F_lookup w logs sig st c e0 Hdec Htx)|].
    intros Hf; destruct Hf; congruence.
  - split; [discriminate|]. intros Hf; destruct Hf; congruence.
  - split; [intros [= <-]; exact (F_no_account w logs sig st c Hdec Htx)|].
    intros Hf; destruct Hf; congruence.
  - rewrite after_updates_seen in Hseen.
    split; [discriminate|]. intros Hf; destruct Hf; congruence || contradiction.
  - rewrite after_updates_seen in Hseen.
    rewrite (enrich_run_failure _ _ _ _ _ _ _ e Hen).
    fold (filter_state w st). split.
    + intros [[Hw ->]|(sm & tg & dc & Hsm & Htg & Hdc & Hf & He)].
      * exact (F_metadata w logs sig st c dev acc Hdec Htx Hseen Hw).
      * destruct (format_f true 0 _) as [mc_txt|e1] eqn:Hmc;
          [destruct (format_f false 8 _) as [price_txt|e2] eqn:Hprice|];
          subst e.
        -- exact (F_keyboard w logs sig st c dev acc sm tg dc mc_txt price_txt
                    Hdec Htx Hseen Hsm Htg Hdc Hf Hmc Hprice).
        -- exact (F_price w logs sig st c dev acc sm tg dc mc_txt e2
                    Hdec Htx Hseen Hsm Htg Hdc Hf Hmc Hprice).
        -- exact (F_market_cap w logs sig st c dev acc sm tg dc e1
                    Hdec Htx Hseen Hsm Htg Hdc Hf Hmc).
    + intros Hfail.
      destruct Hfail as [e Hd|c' e Hd Ht|c' Hd Ht|c' dev' acc' Hd Ht Hs Hw
                         |c' dev' acc' sm tg dc e Hd Ht Hs Hsm Htg Hdc Hf Hmc
                         |c' dev' acc' sm tg dc mc_txt e Hd Ht Hs Hsm Htg Hdc Hf
                            Hmc Hprice
                         |c' dev' acc' sm tg dc mc_txt price_txt Hd Ht Hs Hsm Htg
                            Hdc Hf Hmc Hprice];
        try congruence;
        rewrite Hdec in Hd; injection Hd as <-;
        rewrite Htx in Ht; injection Ht as <- <-.
      * left. split; [exact Hw | reflexivity].
      * right. exists sm, tg, dc. repeat (split; [assumption|]).
        rewrite Hmc. reflexivity.
      * right. exists sm, tg, dc. repeat (split; [assumption|]).
        rewrite Hmc, Hprice. reflexivity.
      * right. exists sm, tg, dc. repeat (split; [assumption|]).
        rewrite Hmc, Hprice. reflexivity.
Qed.
End Failures.

Lemma decode_create_exceptions_witness :
  exists payload,
    select_payload bad_utf8_logs = Some (Ok payload)
    /\ exists data, b64decode payload = Ok data
                    /\ parse_create data = Raise UnicodeDecodeError.
Proof.
  destruct (decode_create_exceptions bad_utf8_logs UnicodeDecodeError)
    as (payload & Hsel & [[E _]|[[E _]|(_ & data & Hb & _ & Hp)]]);
    [vm_compute; reflexivity | discriminate E | discriminate E |].
  exists payload. split; [exact Hsel|]. exists data. split; assumption.
Defined.

Lemma handle_create_failure_causes_witness :
  @failure sample_env no_market_world foo_logs (lit "sig1") initial_state
    ValueError
  /\ @failure sample_env linked_world foo_logs (lit "sig1") initial_state
       TypeError.
Proof.
  split.
  - apply (@handle_create_failure_causes sample_env no_market_world foo_logs
             (lit "sig1") initial_state ValueError).
    vm_compute. reflexivity.
  - apply (@handle_create_failure_causes sample_env linked_world foo_logs
             (lit "sig1") initial_state TypeError).
    vm_compute. reflexivity.
Defined.
